(** * Wythoff polytope models: a shallow embedding of [polytopes/models.py]

    The Python module builds uniform polytopes from a Coxeter diagram.  Its
    classes are embedded here as records and functions over them:

    - Python exceptions become the [Raise] branch of the [result] monad;
    - tuples and lists become [list], indexed with Python's rules
      (negative indices count from the end, anything else out of range
      raises [IndexError]);
    - the object's attributes become the fields of [Polytope], and a method
      that assigns attributes returns the updated record;
    - the collaborators that live in other modules ([todd_coxeter.CosetTable],
      [helpers], [numpy.dot]) are interfaces (type classes), instantiated by
      small stand-ins where a concrete run is wanted. *)

From Stdlib Require Import String.
From Stdlib Require Import ZArith List Bool Lia FinFun.
From Stdlib Require Import Floats.PrimFloat.
Import ListNotations.

Set Warnings "-inexact-float".
Local Open Scope Z_scope.

(* ================================================================== *)
(** ** Exceptions and the error monad *)

Inductive exn : Type :=
| IndexError
| TypeError
| ValueError (msg : string).

Inductive result (A : Type) : Type :=
| Ok (a : A)
| Raise (e : exn).

Arguments Ok {A} a.
Arguments Raise {A} e.

Definition bind {A B : Type} (c : result A) (k : A -> result B) : result B :=
  match c with
  | Ok a => k a
  | Raise e => Raise e
  end.

Notation "x <- c ;; k" := (bind c (fun x => k))
  (at level 61, c at next level, right associativity).

(** [f(x) for x in xs], evaluated left to right, stopping at the first
    exception. *)
Fixpoint mapM {A B : Type} (f : A -> result B) (xs : list A) : result (list B) :=
  match xs with
  | [] => Ok []
  | x :: rest =>
      y <- f x ;;
      ys <- mapM f rest ;;
      Ok (y :: ys)
  end.

(** [for x in xs: body], with [s] the variables the body assigns;
    a body that does [continue] returns [s] as it found it. *)
Fixpoint for_each {A S : Type} (xs : list A) (body : S -> A -> result S) (s : S)
  : result S :=
  match xs with
  | [] => Ok s
  | x :: rest =>
      s' <- body s x ;;
      for_each rest body s'
  end.

(* ================================================================== *)
(** ** Python sequences *)

Definition py_len {A : Type} (l : list A) : Z := Z.of_nat (length l).

(** [l[i]] for a tuple, a list or a one-dimensional array. *)
Definition getitem {A : Type} (l : list A) (i : Z) : result A :=
  let k := if i <? 0 then i + py_len l else i in
  if (0 <=? k) && (k <? py_len l) then
    match nth_error l (Z.to_nat k) with
    | Some a => Ok a
    | None => Raise IndexError
    end
  else Raise IndexError.

(** [range(n)] *)
Definition range (n : Z) : list Z := map Z.of_nat (seq 0 (Z.to_nat n)).

(** [t * n] for a tuple [t]: empty when [n <= 0]. *)
Definition tuple_mul {A : Type} (t : list A) (n : Z) : list A :=
  concat (repeat t (Z.to_nat n)).

(** [enumerate(l)], counting from [start]. *)
Fixpoint enumerate_from {A : Type} (start : Z) (l : list A) : list (Z * A) :=
  match l with
  | [] => []
  | a :: rest => (start, a) :: enumerate_from (start + 1) rest
  end.

Definition enumerate {A : Type} (l : list A) : list (Z * A) := enumerate_from 0 l.

(** [itertools.combinations(l, 2)]: pairs in lexicographic order of position. *)
Fixpoint combinations2 {A : Type} (l : list A) : list (A * A) :=
  match l with
  | [] => []
  | x :: rest => map (pair x) rest ++ combinations2 rest
  end.

(** [l[:n]] for [n >= 0]. *)
Definition slice_to {A : Type} (l : list A) (n : Z) : list A := firstn (Z.to_nat n) l.

(** A number as the callers pass it: an [int] or a [float]. *)
Inductive pynum : Type :=
| PyInt (z : Z)
| PyFloat (f : float).

(** [bool(x)] *)
Definition truthy (x : pynum) : bool :=
  match x with
  | PyInt z => negb (z =? 0)
  | PyFloat f => negb (PrimFloat.eqb f 0%float)
  end.

(* ================================================================== *)
(** ** Words, vectors and the external collaborators *)

(** A generator is an integer; a word is a tuple of generators. *)
Definition word : Type := list Z.

(** numpy arrays of float64: a vector and a matrix given by its rows. *)
Definition vec : Type := list float.
Definition mat : Type := list (list float).

(** [numpy.dot(v, M)] for a vector and a matrix.  The order in which the
    products are summed is numpy's business, so the operation is kept
    abstract. *)
Class Numpy : Type := {
  np_dot : vec -> mat -> vec
}.

(** [todd_coxeter.CosetTable].  The constructor takes the generators, the
    relations and the optional arguments [subgens] and [coxeter]
    ([None] when the call site leaves them out); [run] is taken to
    terminate (the presentations handed to it describe finite groups);
    [table_getitem T c g] is [T[c][g]]. *)
Class CosetEnumerator : Type := {
  CosetTable : Type;
  CosetTable_new : list Z -> list word -> option (list word) -> option bool -> CosetTable;
  run : CosetTable -> CosetTable;
  get_words : CosetTable -> list word;
  table_getitem : CosetTable -> Z -> Z -> result Z
}.

(** An entry of a Coxeter diagram: the integer order attached to a pair of
    mirrors. *)
Definition diagram_entry : Type := Z.

(** The [helpers] module: the Coxeter matrix, the mirrors, the reflection
    about a mirror, and the initial point.  All four are pure functions of
    their inputs. *)
Class Helpers : Type := {
  get_coxeter_matrix : list diagram_entry -> list (list Z);
  get_mirrors : list diagram_entry -> list vec;
  reflection_matrix : vec -> mat;
  get_init_point : list vec -> list pynum -> vec
}.

(* ================================================================== *)
(** ** The polytope object *)

Section Model.

Context {NP : Numpy} {CE : CosetEnumerator} {HP : Helpers}.

(** The attributes of a [BasePolytope].  [vtable] is [None] until
    [get_vertices] has run; [vwords] does not exist before that. *)
Record Polytope : Type := mkPolytope {
  coxeter_matrix : list (list Z);
  mirrors : list vec;
  reflections : list mat;
  init_v : vec;
  active : list bool;
  symmetry_gens : list Z;
  symmetry_rels : list word;
  vtable : option CosetTable;
  vwords : option (list word);
  num_vertices : Z;
  num_edges : Z;
  num_faces : Z;
  vertices_coords : list vec;
  edge_indices : list (list (Z * Z));
  face_indices : list (list (list Z))
}.

Definition set_presentation (P : Polytope) (gens : list Z) (rels : list word) : Polytope :=
  mkPolytope (coxeter_matrix P) (mirrors P) (reflections P) (init_v P) (active P)
    gens rels (vtable P) (vwords P)
    (num_vertices P) (num_edges P) (num_faces P)
    (vertices_coords P) (edge_indices P) (face_indices P).

Definition set_vertex_table (P : Polytope) (T : CosetTable) (ws : list word) (n : Z) : Polytope :=
  mkPolytope (coxeter_matrix P) (mirrors P) (reflections P) (init_v P) (active P)
    (symmetry_gens P) (symmetry_rels P) (Some T) (Some ws)
    n (num_edges P) (num_faces P)
    (vertices_coords P) (edge_indices P) (face_indices P).

Definition set_vertices_coords (P : Polytope) (cs : list vec) : Polytope :=
  mkPolytope (coxeter_matrix P) (mirrors P) (reflections P) (init_v P) (active P)
    (symmetry_gens P) (symmetry_rels P) (vtable P) (vwords P)
    (num_vertices P) (num_edges P) (num_faces P)
    cs (edge_indices P) (face_indices P).

(** [self.edge_indices.append(elist); self.num_edges += len(elist)] *)
Definition add_edges (P : Polytope) (elist : list (Z * Z)) : Polytope :=
  mkPolytope (coxeter_matrix P) (mirrors P) (reflections P) (init_v P) (active P)
    (symmetry_gens P) (symmetry_rels P) (vtable P) (vwords P)
    (num_vertices P) (num_edges P + py_len elist) (num_faces P)
    (vertices_coords P) (edge_indices P ++ [elist]) (face_indices P).

(** [self.face_indices.append(flist); self.num_faces += len(flist)] *)
Definition add_faces (P : Polytope) (flist : list (list Z)) : Polytope :=
  mkPolytope (coxeter_matrix P) (mirrors P) (reflections P) (init_v P) (active P)
    (symmetry_gens P) (symmetry_rels P) (vtable P) (vwords P)
    (num_vertices P) (num_edges P) (num_faces P + py_len flist)
    (vertices_coords P) (edge_indices P) (face_indices P ++ [flist]).

(** [self.coxeter_matrix[i][j]] *)
Definition matrix_at (P : Polytope) (i j : Z) : result Z :=
  row <- getitem (coxeter_matrix P) i ;;
  getitem row j.

(** [self.active[i]] *)
Definition active_at (P : Polytope) (i : Z) : result bool := getitem (active P) i.

(* ------------------------------------------------------------------ *)
(** *** [BasePolytope.__init__] *)

(** The Coxeter relations [(i, j) * matrix[i][j]] over the pairs of
    generators. *)
Definition coxeter_relations (M : list (list Z)) (gens : list Z) : result (list word) :=
  mapM (fun ij : Z * Z =>
          let (i, j) := ij in
          row <- getitem M i ;;
          m <- getitem row j ;;
          Ok (tuple_mul [i; j] m))
       (combinations2 gens).

Definition BasePolytope_init (coxeter_diagram : list diagram_entry)
    (init_dist : list pynum) (extra_relations : list word) : result Polytope :=
  let M := get_coxeter_matrix coxeter_diagram in
  let ms := get_mirrors coxeter_diagram in
  let rs := map reflection_matrix ms in
  let v0 := get_init_point ms init_dist in
  let act := map truthy init_dist in
  let gens := range (py_len M) in
  rels <- coxeter_relations M gens ;;
  Ok (mkPolytope M ms rs v0 act gens (rels ++ extra_relations)
        None None 0 0 0 [] [] []).

(* ------------------------------------------------------------------ *)
(** *** [transform] and [move] *)

(** [BasePolytope.transform]: one reflection per letter, in word order. *)
Fixpoint transform (P : Polytope) (vector : vec) (w : word) : result vec :=
  match w with
  | [] => Ok vector
  | g :: rest =>
      R <- getitem (reflections P) g ;;
      transform P (np_dot vector R) rest
  end.

(** [self.vtable[vertex][w]]; subscripting [None] is a [TypeError]. *)
Definition vtable_at (P : Polytope) (vertex g : Z) : result Z :=
  match vtable P with
  | None => Raise TypeError
  | Some T => table_getitem T vertex g
  end.

(** [BasePolytope.move] *)
Fixpoint move (P : Polytope) (vertex : Z) (w : word) : result Z :=
  match w with
  | [] => Ok vertex
  | g :: rest =>
      v <- vtable_at P vertex g ;;
      move P v rest
  end.

(* ------------------------------------------------------------------ *)
(** *** [get_orthogonal_stabilizing_mirrors] *)

(** [all(self.coxeter_matrix[x][s] == 2 for x in subgens)]: stops at the
    first [x] that fails the test. *)
Fixpoint all_commute (P : Polytope) (subgens : list Z) (s : Z) : result bool :=
  match subgens with
  | [] => Ok true
  | x :: rest =>
      m <- matrix_at P x s ;;
      if m =? 2 then all_commute P rest s else Ok false
  end.

Definition get_orthogonal_stabilizing_mirrors (P : Polytope) (subgens : list Z)
  : result (list word) :=
  for_each (symmetry_gens P)
    (fun acc s =>
       c <- all_commute P subgens s ;;
       if c then
         a <- active_at P s ;;
         if negb a then Ok (acc ++ [[s]]) else Ok acc
       else Ok acc)
    [].

(* ------------------------------------------------------------------ *)
(** *** [get_vertices] *)

(** [[(i,) for i, active in enumerate(self.active) if not active]] *)
Definition vertex_stabilizer_gens (P : Polytope) : list word :=
  map (fun ia : Z * bool => [fst ia])
      (filter (fun ia : Z * bool => negb (snd ia)) (enumerate (active P))).

Definition get_vertices (P : Polytope) : result Polytope :=
  let vgens := vertex_stabilizer_gens P in
  let T := run (CosetTable_new (symmetry_gens P) (symmetry_rels P) (Some vgens) None) in
  let ws := get_words T in
  let P1 := set_vertex_table P T ws (py_len ws) in
  cs <- mapM (fun w => transform P1 (init_v P1) w) ws ;;
  Ok (set_vertices_coords P1 cs).

(* ------------------------------------------------------------------ *)
(** *** [get_edges] *)

(** The stabilizer generators of the base edge of type [i]. *)
Definition edge_stabilizer_gens (P : Polytope) (i : Z) : result (list word) :=
  orth <- get_orthogonal_stabilizing_mirrors P [i] ;;
  Ok ([[i]] ++ orth).

(** The body of the [if active:] branch: the edges of type [i]. *)
Definition edge_orbit (P : Polytope) (i : Z) : result (list (Z * Z)) :=
  egens <- edge_stabilizer_gens P i ;;
  let etable := run (CosetTable_new (symmetry_gens P) (symmetry_rels P) (Some egens) None) in
  let words := get_words etable in
  for_each words
    (fun elist w =>
       v1 <- move P 0 w ;;
       v2 <- move P 0 (i :: w) ;;
       Ok (elist ++ [(v1, v2)]))
    [].

Definition get_edges (P : Polytope) : result Polytope :=
  for_each (enumerate (active P))
    (fun self ia =>
       let (i, a) := ia : Z * bool in
       if a then
         elist <- edge_orbit self i ;;
         Ok (add_edges self elist)
       else Ok self)
    P.

(* ------------------------------------------------------------------ *)
(** *** [get_faces] *)

(** [self.active[i] and self.active[j]] *)
Definition both_active (P : Polytope) (i j : Z) : result bool :=
  a <- active_at P i ;;
  if a then active_at P j else Ok false.

(** [(self.active[i] or self.active[j]) and m > 2] *)
Definition one_active_and_not_orthogonal (P : Polytope) (i j m : Z) : result bool :=
  a <- active_at P i ;;
  d <- (if a then Ok true else active_at P j) ;;
  if d then Ok (m >? 2) else Ok false.

(** The base face [f0] of the pair [(i, j)]; [None] stands for the
    [continue] of the last branch. *)
Definition base_face (P : Polytope) (i j m : Z) : result (option (list Z)) :=
  c1 <- both_active P i j ;;
  if c1 then
    f0 <- for_each (range m)
            (fun f0 k =>
               a <- move P 0 (tuple_mul [i; j] k) ;;
               b <- move P 0 ([j] ++ tuple_mul [i; j] k) ;;
               Ok ((f0 ++ [a]) ++ [b]))
            [] ;;
    Ok (Some f0)
  else
    c2 <- one_active_and_not_orthogonal P i j m ;;
    if c2 then
      f0 <- for_each (range m)
              (fun f0 k =>
                 a <- move P 0 (tuple_mul [i; j] k) ;;
                 Ok (f0 ++ [a]))
              [] ;;
      Ok (Some f0)
    else Ok None.

(** The stabilizer generators of the base face of type [(i, j)]. *)
Definition face_stabilizer_gens (P : Polytope) (i j : Z) : result (list word) :=
  orth <- get_orthogonal_stabilizing_mirrors P [i; j] ;;
  Ok ([[i]; [j]] ++ orth).

(** One turn of the loop over the pairs: the faces of type [(i, j)], or
    [None] when the pair is skipped. *)
Definition face_orbit (P : Polytope) (ij : Z * Z) : result (option (list (list Z))) :=
  let (i, j) := ij in
  m <- matrix_at P i j ;;
  fgens <- face_stabilizer_gens P i j ;;
  bf <- base_face P i j m ;;
  match bf with
  | None => Ok None
  | Some f0 =>
      let ftable := run (CosetTable_new (symmetry_gens P) (symmetry_rels P) (Some fgens) None) in
      let words := get_words ftable in
      flist <- for_each words
                 (fun flist w =>
                    f <- mapM (fun v => move P v w) f0 ;;
                    Ok (flist ++ [f]))
                 [] ;;
      Ok (Some flist)
  end.

Definition get_faces (P : Polytope) : result Polytope :=
  for_each (combinations2 (symmetry_gens P))
    (fun self ij =>
       fo <- face_orbit self ij ;;
       match fo with
       | None => Ok self
       | Some flist => Ok (add_faces self flist)
       end)
    P.

(** [build_geometry] *)
Definition build_geometry (P : Polytope) : result Polytope :=
  P1 <- get_vertices P ;;
  P2 <- get_edges P1 ;;
  get_faces P2.

(* ------------------------------------------------------------------ *)
(** *** The families: [Polyhedra], [Polychora], [Polytope5D] *)

Definition Polyhedra_length_error : exn :=
  ValueError "Length error: the inputs must all have length 3".

Definition Polychora_length_error : exn :=
  ValueError "Length error: the input coxeter_diagram must have length 6 and init_dist has length 4".

Definition Polytope5D_length_error : exn :=
  ValueError "Length error: the input coxeter_diagram must have length 10 and init_dist has length 5".

(** [if not len(coxeter_diagram) == len(init_dist) == 3: raise ...] *)
Definition Polyhedra_init (coxeter_diagram : list diagram_entry)
    (init_dist : list pynum) (extra_relations : list word) : result Polytope :=
  if negb ((py_len coxeter_diagram =? py_len init_dist) && (py_len init_dist =? 3))
  then Raise Polyhedra_length_error
  else BasePolytope_init coxeter_diagram init_dist extra_relations.

(** [if not (len(coxeter_diagram) == 6 and len(init_dist) == 4): raise ...] *)
Definition Polychora_init (coxeter_diagram : list diagram_entry)
    (init_dist : list pynum) (extra_relations : list word) : result Polytope :=
  if negb ((py_len coxeter_diagram =? 6) && (py_len init_dist =? 4))
  then Raise Polychora_length_error
  else BasePolytope_init coxeter_diagram init_dist extra_relations.

(** [if len(coxeter_diagram) != 10 and len(init_dist) != 5: raise ...] *)
Definition Polytope5D_init (coxeter_diagram : list diagram_entry)
    (init_dist : list pynum) (extra_relations : list word) : result Polytope :=
  if negb (py_len coxeter_diagram =? 10) && negb (py_len init_dist =? 5)
  then Raise Polytope5D_length_error
  else BasePolytope_init coxeter_diagram init_dist extra_relations.

(** [Polytope5D.proj4d(pole)]: the body reads the literal [1.3], not its
    argument. *)
Definition proj4d (P : Polytope) (pole : float) : result Polytope :=
  cs <- mapM (fun v : vec =>
                let head := slice_to v 4 in
                last <- getitem v (-1) ;;
                Ok (map (fun x => PrimFloat.div x (PrimFloat.sub 1.3%float last)) head))
             (vertices_coords P) ;;
  Ok (set_vertices_coords P cs).

(* ------------------------------------------------------------------ *)
(** *** [Snub] *)

(** A snub polytope carries one more attribute: the dictionary
    [rotations], kept as the list of its items in insertion order. *)
Record SnubPolytope : Type := mkSnub {
  snub_base : Polytope;
  rotations : list (word * Z)
}.

Definition Snub_default_init_dist : list pynum :=
  [PyFloat 1%float; PyFloat 1%float; PyFloat 1%float].

Definition Snub_init (coxeter_diagram : list diagram_entry) (init_dist : list pynum)
  : result SnubPolytope :=
  P <- Polyhedra_init coxeter_diagram init_dist [] ;;
  let gens := [0; 1; 2; 3] in
  p <- matrix_at P 0 1 ;;
  q <- matrix_at P 1 2 ;;
  m02 <- matrix_at P 0 2 ;;
  let rels := [tuple_mul [0] p; tuple_mul [2] q; tuple_mul [0; 2] m02; [0; 1]; [2; 3]] in
  let P' := set_presentation P gens rels in
  p' <- matrix_at P' 0 1 ;;
  q' <- matrix_at P' 1 2 ;;
  m02' <- matrix_at P' 0 2 ;;
  Ok (mkSnub P' [([0], p'); ([2], q'); ([0; 2], m02')]).

(** [Snub.transform]: generator [0] is [r], everything else goes the way
    of [s]. *)
Fixpoint Snub_transform (P : Polytope) (vertex : vec) (w : word) : result vec :=
  match w with
  | [] => Ok vertex
  | g :: rest =>
      if g =? 0 then
        R0 <- getitem (reflections P) 0 ;;
        let vertex := np_dot vertex R0 in
        R1 <- getitem (reflections P) 1 ;;
        let vertex := np_dot vertex R1 in
        Snub_transform P vertex rest
      else
        R1 <- getitem (reflections P) 1 ;;
        let vertex := np_dot vertex R1 in
        R2 <- getitem (reflections P) 2 ;;
        let vertex := np_dot vertex R2 in
        Snub_transform P vertex rest
  end.

(* ------------------------------------------------------------------ *)
(** *** [Snub24Cell] *)

Definition Snub24Cell_init : result SnubPolytope :=
  let coxeter_diagram := [3; 2; 2; 3; 3; 2] in
  let active := [PyInt 1; PyInt 1; PyInt 1; PyInt 1] in
  P <- Polychora_init coxeter_diagram active [] ;;
  let gens := range 6 in
  let rels := [tuple_mul [0] 3; tuple_mul [2] 3; tuple_mul [4] 3;
               tuple_mul [0; 2] 2; tuple_mul [0; 4] 2; tuple_mul [3; 4] 2;
               [0; 1]; [2; 3]; [4; 5]] in
  Ok (mkSnub (set_presentation P gens rels)
        [([0], 3); ([2], 3); ([4], 3); ([0; 2], 2); ([0; 4], 2); ([3; 4], 2)]).

Fixpoint Snub24Cell_transform (P : Polytope) (vertex : vec) (w : word) : result vec :=
  match w with
  | [] => Ok vertex
  | g :: rest =>
      if g =? 0 then
        R0 <- getitem (reflections P) 0 ;;
        let vertex := np_dot vertex R0 in
        R1 <- getitem (reflections P) 1 ;;
        let vertex := np_dot vertex R1 in
        Snub24Cell_transform P vertex rest
      else if g =? 2 then
        R1 <- getitem (reflections P) 1 ;;
        let vertex := np_dot vertex R1 in
        R2 <- getitem (reflections P) 2 ;;
        let vertex := np_dot vertex R2 in
        Snub24Cell_transform P vertex rest
      else
        R1 <- getitem (reflections P) 1 ;;
        let vertex := np_dot vertex R1 in
        R3 <- getitem (reflections P) 3 ;;
        let vertex := np_dot vertex R3 in
        Snub24Cell_transform P vertex rest
  end.

End Model.

(* ================================================================== *)
(** ** The snub classes: [get_vertices], [get_edges], [get_faces] *)

(** What these methods can raise: the exceptions of the base class, the
    [AttributeError] of reading [self.vwords] before [get_vertices] has set
    it, and the [KeyError] of a rotation missing from [self.rotations]. *)
Inductive snub_exn : Type :=
| Inherited (e : exn)
| AttributeError
| KeyError.

Inductive snub_result (A : Type) : Type :=
| SOk (a : A)
| SRaise (e : snub_exn).

Arguments SOk {A} a.
Arguments SRaise {A} e.

Definition lift {A : Type} (c : result A) : snub_result A :=
  match c with
  | Ok a => SOk a
  | Raise e => SRaise (Inherited e)
  end.

Definition sbind {A B : Type} (c : snub_result A) (k : A -> snub_result B)
  : snub_result B :=
  match c with
  | SOk a => k a
  | SRaise e => SRaise e
  end.

Notation "x <~ c ;; k" := (sbind c (fun x => k))
  (at level 61, c at next level, right associativity).

(** [for x in xs: body] for the snub methods. *)
Fixpoint sfor_each {A S : Type} (xs : list A) (body : S -> A -> snub_result S) (s : S)
  : snub_result S :=
  match xs with
  | [] => SOk s
  | x :: rest =>
      s' <~ body s x ;;
      sfor_each rest body s'
  end.

(** [d[key]] for a dictionary kept as the list of its items. *)
Fixpoint dict_get (d : list (word * Z)) (key : word) : snub_result Z :=
  match d with
  | [] => SRaise KeyError
  | (k, v) :: rest =>
      if list_eq_dec Z.eq_dec k key then SOk v else dict_get rest key
  end.

Section SnubModel.

Context {NP : Numpy} {CE : CosetEnumerator}.

(** [self.vwords] *)
Definition read_vwords (P : Polytope) : snub_result (list word) :=
  match vwords P with
  | Some ws => SOk ws
  | None => SRaise AttributeError
  end.

(** The loop
    [for word in words: f = tuple(self.move(v, word) for v in base); flist.append(f)]. *)
Definition orbit_of (P : Polytope) (base : list Z) (words : list word)
  : result (list (list Z)) :=
  for_each words
    (fun flist w =>
       f <- mapM (fun v => move P v w) base ;;
       Ok (flist ++ [f]))
    [].

(** The enumeration [CosetTable(gens, rels, (rot,), coxeter=False)], run,
    and its words. *)
Definition rotation_cosets (P : Polytope) (rot : word) : list word :=
  get_words (run (CosetTable_new (symmetry_gens P) (symmetry_rels P)
                    (Some [rot]) (Some false))).

(** [Snub.get_vertices] *)
Definition Snub_get_vertices (S : SnubPolytope) : result SnubPolytope :=
  let P := snub_base S in
  let T := run (CosetTable_new (symmetry_gens P) (symmetry_rels P) None (Some false)) in
  let ws := get_words T in
  let P1 := set_vertex_table P T ws (py_len ws) in
  cs <- mapM (fun w => Snub_transform P1 (init_v P1) w) ws ;;
  Ok (mkSnub (set_vertices_coords P1 cs) (rotations S)).

(** [Snub24Cell.get_vertices] *)
Definition Snub24Cell_get_vertices (S : SnubPolytope) : result SnubPolytope :=
  let P := snub_base S in
  let T := run (CosetTable_new (symmetry_gens P) (symmetry_rels P) None (Some false)) in
  let ws := get_words T in
  let P1 := set_vertex_table P T ws (py_len ws) in
  cs <- mapM (fun w => Snub24Cell_transform P1 (init_v P1) w) ws ;;
  Ok (mkSnub (set_vertices_coords P1 cs) (rotations S)).

(** The body shared by the two [get_edges], from the choice of the words
    on: the edges of the rotation [rot] of order [order]. *)
Definition rotation_edges (P : Polytope) (rot : word) (order : Z)
  : snub_result (list (Z * Z)) :=
  words <~ (if order =? 2 then SOk (rotation_cosets P rot) else read_vwords P) ;;
  u <~ lift (move P 0 rot) ;;
  lift (for_each words
          (fun elist w =>
             v1 <- move P 0 w ;;
             v2 <- move P u w ;;
             Ok (elist ++ [(v1, v2)]))
          []).

(** [Snub.get_edges]: [for rot in self.rotations], the order looked up. *)
Definition Snub_get_edges (S : SnubPolytope) : snub_result SnubPolytope :=
  sfor_each (map fst (rotations S))
    (fun self rot =>
       order <~ dict_get (rotations self) rot ;;
       elist <~ rotation_edges (snub_base self) rot order ;;
       SOk (mkSnub (add_edges (snub_base self) elist) (rotations self)))
    S.

(** [Snub24Cell.get_edges]: [for rot, order in self.rotations.items()]. *)
Definition Snub24Cell_get_edges (S : SnubPolytope) : snub_result SnubPolytope :=
  sfor_each (rotations S)
    (fun self item =>
       let (rot, order) := item : word * Z in
       elist <~ rotation_edges (snub_base self) rot order ;;
       SOk (mkSnub (add_edges (snub_base self) elist) (rotations self)))
    S.

(** The faces of the rotation [rot] of order [order]: the base face
    [move(0, rot * k)] for [k] in [range(order)], and its images. *)
Definition rotation_faces (P : Polytope) (rot : word) (order : Z)
  : result (list (list Z)) :=
  f0 <- mapM (fun k => move P 0 (tuple_mul rot k)) (range order) ;;
  orbit_of P f0 (rotation_cosets P rot).

(** The faces of a triangle [(0, a, b)], one per vertex word. *)
Definition triangle_faces (P : Polytope) (triangle : list Z)
  : snub_result (list (list Z)) :=
  ws <~ read_vwords P ;;
  lift (orbit_of P triangle ws).

(** [Snub.get_faces] *)
Definition Snub_get_faces (S : SnubPolytope) : snub_result SnubPolytope :=
  S1 <~ sfor_each (rotations S)
          (fun self item =>
             let (rot, order) := item : word * Z in
             if order >? 2 then
               flist <~ lift (rotation_faces (snub_base self) rot order) ;;
               SOk (mkSnub (add_faces (snub_base self) flist) (rotations self))
             else SOk self)
          S ;;
  a <~ lift (move (snub_base S1) 0 [2]) ;;
  b <~ lift (move (snub_base S1) 0 [0; 2]) ;;
  flist <~ triangle_faces (snub_base S1) [0; a; b] ;;
  SOk (mkSnub (add_faces (snub_base S1) flist) (rotations S1)).

(** [Snub24Cell.get_faces] *)
Definition Snub24Cell_get_faces (S : SnubPolytope) : snub_result SnubPolytope :=
  S1 <~ sfor_each [[0]; [2]; [4]]
          (fun self rot =>
             order <~ dict_get (rotations self) rot ;;
             flist <~ lift (rotation_faces (snub_base self) rot order) ;;
             SOk (mkSnub (add_faces (snub_base self) flist) (rotations self)))
          S ;;
  triangles <~ lift (mapM (fun ab : word * word =>
                             a <- move (snub_base S1) 0 (fst ab) ;;
                             b <- move (snub_base S1) 0 (snd ab) ;;
                             Ok [0; a; b])
                          [([2], [0; 2]); ([4], [0; 4]); ([2], [5; 2]); ([0; 2], [5; 2])]) ;;
  sfor_each triangles
    (fun self triangle =>
       flist <~ triangle_faces (snub_base self) triangle ;;
       SOk (mkSnub (add_faces (snub_base self) flist) (rotations self)))
    S1.

(** [build_geometry] on a [Snub] and on a [Snub24Cell]. *)
Definition Snub_build_geometry (S : SnubPolytope) : snub_result SnubPolytope :=
  S1 <~ lift (Snub_get_vertices S) ;;
  S2 <~ Snub_get_edges S1 ;;
  Snub_get_faces S2.

Definition Snub24Cell_build_geometry (S : SnubPolytope) : snub_result SnubPolytope :=
  S1 <~ lift (Snub24Cell_get_vertices S) ;;
  S2 <~ Snub24Cell_get_edges S1 ;;
  Snub24Cell_get_faces S2.

End SnubModel.

(* ================================================================== *)
(** ** Stand-ins for the collaborators

    Small implementations of the three interfaces, enough to run the
    model on concrete polytopes. *)

Module Standin.

Local Open Scope float_scope.

(** [numpy.dot(v, M)], each entry summed from the left.  On the matrices
    used below every product and every partial sum is a small integer, so
    any other order of summation gives the same floats. *)
Definition dot_column (v : vec) (col : list float) : float :=
  fold_left (fun acc xm => acc + fst xm * snd xm) (combine v col) 0.

Definition column (M : mat) (j : nat) : list float :=
  map (fun row => nth j row 0) M.

Definition dot (v : vec) (M : mat) : vec :=
  map (fun j => dot_column v (column M j)) (seq 0 (length (hd [] M))).

Definition numpy : Numpy := {| np_dot := dot |}.

(** The reflection about the hyperplane with normal [v]:
    [I - 2 v^T v / (v . v)]. *)
Definition reflect (v : vec) : mat :=
  let n2 := dot_column v v in
  map (fun i =>
         map (fun j =>
                (if Nat.eqb i j then 1 else 0) - 2 * nth i v 0 * nth j v 0 / n2)
             (seq 0 (length v)))
      (seq 0 (length v)).

Local Open Scope Z_scope.

(** The position of the pair [i < j] in the upper triangle of an
    [n]-by-[n] matrix, read row by row. *)
Definition upper_index (n i j : Z) : Z := i * n - i * (i + 1) / 2 + (j - i - 1).

(** Modelled from the spec: [helpers.get_coxeter_matrix] is not among the
    sources.  The spec asks for a square symmetric integer matrix with
    diagonal 1 whose entry [(i, j)] is the order attached to the pair of
    mirrors [i], [j]; its scenarios list the orders pair by pair
    ([p = matrix[0][1]], [q = matrix[1][2]] for the diagram [(p, 2, q)]),
    that is, as the upper triangle read row by row. *)
Definition fill_matrix (d : list diagram_entry) : list (list Z) :=
  let n := Z.sqrt (2 * py_len d) + 1 in
  map (fun i =>
         map (fun j =>
                if i =? j then 1
                else nth (Z.to_nat (upper_index n (Z.min i j) (Z.max i j))) d 2)
             (range n))
      (range n).

(** Helpers with the geometry fixed in advance: the mirrors [ms] (by
    their normals) and the initial point [v0]. *)
Definition helpers (ms : list vec) (v0 : vec) : Helpers :=
  {| get_coxeter_matrix := fill_matrix;
     get_mirrors := fun _ => ms;
     reflection_matrix := reflect;
     get_init_point := fun _ _ => v0 |}.

(** A coset table given by its words and its rows. *)
Record Table : Type := mkTable {
  table_words : list word;
  table_rows : list (list Z)
}.

Definition word_eqb (u v : word) : bool :=
  (length u =? length v)%nat && forallb (fun xy => fst xy =? snd xy) (combine u v).

Definition subgens_eqb (a b : list word) : bool :=
  (length a =? length b)%nat && forallb (fun xy => word_eqb (fst xy) (snd xy)) (combine a b).

(** An enumerator that answers from a list of known subgroups; any other
    subgroup gets the one-coset table. *)
Fixpoint lookup_table (known : list (list word * Table)) (sub : list word) : Table :=
  match known with
  | [] => mkTable [[]] []
  | (k, T) :: rest => if subgens_eqb k sub then T else lookup_table rest sub
  end.

Definition enumerator (known : list (list word * Table)) : CosetEnumerator :=
  {| CosetTable := Table;
     CosetTable_new := fun _ _ sub _ =>
       lookup_table known (match sub with Some s => s | None => [] end);
     run := fun T => T;
     get_words := table_words;
     table_getitem := fun T c g => row <- getitem (table_rows T) c ;; getitem row g |}.

End Standin.

(** *** The tetrahedron: diagram [(3, 2, 3)], distances [(1, 0, 0)]

    The group is the symmetric group on the four vertices; generator [g]
    exchanges the vertices [g] and [g + 1]. *)
Module Tetrahedron.

Local Open Scope float_scope.

(** Mirror normals [e2 - e3], [e1 - e2], [e2 + e3]; the initial point
    lies on the last two. *)
Definition normals : list vec := [[0; 1; -1]; [1; -1; 0]; [0; 1; 1]].
Definition v0 : vec := [1; 1; -1].

Local Open Scope Z_scope.

(** Cosets of the vertex stabilizer <1, 2>. *)
Definition vertex_table : Standin.Table :=
  Standin.mkTable [[]; [0]; [0; 1]; [0; 1; 2]]
                  [[1; 0; 0]; [0; 2; 1]; [2; 1; 3]; [3; 3; 2]].

(** Cosets of the edge stabilizer <0, 2>. *)
Definition edge_table : Standin.Table :=
  Standin.mkTable [[]; [1]; [1; 2]; [1; 0]; [1; 0; 2]; [1; 0; 2; 1]] [].

(** Cosets of the face stabilizer <0, 1>. *)
Definition face_table : Standin.Table :=
  Standin.mkTable [[]; [2]; [2; 1]; [2; 1; 0]] [].

Definition known : list (list word * Standin.Table) :=
  [([[1]; [2]], vertex_table); ([[0]; [2]], edge_table); ([[0]; [1]], face_table)].

Definition NP : Numpy := Standin.numpy.
Definition CE : CosetEnumerator := Standin.enumerator known.
Definition HP : Helpers := Standin.helpers normals v0.

Definition diagram : list diagram_entry := [3; 2; 3].
Definition init_dist : list pynum := [PyInt 1; PyInt 0; PyInt 0].

(** The object [Polyhedra(diagram, init_dist)]; the constructor does return
    it ([Tetrahedron_polytope0] below). *)
Definition polytope0 : @Polytope CE :=
  match @Polyhedra_init CE HP diagram init_dist [] with
  | Ok P => P
  | Raise _ => mkPolytope [] [] [] [] [] [] [] None None 0 0 0 [] [] []
  end.

(** The object after [get_vertices] ([Tetrahedron_polytope1] below). *)
Definition polytope1 : @Polytope CE :=
  match @get_vertices NP CE polytope0 with
  | Ok P => P
  | Raise _ => polytope0
  end.

End Tetrahedron.

(** *** A tetrahedron with the middle mirror first: diagram [(3, 3, 2)] *)
Module Tetrahedron332.

Local Open Scope float_scope.

(** Mirror normals [e1 - e2], [e2 - e3], [e2 + e3]: mirror 0 meets both
    others at order 3, mirrors 1 and 2 are orthogonal. *)
Definition normals : list vec := [[1; -1; 0]; [0; 1; -1]; [0; 1; 1]].
Definition v0 : vec := [3; 2; 1].

Local Open Scope Z_scope.

Definition NP : Numpy := Standin.numpy.
Definition CE : CosetEnumerator := Standin.enumerator [].
Definition HP : Helpers := Standin.helpers normals v0.

Definition diagram : list diagram_entry := [3; 3; 2].

End Tetrahedron332.

(** *** The 5-cube: diagram [(2, ..., 2)], distances [(1, 1, 1, 1, 1)]

    The group is the group of sign changes of five coordinates; the coset
    (here: the element) of index [c] changes the signs picked by the bits
    of [c]. *)
Module Cube5.

Local Open Scope float_scope.

Definition normals : list vec :=
  [[1; 0; 0; 0; 0]; [0; 1; 0; 0; 0]; [0; 0; 1; 0; 0]; [0; 0; 0; 1; 0]; [0; 0; 0; 0; 1]].
Definition v0 : vec := [1; 1; 1; 1; 1].

Local Open Scope Z_scope.

Definition vertex_table : Standin.Table :=
  Standin.mkTable
    (map (fun c => filter (fun g => Z.testbit c g) (range 5)) (range 32))
    (map (fun c => map (fun g => Z.lxor c (Z.shiftl 1 g)) (range 5)) (range 32)).

Definition NP : Numpy := Standin.numpy.
Definition CE : CosetEnumerator := Standin.enumerator [([], vertex_table)].
Definition HP : Helpers := Standin.helpers normals v0.

Definition diagram : list diagram_entry := repeat 2 10.
Definition init_dist : list pynum := repeat (PyInt 1) 5.

(** The object after [__init__] and [get_vertices] ([Cube5_polytope1]
    below). *)
Definition polytope1 : @Polytope CE :=
  match (P <- @Polytope5D_init CE HP diagram init_dist [] ;; @get_vertices NP CE P) with
  | Ok P => P
  | Raise _ => mkPolytope [] [] [] [] [] [] [] None None 0 0 0 [] [] []
  end.

End Cube5.

(** *** The snub tetrahedron: [Snub((3, 2, 3))]

    The rotations of the tetrahedron, twelve in all, with [r] and [s] of
    order 3 and [rs] of order 2; the polyhedron is an icosahedron. *)
Module Icosahedron.

Local Open Scope float_scope.

Definition v0 : vec := [3; 2; 1].

Local Open Scope Z_scope.

(** The twelve rotations, by a word each, and the table of right
    multiplication by [r], [r^-1], [s], [s^-1]. *)
Definition vertex_words : list word :=
    [[]; [0]; [1]; [2]; [3]; [0; 2]; [0; 3]; [1; 2]; [1; 3]; [2; 1]; [3;
    0]; [0; 3; 0]].
Definition vertex_rows : list (list Z) :=
    [[1; 2; 3; 4]; [2; 0; 5; 6]; [0; 1; 7; 8]; [8; 9; 4; 0]; [10; 5; 0; 3];
    [4; 10; 6; 1]; [11; 7; 1; 5]; [6; 11; 8; 2]; [9; 3; 2; 7]; [3; 8; 11;
    10]; [5; 4; 9; 11]; [7; 6; 10; 9]].

(** Cosets of <rs>, <r> and <s>. *)
Definition cosets_rs_words : list word :=
    [[]; [0]; [1]; [2]; [1; 2]; [1; 3]].
Definition cosets_r_words : list word :=
    [[]; [2]; [3]; [2; 1]].
Definition cosets_s_words : list word :=
    [[]; [0]; [1]; [0; 3]].

Definition known : list (list word * Standin.Table) :=
  [([], Standin.mkTable vertex_words vertex_rows);
   ([[0; 2]], Standin.mkTable cosets_rs_words []);
   ([[0]], Standin.mkTable cosets_r_words []);
   ([[2]], Standin.mkTable cosets_s_words [])].

Definition NP : Numpy := Standin.numpy.
Definition CE : CosetEnumerator := Standin.enumerator known.
Definition HP : Helpers := Standin.helpers Tetrahedron.normals v0.

Definition empty_snub : @SnubPolytope CE :=
  mkSnub (mkPolytope [] [] [] [] [] [] [] None None 0 0 0 [] [] []) [].

(** The object [Snub((3, 2, 3))] ([Icosahedron_snub0] below). *)
Definition snub0 : @SnubPolytope CE :=
  match @Snub_init CE HP [3; 2; 3] Snub_default_init_dist with
  | Ok X => X
  | Raise _ => empty_snub
  end.

(** The object after [get_vertices] ([Icosahedron_snub1] below). *)
Definition snub1 : @SnubPolytope CE :=
  match @Snub_get_vertices NP CE snub0 with
  | Ok X => X
  | Raise _ => empty_snub
  end.

End Icosahedron.

(** *** The snub 24-cell: [Snub24Cell()]

    The rotations of the demitesseract, 96 in all, as matrices of signed
    permutations; the mirrors are those of D4 with the middle one second. *)
Module Snub24.

Local Open Scope float_scope.

(** Mirror normals [e1 - e2], [e2 - e3], [e3 - e4], [e3 + e4]. *)
Definition normals : list vec :=
  [[1; -1; 0; 0]; [0; 1; -1; 0]; [0; 0; 1; -1]; [0; 0; 1; 1]].
Definition v0 : vec := [4; 3; 2; 1].

Local Open Scope Z_scope.

(** The 96 rotations, by a word each, and the table of right
    multiplication by [r], [r^-1], [s], [s^-1], [t], [t^-1]. *)
Definition vertex_words : list word :=
    [[]; [0]; [1]; [2]; [3]; [4]; [5]; [0; 2]; [0; 3]; [0; 4]; [0; 5]; [1;
    2]; [1; 3]; [1; 4]; [1; 5]; [2; 1]; [2; 4]; [2; 5]; [3; 0]; [3; 4]; [3;
    5]; [4; 1]; [4; 2]; [5; 0]; [5; 3]; [0; 2; 4]; [0; 2; 5]; [0; 3; 0];
    [0; 3; 4]; [0; 3; 5]; [0; 4; 2]; [0; 5; 0]; [0; 5; 3]; [1; 2; 4]; [1;
    2; 5]; [1; 3; 4]; [1; 3; 5]; [1; 4; 2]; [1; 5; 3]; [2; 1; 4]; [2; 1;
    5]; [2; 4; 1]; [2; 4; 2]; [2; 5; 0]; [3; 0; 4]; [3; 0; 5]; [3; 4; 1];
    [3; 5; 0]; [4; 1; 2]; [4; 1; 3]; [4; 2; 1]; [5; 0; 2]; [5; 0; 3]; [5;
    3; 0]; [0; 2; 4; 1]; [0; 2; 4; 2]; [0; 3; 0; 4]; [0; 3; 0; 5]; [0; 3;
    4; 1]; [0; 3; 5; 0]; [0; 4; 2; 1]; [0; 5; 0; 2]; [0; 5; 0; 3]; [0; 5;
    3; 0]; [1; 2; 4; 1]; [1; 2; 4; 2]; [1; 3; 5; 0]; [1; 4; 2; 1]; [1; 5;
    3; 0]; [2; 1; 4; 2]; [2; 1; 5; 3]; [2; 4; 1; 2]; [2; 4; 1; 3]; [2; 4;
    2; 1]; [3; 0; 5; 3]; [3; 5; 0; 3]; [4; 1; 2; 4]; [4; 1; 3; 5]; [4; 2;
    1; 4]; [5; 0; 3; 5]; [5; 3; 0; 5]; [0; 2; 4; 1; 2]; [0; 2; 4; 1; 3];
    [0; 2; 4; 2; 1]; [0; 3; 5; 0; 3]; [0; 4; 2; 1; 4]; [0; 5; 3; 0; 5]; [1;
    2; 4; 1; 2]; [1; 2; 4; 1; 3]; [1; 2; 4; 2; 1]; [1; 3; 5; 0; 3]; [1; 4;
    2; 1; 4]; [1; 5; 3; 0; 5]; [2; 4; 1; 2; 4]; [3; 5; 0; 3; 5]; [0; 3; 5;
    0; 3; 5]].
Definition vertex_rows : list (list Z) :=
    [[1; 2; 3; 4; 5; 6]; [2; 0; 7; 8; 9; 10]; [0; 1; 11; 12; 13; 14]; [12;
    15; 4; 0; 16; 17]; [18; 7; 0; 3; 19; 20]; [14; 21; 22; 17; 6; 0]; [23;
    9; 19; 24; 0; 5]; [4; 18; 8; 1; 25; 26]; [27; 11; 1; 7; 28; 29]; [6;
    23; 30; 26; 10; 1]; [31; 13; 28; 32; 1; 9]; [8; 27; 12; 2; 33; 34];
    [15; 3; 2; 11; 35; 36]; [10; 31; 37; 34; 14; 2]; [21; 5; 35; 38; 2;
    13]; [3; 12; 27; 18; 39; 40]; [40; 41; 42; 20; 17; 3]; [43; 35; 5; 22;
    3; 16]; [7; 4; 15; 27; 44; 45]; [26; 46; 24; 6; 20; 4]; [47; 44; 16;
    42; 4; 19]; [5; 14; 48; 49; 31; 23]; [49; 50; 17; 5; 42; 24]; [9; 6;
    51; 52; 21; 31]; [53; 51; 6; 19; 22; 42]; [45; 54; 55; 29; 26; 7]; [46;
    19; 9; 30; 7; 25]; [11; 8; 18; 15; 56; 57]; [34; 58; 32; 10; 29; 8];
    [59; 56; 25; 55; 8; 28]; [52; 60; 26; 9; 55; 32]; [13; 10; 61; 62; 23;
    21]; [63; 61; 10; 28; 30; 55]; [57; 64; 65; 36; 34; 11]; [58; 28; 13;
    37; 11; 33]; [17; 43; 38; 14; 36; 12]; [66; 39; 33; 65; 12; 35]; [62;
    67; 34; 13; 65; 38]; [68; 48; 14; 35; 37; 65]; [36; 66; 69; 57; 40;
    15]; [41; 16; 44; 70; 15; 39]; [16; 40; 71; 72; 66; 43]; [72; 73; 20;
    16; 24; 22]; [35; 17; 50; 68; 41; 66]; [20; 47; 70; 40; 45; 18]; [54;
    25; 56; 74; 18; 44]; [19; 26; 60; 53; 54; 47]; [44; 20; 73; 75; 46;
    54]; [38; 68; 49; 21; 76; 62]; [50; 22; 21; 48; 51; 77]; [22; 49; 68;
    43; 78; 72]; [24; 53; 52; 23; 77; 49]; [60; 30; 23; 51; 61; 79]; [51;
    24; 46; 60; 73; 80]; [25; 45; 81; 82; 47; 46]; [82; 83; 29; 25; 32;
    30]; [29; 59; 74; 45; 57; 27]; [64; 33; 39; 69; 27; 56]; [28; 34; 67;
    63; 64; 59]; [56; 29; 83; 84; 58; 64]; [30; 52; 53; 46; 85; 82]; [32;
    63; 62; 31; 79; 52]; [67; 37; 31; 61; 48; 76]; [61; 32; 58; 67; 83;
    86]; [33; 57; 87; 88; 59; 58]; [88; 89; 36; 33; 38; 37]; [39; 36; 89;
    90; 43; 41]; [37; 62; 63; 58; 91; 88]; [48; 38; 43; 50; 89; 92]; [90;
    87; 57; 39; 74; 70]; [75; 71; 40; 44; 69; 74]; [70; 75; 72; 41; 93;
    90]; [73; 42; 41; 71; 50; 78]; [42; 72; 75; 47; 80; 53]; [84; 81; 45;
    56; 70; 69]; [71; 70; 47; 73; 81; 94]; [92; 91; 79; 77; 62; 48]; [80;
    78; 76; 79; 49; 51]; [77; 80; 93; 92; 72; 50]; [86; 85; 77; 76; 52;
    61]; [78; 77; 85; 94; 53; 73]; [74; 84; 82; 54; 94; 75]; [83; 55; 54;
    81; 60; 85]; [55; 82; 84; 59; 86; 63]; [81; 74; 59; 83; 87; 95]; [79;
    86; 94; 80; 82; 60]; [85; 79; 91; 95; 63; 83]; [69; 90; 88; 64; 95;
    84]; [89; 65; 64; 87; 67; 91]; [65; 88; 90; 66; 92; 68]; [87; 69; 66;
    89; 71; 93]; [76; 92; 95; 86; 88; 67]; [91; 76; 78; 93; 68; 89]; [94;
    95; 92; 78; 90; 71]; [95; 93; 80; 85; 75; 81]; [93; 94; 86; 91; 84;
    87]].

(** Cosets of <rs>, <rt>, <s^-1 t>, <r>, <s>, <t>. *)
Definition cosets_rs_words : list word :=
    [[]; [0]; [1]; [2]; [4]; [5]; [0; 4]; [0; 5]; [1; 2]; [1; 3]; [1; 4];
    [1; 5]; [2; 4]; [2; 5]; [4; 1]; [4; 2]; [5; 0]; [5; 3]; [0; 5; 0]; [0;
    5; 3]; [1; 2; 4]; [1; 2; 5]; [1; 3; 4]; [1; 3; 5]; [1; 4; 2]; [1; 5;
    3]; [2; 4; 1]; [2; 5; 0]; [4; 1; 2]; [4; 1; 3]; [4; 2; 1]; [5; 0; 2];
    [5; 0; 3]; [0; 5; 0; 2]; [0; 5; 0; 3]; [0; 5; 3; 0]; [1; 2; 4; 1]; [1;
    2; 4; 2]; [1; 4; 2; 1]; [1; 5; 3; 0]; [4; 1; 2; 4]; [4; 1; 3; 5]; [4;
    2; 1; 4]; [5; 0; 3; 5]; [1; 2; 4; 1; 2]; [1; 2; 4; 1; 3]; [1; 4; 2; 1;
    4]; [1; 5; 3; 0; 5]].
Definition cosets_rt_words : list word :=
    [[]; [0]; [1]; [2]; [3]; [4]; [0; 2]; [0; 3]; [1; 2]; [1; 3]; [1; 4];
    [1; 5]; [2; 1]; [2; 4]; [2; 5]; [3; 0]; [3; 5]; [4; 2]; [0; 3; 0]; [0;
    3; 5]; [1; 2; 4]; [1; 2; 5]; [1; 3; 4]; [1; 3; 5]; [1; 4; 2]; [1; 5;
    3]; [2; 1; 4]; [2; 1; 5]; [2; 4; 1]; [2; 5; 0]; [3; 0; 4]; [3; 0; 5];
    [4; 2; 1]; [0; 3; 0; 4]; [0; 3; 0; 5]; [0; 3; 5; 0]; [1; 2; 4; 1]; [1;
    2; 4; 2]; [1; 3; 5; 0]; [1; 4; 2; 1]; [2; 1; 4; 2]; [2; 1; 5; 3]; [2;
    4; 1; 2]; [3; 0; 5; 3]; [1; 2; 4; 1; 2]; [1; 2; 4; 1; 3]; [1; 2; 4; 2;
    1]; [1; 3; 5; 0; 3]].
Definition cosets_st_words : list word :=
    [[]; [0]; [1]; [2]; [3]; [4]; [0; 2]; [0; 3]; [0; 5]; [1; 2]; [1; 3];
    [1; 4]; [1; 5]; [2; 1]; [2; 4]; [2; 5]; [3; 0]; [4; 1]; [0; 3; 0]; [0;
    3; 4]; [0; 3; 5]; [0; 5; 0]; [1; 2; 4]; [1; 2; 5]; [1; 3; 4]; [1; 3;
    5]; [1; 4; 2]; [1; 5; 3]; [2; 1; 4]; [2; 1; 5]; [2; 4; 1]; [2; 5; 0];
    [4; 1; 2]; [0; 3; 0; 4]; [0; 3; 0; 5]; [0; 3; 4; 1]; [0; 3; 5; 0]; [0;
    5; 0; 3]; [1; 2; 4; 1]; [1; 2; 4; 2]; [1; 3; 5; 0]; [1; 4; 2; 1]; [1;
    5; 3; 0]; [2; 1; 4; 2]; [1; 2; 4; 1; 2]; [1; 2; 4; 1; 3]; [1; 2; 4; 2;
    1]; [1; 3; 5; 0; 3]].
Definition cosets_r_words : list word :=
    [[]; [2]; [3]; [4]; [5]; [2; 1]; [2; 4]; [2; 5]; [3; 4]; [3; 5]; [4;
    1]; [4; 2]; [5; 3]; [2; 1; 4]; [2; 1; 5]; [2; 4; 1]; [2; 4; 2]; [2; 5;
    0]; [3; 5; 0]; [4; 1; 2]; [4; 1; 3]; [4; 2; 1]; [5; 3; 0]; [2; 1; 4;
    2]; [2; 4; 1; 2]; [2; 4; 1; 3]; [2; 4; 2; 1]; [3; 5; 0; 3]; [4; 1; 2;
    4]; [4; 2; 1; 4]; [5; 3; 0; 5]; [2; 4; 1; 2; 4]].
Definition cosets_s_words : list word :=
    [[]; [0]; [1]; [4]; [5]; [0; 3]; [0; 4]; [0; 5]; [1; 4]; [1; 5]; [4;
    1]; [4; 2]; [5; 0]; [0; 3; 4]; [0; 3; 5]; [0; 4; 2]; [0; 5; 0]; [0; 5;
    3]; [1; 4; 2]; [4; 1; 2]; [4; 1; 3]; [4; 2; 1]; [5; 0; 3]; [0; 3; 4;
    1]; [0; 5; 0; 2]; [0; 5; 0; 3]; [0; 5; 3; 0]; [1; 4; 2; 1]; [4; 1; 2;
    4]; [4; 1; 3; 5]; [5; 0; 3; 5]; [0; 5; 3; 0; 5]].
Definition cosets_t_words : list word :=
    [[]; [0]; [1]; [2]; [3]; [0; 2]; [0; 3]; [0; 5]; [1; 2]; [1; 3]; [2;
    1]; [2; 4]; [3; 0]; [0; 2; 4]; [0; 3; 0]; [0; 3; 4]; [0; 3; 5]; [0; 5;
    3]; [1; 2; 4]; [2; 1; 4]; [2; 1; 5]; [2; 4; 1]; [3; 0; 5]; [0; 3; 0;
    4]; [0; 3; 0; 5]; [0; 3; 4; 1]; [0; 3; 5; 0]; [1; 2; 4; 1]; [2; 1; 4;
    2]; [2; 1; 5; 3]; [3; 0; 5; 3]; [0; 3; 5; 0; 3]].

Definition known : list (list word * Standin.Table) :=
  [([], Standin.mkTable vertex_words vertex_rows);
   ([[0; 2]], Standin.mkTable cosets_rs_words []);
   ([[0; 4]], Standin.mkTable cosets_rt_words []);
   ([[3; 4]], Standin.mkTable cosets_st_words []);
   ([[0]], Standin.mkTable cosets_r_words []);
   ([[2]], Standin.mkTable cosets_s_words []);
   ([[4]], Standin.mkTable cosets_t_words [])].

Definition NP : Numpy := Standin.numpy.
Definition CE : CosetEnumerator := Standin.enumerator known.
Definition HP : Helpers := Standin.helpers normals v0.

Definition empty_snub : @SnubPolytope CE :=
  mkSnub (mkPolytope [] [] [] [] [] [] [] None None 0 0 0 [] [] []) [].

(** The object [Snub24Cell()] ([Snub24_snub0] below). *)
Definition snub0 : @SnubPolytope CE :=
  match @Snub24Cell_init CE HP with
  | Ok X => X
  | Raise _ => empty_snub
  end.

(** The object after [get_vertices] ([Snub24_snub1] below). *)
Definition snub1 : @SnubPolytope CE :=
  match @Snub24Cell_get_vertices NP CE snub0 with
  | Ok X => X
  | Raise _ => empty_snub
  end.

End Snub24.

(** *** Objects for the edge cases *)
Module Resting.

(** [Polyhedra((3, 2, 3), (0, 0, 0))]: the initial point on every mirror
    ([Resting_polytope] below). *)
Definition polytope : @Polytope Tetrahedron.CE :=
  match @Polyhedra_init Tetrahedron.CE Tetrahedron.HP Tetrahedron.diagram
          [PyInt 0; PyInt 0; PyInt 0] [] with
  | Ok P => P
  | Raise _ => mkPolytope [] [] [] [] [] [] [] None None 0 0 0 [] [] []
  end.

End Resting.

(* ================================================================== *)
(** ** Conditions and vocabulary of the statements *)

(** The items of a list of options, in order. *)
Fixpoint somes {O : Type} (os : list (option O)) : list O :=
  match os with
  | [] => []
  | Some y :: rest => y :: somes rest
  | None :: rest => somes rest
  end.

Section Conditions.

Context {CE : CosetEnumerator}.

(** [s] is one of the object's generators. *)
Definition is_generator (P : Polytope) (s : Z) : Prop := In s (symmetry_gens P).

(** What [BasePolytope.__init__] sets up when the Coxeter matrix is square
    and there is one distance per mirror: [n] generators [0 .. n-1], an
    [n]-by-[n] matrix, [n] active flags. *)
Definition well_formed (P : Polytope) : Prop :=
  let n := py_len (coxeter_matrix P) in
  Forall (fun row => py_len row = n) (coxeter_matrix P) /\
  py_len (active P) = n /\
  symmetry_gens P = range n.

(** The Coxeter matrix has 1 on its diagonal. *)
Definition diagonal_one (P : Polytope) : Prop :=
  forall s, is_generator P s -> matrix_at P s s = Ok 1.

(** The vertex table is there and is closed: following a generator from a
    vertex leads to a vertex. *)
Definition vertex_table_closed (P : Polytope) : Prop :=
  exists T, vtable P = Some T /\
    0 < num_vertices P /\
    forall v g, 0 <= v < num_vertices P -> is_generator P g ->
      exists v', table_getitem T v g = Ok v' /\ 0 <= v' < num_vertices P.

(** The enumerator answers with words in the generators it was given. *)
Definition enumerator_words_valid (P : Polytope) : Prop :=
  forall sub w g,
    In w (get_words (run (CosetTable_new (symmetry_gens P) (symmetry_rels P) sub None))) ->
    In g w -> is_generator P g.

(** The test a generator passes to be returned, read off the code. *)
Definition orthogonal_and_fixing (P : Polytope) (S : list Z) (s : Z) : bool :=
  match all_commute P S s, active_at P s with
  | Ok true, Ok false => true
  | _, _ => false
  end.

(** Two objects with the same presentation, flags and vertex table. *)
Definition same_symmetry (P Q : Polytope) : Prop :=
  coxeter_matrix P = coxeter_matrix Q /\
  active P = active Q /\
  symmetry_gens P = symmetry_gens Q /\
  symmetry_rels P = symmetry_rels Q /\
  vtable P = vtable Q.

(** A valid vertex index of the object. *)
Definition is_vertex (P : Polytope) (v : Z) : Prop := 0 <= v < num_vertices P.

(** The reflections a generator of [Snub] stands for. *)
Definition Snub_expansion (g : Z) : word := if g =? 0 then [0; 1] else [1; 2].

(** The reflections a generator of [Snub24Cell] stands for. *)
Definition Snub24Cell_expansion (g : Z) : word :=
  if g =? 0 then [0; 1] else if g =? 2 then [1; 2] else [1; 3].

(** The counters agree with the collections. *)
Definition counts_agree (P : Polytope) : Prop :=
  num_vertices P = py_len (vertices_coords P) /\
  num_edges P = py_len (concat (edge_indices P)) /\
  num_faces P = py_len (concat (face_indices P)).

(** [vertex_table_closed], as a test that computes. *)
Definition closed_check (P : Polytope) : bool :=
  match vtable P with
  | None => false
  | Some T =>
      (0 <? num_vertices P) &&
      forallb (fun v =>
                 forallb (fun g =>
                            match table_getitem T v g with
                            | Ok v' => (0 <=? v') && (v' <? num_vertices P)
                            | Raise _ => false
                            end)
                         (symmetry_gens P))
              (range (num_vertices P))
  end.

(** The words are words in the generators [gens], as a test. *)
Definition words_check (gens : list Z) (ws : list word) : bool :=
  forallb (forallb (fun g => existsb (Z.eqb g) gens)) ws.

End Conditions.

(** ** Vocabulary of the statements on the snub classes *)

Section SnubConditions.

Context {CE : CosetEnumerator}.

(** The object is ready for [get_edges] and [get_faces]: the vertex table
    is closed, [vwords] holds the words [ws], and these words and the
    words of the enumerations by a rotation are words in the generators. *)
Definition snub_ready (P : Polytope) (ws : list word) : Prop :=
  vertex_table_closed P /\
  vwords P = Some ws /\
  Forall (Forall (is_generator P)) ws /\
  (forall rot w, In w (rotation_cosets P rot) -> Forall (is_generator P) w).

(** The words [get_edges] uses for a rotation of order [order]. *)
Definition edge_words (P : Polytope) (ws : list word) (rot : word) (order : Z)
  : list word :=
  if order =? 2 then rotation_cosets P rot else ws.

(** What a turn of a face loop hands over. *)
Definition emit_faces (s : SnubPolytope) (o : option (list (list Z))) : SnubPolytope :=
  match o with
  | Some flist => mkSnub (add_faces (snub_base s) flist) (rotations s)
  | None => s
  end.

(** The rotations of [Snub24Cell]. *)
Definition Snub24Cell_rotations : list (word * Z) :=
  [([0], 3); ([2], 3); ([4], 3); ([0; 2], 2); ([0; 4], 2); ([3; 4], 2)].

(** A triangle of vertex indices. *)
Definition is_triangle (P : Polytope) (f : list Z) : Prop :=
  py_len f = 3 /\ Forall (is_vertex P) f.

(** What the loops of [get_faces] rely on: the state differs from [P]
    by faces only. *)
Definition faces_added (P : Polytope) (d : list (word * Z)) (s : SnubPolytope) : Prop :=
  same_symmetry (snub_base s) P /\ vwords (snub_base s) = vwords P /\ rotations s = d.

End SnubConditions.

(** ** The projection as the specification words it *)

(** Each 5D coordinate [v] goes to [v[0:4] / (pole - v[4])]. *)
Definition proj4d_as_specified {CE : CosetEnumerator} (P : Polytope) (pole : float)
  : result Polytope :=
  cs <- mapM (fun v : vec =>
                last <- getitem v 4 ;;
                Ok (map (fun x => PrimFloat.div x (PrimFloat.sub pole last)) (slice_to v 4)))
             (vertices_coords P) ;;
  Ok (set_vertices_coords P cs).

(* ================================================================== *)
(** * Properties *)

(** ** The error monad and the loops *)

Lemma bind_Ok_inv {A B : Type} (c : result A) (k : A -> result B) (b : B) :
  bind c k = Ok b -> exists a, c = Ok a /\ k a = Ok b.
Proof.
  destruct c as [a | e]; simpl; intros H.
  - exists a. split; [reflexivity | exact H].
  - discriminate.
Qed.

Lemma bind_Raise_inv {A B : Type} (c : result A) (k : A -> result B) (e : exn) :
  bind c k = Raise e -> c = Raise e \/ exists a, c = Ok a /\ k a = Raise e.
Proof.
  destruct c as [a | e']; simpl; intros H.
  - right. exists a. split; [reflexivity | exact H].
  - left. injection H as ->. reflexivity.
Qed.

(** A comprehension all of whose items evaluate. *)
Lemma mapM_Forall2 {A B : Type} (f : A -> result B) (R : A -> B -> Prop) (xs : list A) :
  (forall x, In x xs -> exists y, f x = Ok y /\ R x y) ->
  exists ys, mapM f xs = Ok ys /\ Forall2 R xs ys.
Proof.
  induction xs as [| x rest IH]; intros H; simpl.
  - exists []. split; [reflexivity | constructor].
  - destruct (H x (or_introl eq_refl)) as [y [Hy HR]].
    destruct IH as [ys [Hys HF]].
    { intros x' Hx'. apply H. right. exact Hx'. }
    exists (y :: ys). rewrite Hy. simpl. rewrite Hys. simpl.
    split; [reflexivity | constructor; assumption].
Qed.

(** A loop whose body appends to its accumulator: every turn contributes
    the items [g c] of some [c] related to the loop variable. *)
Lemma for_each_append {A B C : Type} (g : C -> list B) (R : A -> C -> Prop)
    (body : list B -> A -> result (list B)) (xs : list A) :
  (forall acc x, In x xs -> exists c, body acc x = Ok (acc ++ g c) /\ R x c) ->
  forall acc, exists cs,
    for_each xs body acc = Ok (acc ++ flat_map g cs) /\ Forall2 R xs cs.
Proof.
  induction xs as [| x rest IH]; intros H acc; simpl.
  - exists []. simpl. rewrite app_nil_r. split; [reflexivity | constructor].
  - destruct (H acc x (or_introl eq_refl)) as [c [Hc HR]].
    rewrite Hc. simpl.
    destruct (IH (fun a y Hy => H a y (or_intror Hy)) (acc ++ g c)) as [cs [Hcs HF]].
    exists (c :: cs). simpl. rewrite Hcs, app_assoc.
    split; [reflexivity | constructor; assumption].
Qed.

(** A loop over an object: each turn either leaves the object alone or
    hands it one item [o] to [emit]; [inv] is what the turns rely on. *)
Lemma for_each_emit {S A O : Type} (inv : S -> Prop) (emit : S -> O -> S)
    (R : A -> option O -> Prop) (body : S -> A -> result S) (xs : list A) :
  (forall s o, inv s -> inv (emit s o)) ->
  (forall s x, inv s -> In x xs ->
     exists o, R x o /\
       body s x = Ok (match o with Some y => emit s y | None => s end)) ->
  forall s, inv s ->
    exists os, Forall2 R xs os /\
      for_each xs body s =
        Ok (fold_left (fun s o => match o with Some y => emit s y | None => s end) os s).
Proof.
  intros Hemit.
  induction xs as [| x rest IH]; intros H s Hs; simpl.
  - exists []. split; [constructor | reflexivity].
  - destruct (H s x Hs (or_introl eq_refl)) as [o [HR Hb]].
    rewrite Hb. simpl.
    assert (Hs' : inv (match o with Some y => emit s y | None => s end)).
    { destruct o; [apply Hemit |]; exact Hs. }
    destruct (IH (fun s' y Hi Hy => H s' y Hi (or_intror Hy)) _ Hs') as [os [HF Hos]].
    exists (o :: os). split; [constructor; assumption | exact Hos].
Qed.

(** ** Python sequences *)

Lemma py_len_nonneg {A : Type} (l : list A) : 0 <= py_len l.
Proof. unfold py_len. lia. Qed.

Lemma getitem_in_range {A : Type} (l : list A) (i : Z) :
  0 <= i < py_len l ->
  exists a, getitem l i = Ok a /\ nth_error l (Z.to_nat i) = Some a.
Proof.
  intros Hi. unfold getitem.
  destruct (i <? 0) eqn:Hneg; [apply Z.ltb_lt in Hneg; lia |].
  destruct (Z.leb_spec 0 i); [| lia].
  destruct (Z.ltb_spec i (py_len l)); [| lia].
  simpl.
  destruct (nth_error l (Z.to_nat i)) as [a |] eqn:Hn.
  - exists a. split; reflexivity.
  - apply nth_error_None in Hn. unfold py_len in *. lia.
Qed.

Lemma getitem_Ok_In {A : Type} (l : list A) (i : Z) (a : A) :
  getitem l i = Ok a -> In a l.
Proof.
  unfold getitem.
  destruct ((0 <=? _) && (_ <? _)); [| discriminate].
  destruct (nth_error l _) as [b |] eqn:Hn; [| discriminate].
  intros H. injection H as <-. eapply nth_error_In. exact Hn.
Qed.

Lemma In_range (n x : Z) : In x (range n) <-> 0 <= x < n.
Proof.
  unfold range. rewrite in_map_iff. split.
  - intros [k [<- Hk]]. apply in_seq in Hk. lia.
  - intros Hx. exists (Z.to_nat x). split; [lia |]. apply in_seq. lia.
Qed.

Lemma NoDup_range (n : Z) : NoDup (range n).
Proof.
  unfold range. apply Injective_map_NoDup.
  - intros a b H. lia.
  - apply seq_NoDup.
Qed.

Lemma length_range (n : Z) : py_len (range n) = Z.max 0 n.
Proof. unfold py_len, range. rewrite length_map, length_seq. lia. Qed.

Lemma In_tuple_mul {A : Type} (t : list A) (n : Z) (a : A) :
  In a (tuple_mul t n) -> In a t.
Proof.
  unfold tuple_mul. induction (Z.to_nat n) as [| k IH]; simpl.
  - intros [].
  - rewrite in_app_iff. intros [H | H]; [exact H | apply IH; exact H].
Qed.

Lemma In_enumerate_from {A : Type} (l : list A) (start i : Z) (a : A) :
  In (i, a) (enumerate_from start l) <->
  start <= i /\ nth_error l (Z.to_nat (i - start)) = Some a.
Proof.
  revert start. induction l as [| b rest IH]; intros start; simpl.
  - split; [intros [] |]. intros [_ H]. destruct (Z.to_nat (i - start)); discriminate.
  - rewrite IH. split.
    + intros [H | [Hle Hn]].
      * injection H as -> ->. split; [lia |]. rewrite Z.sub_diag. reflexivity.
      * split; [lia |].
        replace (Z.to_nat (i - start)) with (S (Z.to_nat (i - (start + 1)))) by lia.
        exact Hn.
    + intros [Hle Hn].
      destruct (Z.eq_dec i start) as [-> | Hne].
      * left. rewrite Z.sub_diag in Hn. simpl in Hn. injection Hn as ->. reflexivity.
      * right. split; [lia |].
        replace (Z.to_nat (i - start)) with (S (Z.to_nat (i - (start + 1)))) in Hn by lia.
        exact Hn.
Qed.

Lemma In_combinations2 {A : Type} (l : list A) (x y : A) :
  In (x, y) (combinations2 l) -> In x l /\ In y l.
Proof.
  induction l as [| a rest IH]; simpl; [intros [] |].
  rewrite in_app_iff, in_map_iff. intros [[b [Hb Hin]] | H].
  - injection Hb as -> ->. auto.
  - destruct (IH H). auto.
Qed.

(** ** The methods of [BasePolytope] and its families *)

Section Properties.

Context {NP : Numpy} {CE : CosetEnumerator} {HP : Helpers}.

Lemma is_generator_range (P : Polytope) (s : Z) :
  well_formed P -> (is_generator P s <-> 0 <= s < py_len (coxeter_matrix P)).
Proof.
  intros [_ [_ Hg]]. unfold is_generator. rewrite Hg. apply In_range.
Qed.

Lemma matrix_at_defined (P : Polytope) (x s : Z) :
  well_formed P -> is_generator P x -> is_generator P s ->
  exists m, matrix_at P x s = Ok m.
Proof.
  intros Hwf Hx Hs.
  apply (is_generator_range P x Hwf) in Hx. apply (is_generator_range P s Hwf) in Hs.
  destruct Hwf as [Hrows _].
  destruct (getitem_in_range (coxeter_matrix P) x Hx) as [row [Hrow _]].
  assert (Hlen : py_len row = py_len (coxeter_matrix P)).
  { rewrite Forall_forall in Hrows. apply Hrows. eapply getitem_Ok_In. exact Hrow. }
  rewrite <- Hlen in Hs.
  destruct (getitem_in_range row s Hs) as [m [Hm _]].
  exists m. unfold matrix_at. rewrite Hrow. simpl. exact Hm.
Qed.

Lemma active_at_defined (P : Polytope) (s : Z) :
  well_formed P -> is_generator P s -> exists a, active_at P s = Ok a.
Proof.
  intros Hwf Hs. apply (is_generator_range P s Hwf) in Hs.
  destruct Hwf as [_ [Hact _]]. rewrite <- Hact in Hs.
  destruct (getitem_in_range (active P) s Hs) as [a [Ha _]].
  exists a. exact Ha.
Qed.

Lemma all_commute_spec (P : Polytope) (S : list Z) (s : Z) :
  well_formed P -> Forall (is_generator P) S -> is_generator P s ->
  exists b, all_commute P S s = Ok b /\
    (b = true <-> forall x, In x S -> matrix_at P x s = Ok 2).
Proof.
  intros Hwf HS Hs. induction HS as [| x rest Hx _ IH]; simpl.
  - exists true. split; [reflexivity |]. split; [intros _ x [] | reflexivity].
  - destruct (matrix_at_defined P x s Hwf Hx Hs) as [m Hm]. rewrite Hm. simpl.
    destruct (Z.eqb_spec m 2) as [-> | Hne].
    + destruct IH as [b [Hb Hiff]]. exists b. split; [exact Hb |].
      rewrite Hiff. split.
      * intros H y [<- | Hy]; [exact Hm | apply H; exact Hy].
      * intros H y Hy. apply H. right. exact Hy.
    + exists false. split; [reflexivity |]. split; [discriminate |].
      intros H. specialize (H x (or_introl eq_refl)).
      rewrite Hm in H. injection H as H. contradiction.
Qed.

Lemma orthogonal_and_fixing_spec (P : Polytope) (S : list Z) (s : Z) :
  well_formed P -> Forall (is_generator P) S -> is_generator P s ->
  (orthogonal_and_fixing P S s = true <->
   (forall x, In x S -> matrix_at P x s = Ok 2) /\ active_at P s = Ok false).
Proof.
  intros Hwf HS Hs. unfold orthogonal_and_fixing.
  destruct (all_commute_spec P S s Hwf HS Hs) as [b [Hb Hiff]].
  destruct (active_at_defined P s Hwf Hs) as [a Ha].
  rewrite Hb, Ha. rewrite <- Hiff.
  destruct b, a; split; try discriminate; try (intros [? ?]; discriminate); auto.
Qed.

Lemma get_orthogonal_stabilizing_mirrors_filter (P : Polytope) (S : list Z) :
  well_formed P -> Forall (is_generator P) S ->
  get_orthogonal_stabilizing_mirrors P S =
    Ok (map (fun s => [s]) (filter (orthogonal_and_fixing P S) (symmetry_gens P))).
Proof.
  intros Hwf HS. unfold get_orthogonal_stabilizing_mirrors.
  match goal with |- for_each _ ?b _ = _ => set (body := b) end.
  destruct (@for_each_append Z word (list word) (fun c => c)
              (fun s c => c = if orthogonal_and_fixing P S s then [[s]] else [])
              body (symmetry_gens P)) with (acc := @nil word) as [cs [Hrun HF]].
  { intros acc s Hs. unfold body, orthogonal_and_fixing.
    destruct (all_commute_spec P S s Hwf HS Hs) as [b [Hb _]].
    destruct (active_at_defined P s Hwf Hs) as [a Ha].
    rewrite Hb. simpl. destruct b.
    - rewrite Ha. simpl. destruct a; simpl; eexists; split; try reflexivity.
      rewrite app_nil_r. reflexivity.
    - eexists. split; [| reflexivity]. rewrite app_nil_r. reflexivity. }
  etransitivity; [exact Hrun |]. simpl. f_equal.
  clear Hrun. induction HF as [| s c gens cs' Hc _ IH]; simpl; [reflexivity |].
  rewrite IH, Hc. destruct (orthogonal_and_fixing P S s); reflexivity.
Qed.

(** *** What the loops of [get_edges] and [get_faces] leave alone *)

Lemma same_symmetry_refl (P : Polytope) : same_symmetry P P.
Proof. repeat split. Qed.

Lemma for_each_ext {A S : Type} (b1 b2 : S -> A -> result S) (xs : list A) :
  (forall s x, b1 s x = b2 s x) -> forall s, for_each xs b1 s = for_each xs b2 s.
Proof.
  intros H. induction xs as [| x rest IH]; intros s; simpl; [reflexivity |].
  rewrite H. destruct (b2 s x); simpl; [apply IH | reflexivity].
Qed.

Lemma mapM_ext {A B : Type} (f1 f2 : A -> result B) (xs : list A) :
  (forall x, f1 x = f2 x) -> mapM f1 xs = mapM f2 xs.
Proof.
  intros H. induction xs as [| x rest IH]; simpl; [reflexivity |].
  rewrite H, IH. reflexivity.
Qed.

Lemma move_same (P Q : Polytope) :
  same_symmetry P Q -> forall w v, move P v w = move Q v w.
Proof.
  intros [_ [_ [_ [_ Hv]]]]. induction w as [| g rest IH]; intros v; simpl; [reflexivity |].
  unfold vtable_at. rewrite Hv.
  destruct (vtable Q) as [T |]; simpl; [| reflexivity].
  destruct (table_getitem T v g); simpl; [apply IH | reflexivity].
Qed.

Lemma matrix_at_same (P Q : Polytope) (i j : Z) :
  same_symmetry P Q -> matrix_at P i j = matrix_at Q i j.
Proof. intros [Hm _]. unfold matrix_at. rewrite Hm. reflexivity. Qed.

Lemma active_at_same (P Q : Polytope) (i : Z) :
  same_symmetry P Q -> active_at P i = active_at Q i.
Proof. intros [_ [Ha _]]. unfold active_at. rewrite Ha. reflexivity. Qed.

Lemma all_commute_same (P Q : Polytope) (S : list Z) (s : Z) :
  same_symmetry P Q -> all_commute P S s = all_commute Q S s.
Proof.
  intros H. induction S as [| x rest IH]; simpl; [reflexivity |].
  rewrite (matrix_at_same P Q x s H), IH. reflexivity.
Qed.

Lemma get_orthogonal_stabilizing_mirrors_same (P Q : Polytope) (S : list Z) :
  same_symmetry P Q ->
  get_orthogonal_stabilizing_mirrors P S = get_orthogonal_stabilizing_mirrors Q S.
Proof.
  intros H. unfold get_orthogonal_stabilizing_mirrors.
  destruct H as [Hm [Ha [Hg Hr]]]. rewrite Hg.
  apply for_each_ext. intros acc s.
  rewrite (all_commute_same P Q S s), (active_at_same P Q s);
    repeat split; auto; apply Hr.
Qed.

Lemma edge_orbit_same (P Q : Polytope) (i : Z) :
  same_symmetry P Q -> edge_orbit P i = edge_orbit Q i.
Proof.
  intros H. unfold edge_orbit, edge_stabilizer_gens.
  rewrite (get_orthogonal_stabilizing_mirrors_same P Q [i] H).
  pose proof H as [Hm [Ha [Hg [Hr Hv]]]]. rewrite Hg, Hr.
  destruct (get_orthogonal_stabilizing_mirrors Q [i]); [| reflexivity].
  cbn [bind]. apply for_each_ext. intros acc w.
  rewrite (move_same P Q H w 0), (move_same P Q H (i :: w) 0). reflexivity.
Qed.

Lemma base_face_same (P Q : Polytope) (i j m : Z) :
  same_symmetry P Q -> base_face P i j m = base_face Q i j m.
Proof.
  intros H. unfold base_face, both_active, one_active_and_not_orthogonal.
  rewrite !(active_at_same P Q _ H).
  erewrite for_each_ext;
    [| intros f0 k;
       rewrite (move_same P Q H (tuple_mul [i; j] k) 0),
               (move_same P Q H ([j] ++ tuple_mul [i; j] k) 0); reflexivity].
  erewrite (for_each_ext (fun f0 k => a <- move P 0 (tuple_mul [i; j] k) ;; Ok (f0 ++ [a])));
    [| intros f0 k; rewrite (move_same P Q H (tuple_mul [i; j] k) 0); reflexivity].
  reflexivity.
Qed.

Lemma face_orbit_same (P Q : Polytope) (ij : Z * Z) :
  same_symmetry P Q -> face_orbit P ij = face_orbit Q ij.
Proof.
  intros H. destruct ij as [i j]. unfold face_orbit, face_stabilizer_gens.
  rewrite (matrix_at_same P Q i j H), (get_orthogonal_stabilizing_mirrors_same P Q [i; j] H).
  destruct (matrix_at Q i j) as [m |]; [| reflexivity]. cbn [bind].
  destruct (get_orthogonal_stabilizing_mirrors Q [i; j]) as [orth |]; [| reflexivity].
  cbn [bind]. rewrite (base_face_same P Q i j m H).
  destruct (base_face Q i j m) as [[f0 |] |]; try reflexivity. cbn [bind].
  pose proof H as [_ [_ [Hg [Hr _]]]]. rewrite Hg, Hr.
  erewrite for_each_ext; [reflexivity |].
  intros flist w. cbn beta.
  rewrite (mapM_ext (fun v => move P v w) (fun v => move Q v w));
    [reflexivity | intros v; apply move_same; exact H].
Qed.

(** *** [move] on a closed table *)

Lemma move_closed (P : Polytope) (w : word) :
  vertex_table_closed P -> Forall (is_generator P) w ->
  forall v, 0 <= v < num_vertices P ->
    exists v', move P v w = Ok v' /\ 0 <= v' < num_vertices P.
Proof.
  intros [T [HT [_ Hclosed]]] Hw.
  induction Hw as [| g rest Hg _ IH]; intros v Hv; simpl.
  - exists v. split; [reflexivity | exact Hv].
  - unfold vtable_at. rewrite HT.
    destruct (Hclosed v g Hv Hg) as [v1 [H1 Hv1]]. rewrite H1. simpl.
    apply IH. exact Hv1.
Qed.

Lemma enumerated_words_valid (P : Polytope) (sub : option (list word)) (w : word) :
  enumerator_words_valid P ->
  In w (get_words (run (CosetTable_new (symmetry_gens P) (symmetry_rels P) sub None))) ->
  Forall (is_generator P) w.
Proof.
  intros H Hw. apply Forall_forall. intros g Hg. exact (H sub w g Hw Hg).
Qed.

Lemma flat_map_singleton {A : Type} (l : list A) : flat_map (fun c => [c]) l = l.
Proof. induction l as [| a rest IH]; simpl; [| rewrite IH]; reflexivity. Qed.

(** The mirrors as [enumerate(self.active)] lists them. *)
Lemma enumerate_active (P : Polytope) (i : Z) (a : bool) :
  well_formed P -> In (i, a) (enumerate (active P)) ->
  is_generator P i /\ active_at P i = Ok a.
Proof.
  intros Hwf Hin. apply In_enumerate_from in Hin. destruct Hin as [Hi Hn].
  rewrite Z.sub_0_r in Hn.
  assert (Hlt : 0 <= i < py_len (active P)).
  { split; [exact Hi |].
    assert (Hb : (Z.to_nat i < length (active P))%nat).
    { apply nth_error_Some. congruence. }
    unfold py_len. lia. }
  split.
  - apply (is_generator_range P i Hwf). destruct Hwf as [_ [Hact _]]. lia.
  - destruct (getitem_in_range (active P) i Hlt) as [a' [Ha' Hn']].
    unfold active_at. rewrite Ha'. congruence.
Qed.

(** *** [get_edges] *)

(** The edges of type [i], one per word of the enumeration. *)
Lemma edge_orbit_spec (P : Polytope) (i : Z) :
  well_formed P -> vertex_table_closed P -> enumerator_words_valid P ->
  is_generator P i ->
  exists orth elist,
    get_orthogonal_stabilizing_mirrors P [i] = Ok orth /\
    edge_orbit P i = Ok elist /\
    Forall2 (fun w e => move P 0 w = Ok (fst e) /\ move P 0 (i :: w) = Ok (snd e))
      (get_words (run (CosetTable_new (symmetry_gens P) (symmetry_rels P)
                         (Some ([i] :: orth)) None)))
      elist.
Proof.
  intros Hwf Hclosed Hwords Hi.
  assert (Hgens : Forall (is_generator P) [i]) by (constructor; [exact Hi | constructor]).
  pose proof (get_orthogonal_stabilizing_mirrors_filter P [i] Hwf Hgens) as Horth.
  eexists. 
  unfold edge_orbit, edge_stabilizer_gens. rewrite Horth. cbn [bind app].
  match goal with |- context [for_each ?ws ?b _] => set (words := ws); set (body := b) end.
  assert (H0 : 0 <= 0 < num_vertices P).
  { destruct Hclosed as [_ [_ [Hpos _]]]. lia. }
  destruct (@for_each_append word (Z * Z) (Z * Z) (fun c => [c])
              (fun w e => move P 0 w = Ok (fst e) /\ move P 0 (i :: w) = Ok (snd e))
              body words) with (acc := @nil (Z * Z)) as [cs [Hrun HF]].
  { intros acc w Hw. unfold body.
    pose proof (enumerated_words_valid P _ w Hwords Hw) as Hvalid.
    destruct (move_closed P w Hclosed Hvalid 0 H0) as [v1 [Hv1 _]].
    destruct (move_closed P (i :: w) Hclosed (Forall_cons i Hi Hvalid) 0 H0) as [v2 [Hv2 _]].
    exists (v1, v2). split; [| split; assumption].
    rewrite Hv1. cbn [bind]. rewrite Hv2. reflexivity. }
  exists cs. split; [reflexivity |]. split; [| exact HF].
  etransitivity; [exact Hrun |]. simpl. rewrite flat_map_singleton. reflexivity.
Qed.

Lemma fold_add_edges (os : list (option (list (Z * Z)))) (P : Polytope) :
  let P' := fold_left (fun s o => match o with Some y => add_edges s y | None => s end) os P in
  edge_indices P' = edge_indices P ++ somes os /\
  num_edges P' = num_edges P + py_len (concat (somes os)) /\
  same_symmetry P' P.
Proof.
  revert P. induction os as [| o rest IH]; intros P; simpl.
  - rewrite app_nil_r. unfold py_len. simpl. repeat split. lia.
  - destruct (IH (match o with Some y => add_edges P y | None => P end)) as [He [Hn Hs]].
    destruct o as [elist |]; simpl in *.
    + rewrite He, Hn, <- app_assoc. simpl. split; [reflexivity |]. split; [| exact Hs].
      unfold py_len. rewrite length_app. lia.
    + auto.
Qed.

(** C2.  On a well-formed object with its vertex table built,
    [get_edges] returns, and it goes through the mirrors in order: mirror
    [i] contributes an edge list exactly when it is active; the list of an
    active mirror [i] comes from the enumeration with subgroup generators
    [(i,)] followed by the orthogonal stabilizing mirrors of [(i,)], and holds
    for each word [w], in order, the pair [(move(0, w), move(0, (i,) + w))].
    The lists are appended to [edge_indices] and counted in [num_edges]. *)
Theorem get_edges_orbits (P : Polytope) :
  well_formed P -> vertex_table_closed P -> enumerator_words_valid P ->
  exists P' (os : list (option (list (Z * Z)))),
    get_edges P = Ok P' /\
    Forall2
      (fun (ia : Z * bool) (o : option (list (Z * Z))) =>
         active_at P (fst ia) = Ok (snd ia) /\
         match o with
         | None => snd ia = false
         | Some elist =>
             snd ia = true /\
             exists orth,
               get_orthogonal_stabilizing_mirrors P [fst ia] = Ok orth /\
               Forall2
                 (fun w e =>
                    move P 0 w = Ok (fst e) /\ move P 0 (fst ia :: w) = Ok (snd e))
                 (get_words (run (CosetTable_new (symmetry_gens P) (symmetry_rels P)
                                    (Some ([fst ia] :: orth)) None)))
                 elist
         end)
      (enumerate (active P)) os /\
    edge_indices P' = edge_indices P ++ somes os /\
    num_edges P' = num_edges P + py_len (concat (somes os)).
Proof.
  intros Hwf Hclosed Hwords. unfold get_edges.
  match goal with |- context [for_each ?xs ?b _] => set (body := b) end.
  destruct (@for_each_emit Polytope (Z * bool) (list (Z * Z))
              (fun s => same_symmetry s P) add_edges
              (fun (ia : Z * bool) (o : option (list (Z * Z))) =>
                 active_at P (fst ia) = Ok (snd ia) /\
                 match o with
                 | None => snd ia = false
                 | Some elist =>
                     snd ia = true /\
                     exists orth,
                       get_orthogonal_stabilizing_mirrors P [fst ia] = Ok orth /\
                       Forall2
                         (fun w e =>
                            move P 0 w = Ok (fst e) /\ move P 0 (fst ia :: w) = Ok (snd e))
                         (get_words (run (CosetTable_new (symmetry_gens P) (symmetry_rels P)
                                            (Some ([fst ia] :: orth)) None)))
                         elist
                 end)
              body (enumerate (active P))) with (s := P) as [os [HF Hrun]].
  - intros s o Hs. exact Hs.
  - intros s [i a] Hs Hin. unfold body. cbn [fst snd].
    destruct (enumerate_active P i a Hwf Hin) as [Hgen Hact].
    destruct a.
    + destruct (edge_orbit_spec P i Hwf Hclosed Hwords Hgen) as [orth [elist [Ho [He HF]]]].
      exists (Some elist). rewrite (edge_orbit_same s P i Hs), He. cbn [bind].
      split; [| reflexivity]. split; [exact Hact |]. split; [reflexivity |].
      exists orth. split; assumption.
    + exists None. split; [| reflexivity]. split; [exact Hact | reflexivity].
  - apply same_symmetry_refl.
  - destruct (fold_add_edges os P) as [He [Hn _]].
    eexists. exists os. split; [exact Hrun |]. split; [exact HF |].
    split; assumption.
Qed.

(** *** [get_faces] *)

Lemma both_active_eval (P : Polytope) (i j : Z) (ai aj : bool) :
  active_at P i = Ok ai -> active_at P j = Ok aj ->
  both_active P i j = Ok (ai && aj).
Proof.
  intros Hi Hj. unfold both_active. rewrite Hi. cbn [bind].
  destruct ai; [exact Hj | reflexivity].
Qed.

Lemma one_active_and_not_orthogonal_eval (P : Polytope) (i j m : Z) (ai aj : bool) :
  active_at P i = Ok ai -> active_at P j = Ok aj ->
  one_active_and_not_orthogonal P i j m = Ok ((ai || aj) && (m >? 2)).
Proof.
  intros Hi Hj. unfold one_active_and_not_orthogonal. rewrite Hi. cbn [bind].
  destruct ai; cbn [bind orb andb].
  - destruct (m >? 2); reflexivity.
  - rewrite Hj. cbn [bind]. destruct aj; cbn [andb]; [destruct (m >? 2) |]; reflexivity.
Qed.

Lemma rotation_word_valid (P : Polytope) (i j k : Z) :
  is_generator P i -> is_generator P j ->
  Forall (is_generator P) (tuple_mul [i; j] k).
Proof.
  intros Hi Hj. apply Forall_forall. intros g Hg.
  apply In_tuple_mul in Hg. destruct Hg as [<- | [<- | []]]; assumption.
Qed.

(** The base face of the pair [(i, j)] in each of the three cases. *)
Lemma base_face_spec (P : Polytope) (i j m : Z) (ai aj : bool) :
  vertex_table_closed P -> is_generator P i -> is_generator P j ->
  active_at P i = Ok ai -> active_at P j = Ok aj ->
  exists bf, base_face P i j m = Ok bf /\
    match bf with
    | None => ai && aj = false /\ (ai || aj) && (m >? 2) = false
    | Some f0 =>
        Forall (is_vertex P) f0 /\
        ((ai = true /\ aj = true /\
          exists pairs,
            Forall2 (fun k ab =>
                       move P 0 (tuple_mul [i; j] k) = Ok (fst ab) /\
                       move P 0 (j :: tuple_mul [i; j] k) = Ok (snd ab))
                    (range m) pairs /\
            f0 = flat_map (fun ab => [fst ab; snd ab]) pairs) \/
         (xorb ai aj = true /\ m > 2 /\
          Forall2 (fun k a => move P 0 (tuple_mul [i; j] k) = Ok a) (range m) f0))
    end.
Proof.
  intros Hclosed Hi Hj Hai Haj. unfold base_face.
  rewrite (both_active_eval P i j ai aj Hai Haj). cbn [bind].
  assert (H0 : 0 <= 0 < num_vertices P).
  { destruct Hclosed as [_ [_ [Hpos _]]]. lia. }
  destruct (ai && aj) eqn:Hboth.
  - apply andb_true_iff in Hboth. destruct Hboth as [-> ->].
    match goal with |- context [for_each ?xs ?b _] => set (body := b) end.
    destruct (@for_each_append Z Z (Z * Z) (fun ab => [fst ab; snd ab])
                (fun k ab =>
                   (move P 0 (tuple_mul [i; j] k) = Ok (fst ab) /\
                    move P 0 (j :: tuple_mul [i; j] k) = Ok (snd ab)) /\
                   is_vertex P (fst ab) /\ is_vertex P (snd ab))
                body (range m)) with (acc := @nil Z) as [pairs [Hrun HF]].
    { intros acc k _. unfold body.
      pose proof (rotation_word_valid P i j k Hi Hj) as Hw.
      destruct (move_closed P _ Hclosed Hw 0 H0) as [a [Ha Hva]].
      destruct (move_closed P _ Hclosed (Forall_cons j Hj Hw) 0 H0) as [b [Hb Hvb]].
      exists (a, b). cbn [fst snd].
      split; [| split; [split; assumption | split; [exact Hva | exact Hvb]]].
      rewrite Ha. cbn [bind app]. rewrite Hb. cbn [bind].
      rewrite <- app_assoc. reflexivity. }
    exists (Some (flat_map (fun ab => [fst ab; snd ab]) pairs)).
    split.
    { match goal with |- bind ?c _ = _ => replace c with (Ok (flat_map (fun ab : Z * Z => [fst ab; snd ab]) pairs)) end.
      reflexivity. }
    split.
    + clear Hrun. induction HF as [| k ab ks abs [_ [Hva Hvb]] _ IH]; cbn [flat_map app].
      * constructor.
      * constructor; [exact Hva |]. constructor; [exact Hvb | exact IH].
    + left. split; [reflexivity |]. split; [reflexivity |].
      exists pairs. split; [| reflexivity].
      clear Hrun. induction HF as [| k ab ks abs [Hm _] _ IH]; constructor; assumption.
  - rewrite (one_active_and_not_orthogonal_eval P i j m ai aj Hai Haj). cbn [bind].
    destruct ((ai || aj) && (m >? 2)) eqn:Hone.
    + apply andb_true_iff in Hone. destruct Hone as [Hor Hm].
      match goal with |- context [for_each ?xs ?b _] => set (body := b) end.
      destruct (@for_each_append Z Z Z (fun a => [a])
                  (fun k a => move P 0 (tuple_mul [i; j] k) = Ok a /\ is_vertex P a)
                  body (range m)) with (acc := @nil Z) as [f0 [Hrun HF]].
      { intros acc k _. unfold body.
        pose proof (rotation_word_valid P i j k Hi Hj) as Hw.
        destruct (move_closed P _ Hclosed Hw 0 H0) as [a [Ha Hva]].
        exists a. split; [| split; [exact Ha | exact Hva]].
        rewrite Ha. reflexivity. }
      exists (Some f0). split.
      { match goal with |- bind ?c _ = _ => replace c with (Ok f0) end.
        - reflexivity.
        - symmetry. etransitivity; [exact Hrun |].
          cbn [app]. rewrite flat_map_singleton. reflexivity. }
      split.
      * clear Hrun. induction HF as [| k a ks f0' [_ Hva] _ IH]; constructor; assumption.
      * right. split; [destruct ai, aj; simpl in *; congruence |].
        split; [apply Z.gtb_lt in Hm; lia |].
        clear Hrun. induction HF as [| k a ks f0' [Hmv _] _ IH]; constructor; assumption.
    + exists None. split; [reflexivity |]. split; reflexivity.
Qed.

(** One turn of the loop of [get_faces]. *)
Lemma face_orbit_spec (P : Polytope) (i j : Z) :
  well_formed P -> vertex_table_closed P -> enumerator_words_valid P ->
  is_generator P i -> is_generator P j ->
  exists m ai aj o,
    matrix_at P i j = Ok m /\ active_at P i = Ok ai /\ active_at P j = Ok aj /\
    face_orbit P (i, j) = Ok o /\
    match o with
    | None => ~ ((ai = true /\ aj = true) \/ (xorb ai aj = true /\ m > 2))
    | Some flist =>
        exists f0 orth,
          ((ai = true /\ aj = true /\
            exists pairs,
              Forall2 (fun k ab =>
                         move P 0 (tuple_mul [i; j] k) = Ok (fst ab) /\
                         move P 0 (j :: tuple_mul [i; j] k) = Ok (snd ab))
                      (range m) pairs /\
              f0 = flat_map (fun ab => [fst ab; snd ab]) pairs) \/
           (xorb ai aj = true /\ m > 2 /\
            Forall2 (fun k a => move P 0 (tuple_mul [i; j] k) = Ok a) (range m) f0)) /\
          get_orthogonal_stabilizing_mirrors P [i; j] = Ok orth /\
          Forall2 (fun w f => Forall2 (fun v v' => move P v w = Ok v') f0 f)
            (get_words (run (CosetTable_new (symmetry_gens P) (symmetry_rels P)
                               (Some ([i] :: [j] :: orth)) None)))
            flist
    end.
Proof.
  intros Hwf Hclosed Hwords Hi Hj.
  destruct (matrix_at_defined P i j Hwf Hi Hj) as [m Hm].
  destruct (active_at_defined P i Hwf Hi) as [ai Hai].
  destruct (active_at_defined P j Hwf Hj) as [aj Haj].
  assert (Hgens : Forall (is_generator P) [i; j]).
  { constructor; [exact Hi |]. constructor; [exact Hj | constructor]. }
  pose proof (get_orthogonal_stabilizing_mirrors_filter P [i; j] Hwf Hgens) as Horth.
  destruct (base_face_spec P i j m ai aj Hclosed Hi Hj Hai Haj) as [bf [Hbf Hshape]].
  assert (Hunfold : face_orbit P (i, j) =
            match bf with
            | None => Ok None
            | Some f0 =>
                flist <- for_each
                           (get_words (run (CosetTable_new (symmetry_gens P) (symmetry_rels P)
                              (Some ([i] :: [j] ::
                                 map (fun s => [s])
                                   (filter (orthogonal_and_fixing P [i; j]) (symmetry_gens P))))
                              None)))
                           (fun flist w =>
                              f <- mapM (fun v => move P v w) f0 ;; Ok (flist ++ [f]))
                           [] ;;
                Ok (Some flist)
            end).
  { unfold face_orbit, face_stabilizer_gens.
    rewrite Hm, Horth. cbn [bind app]. rewrite Hbf. reflexivity. }
  exists m, ai, aj.
  destruct bf as [f0 |].
  - destruct Hshape as [Hverts Hshape].
    destruct (@for_each_append word (list Z) (list Z) (fun f => [f])
                (fun w f => Forall2 (fun v v' => move P v w = Ok v') f0 f)
                (fun flist w => f <- mapM (fun v => move P v w) f0 ;; Ok (flist ++ [f]))
                (get_words (run (CosetTable_new (symmetry_gens P) (symmetry_rels P)
                   (Some ([i] :: [j] ::
                      map (fun s => [s])
                        (filter (orthogonal_and_fixing P [i; j]) (symmetry_gens P))))
                   None))))
      with (acc := @nil (list Z)) as [flist [Hrun HF]].
    { intros acc w Hw.
      pose proof (enumerated_words_valid P _ w Hwords Hw) as Hvalid.
      destruct (mapM_Forall2 (fun v => move P v w) (fun v v' => move P v w = Ok v') f0)
        as [f [Hf HFf]].
      { intros v Hv. rewrite Forall_forall in Hverts.
        destruct (move_closed P w Hclosed Hvalid v (Hverts v Hv)) as [v' [Hv' _]].
        exists v'. split; exact Hv'. }
      exists f. rewrite Hf. split; [reflexivity | exact HFf]. }
    exists (Some flist).
    split; [exact Hm |]. split; [exact Hai |]. split; [exact Haj |].
    split.
    { rewrite Hunfold, Hrun. cbn [bind app]. rewrite flat_map_singleton. reflexivity. }
    exists f0, (map (fun s => [s]) (filter (orthogonal_and_fixing P [i; j]) (symmetry_gens P))).
    split; [exact Hshape |]. split; [exact Horth | exact HF].
  - exists None.
    split; [exact Hm |]. split; [exact Hai |]. split; [exact Haj |].
    split; [exact Hunfold |].
    destruct Hshape as [Hboth Hone].
    intros [[-> ->] | [Hx Hgt]]; [discriminate |].
    assert (Hm2 : (m >? 2) = true) by (apply Z.gtb_lt; lia).
    rewrite Hm2 in Hone. destruct ai, aj; simpl in *; discriminate.
Qed.

Lemma fold_add_faces (os : list (option (list (list Z)))) (P : Polytope) :
  let P' := fold_left (fun s o => match o with Some y => add_faces s y | None => s end) os P in
  face_indices P' = face_indices P ++ somes os /\
  num_faces P' = num_faces P + py_len (concat (somes os)) /\
  same_symmetry P' P.
Proof.
  revert P. induction os as [| o rest IH]; intros P; simpl.
  - rewrite app_nil_r. unfold py_len. simpl. repeat split. lia.
  - destruct (IH (match o with Some y => add_faces P y | None => P end)) as [He [Hn Hs]].
    destruct o as [flist |]; simpl in *.
    + rewrite He, Hn, <- app_assoc. simpl. split; [reflexivity |]. split; [| exact Hs].
      unfold py_len. rewrite length_app. lia.
    + auto.
Qed.


(** *** [get_vertices] *)

Lemma transform_same (P Q : Polytope) :
  reflections P = reflections Q -> forall w v, transform P v w = transform Q v w.
Proof.
  intros H. induction w as [| g rest IH]; intros v; simpl; [reflexivity |].
  rewrite H. destruct (getitem (reflections Q) g); simpl; [apply IH | reflexivity].
Qed.

(** [transform] multiplies by the reflections of the letters, first letter
    first. *)
Lemma transform_fold (P : Polytope) (w : word) :
  (forall g, In g w -> exists R, getitem (reflections P) g = Ok R) ->
  forall v, exists Rs,
    Forall2 (fun g R => getitem (reflections P) g = Ok R) w Rs /\
    transform P v w = Ok (fold_left np_dot Rs v).
Proof.
  induction w as [| g rest IH]; intros H v; simpl.
  - exists []. split; [constructor | reflexivity].
  - destruct (H g (or_introl eq_refl)) as [R HR]. rewrite HR. cbn [bind].
    destruct (IH (fun g' Hg' => H g' (or_intror Hg')) (np_dot v R)) as [Rs [HF Ht]].
    exists (R :: Rs). split; [constructor; assumption | exact Ht].
Qed.

Lemma Forall2_getitem {A B : Type} (R : A -> B -> Prop) (xs : list A) (ys : list B) (k : Z) :
  Forall2 R xs ys -> 0 <= k < py_len xs ->
  exists x y, getitem xs k = Ok x /\ getitem ys k = Ok y /\ R x y.
Proof.
  intros HF Hk.
  assert (Hlen : py_len ys = py_len xs).
  { unfold py_len. apply Forall2_length in HF. lia. }
  destruct (getitem_in_range xs k Hk) as [x [Hx Hnx]].
  rewrite <- Hlen in Hk.
  destruct (getitem_in_range ys k Hk) as [y [Hy Hny]].
  exists x, y. split; [exact Hx |]. split; [exact Hy |].
  clear Hx Hy Hk Hlen. revert Hnx Hny. generalize (Z.to_nat k) as n.
  induction HF as [| a b xs' ys' Hab _ IH]; intros [| n]; simpl; try discriminate.
  - intros H1 H2. injection H1 as <-. injection H2 as <-. exact Hab.
  - apply IH.
Qed.

Lemma vertex_stabilizer_gens_inactive (P : Polytope) (w : word) :
  In w (vertex_stabilizer_gens P) <->
  exists i, w = [i] /\ 0 <= i < py_len (active P) /\ active_at P i = Ok false.
Proof.
  unfold vertex_stabilizer_gens. rewrite in_map_iff. split.
  - intros [[i a] [<- Hin]]. apply filter_In in Hin. destruct Hin as [Hin Ha].
    cbn [fst snd] in *. apply negb_true_iff in Ha. subst a.
    apply In_enumerate_from in Hin. destruct Hin as [Hi Hn]. rewrite Z.sub_0_r in Hn.
    assert (Hlt : 0 <= i < py_len (active P)).
    { split; [exact Hi |].
      assert (Hb : (Z.to_nat i < length (active P))%nat) by (apply nth_error_Some; congruence).
      unfold py_len. lia. }
    exists i. split; [reflexivity |]. split; [exact Hlt |].
    destruct (getitem_in_range (active P) i Hlt) as [a' [Ha' Hn']].
    unfold active_at. rewrite Ha'. congruence.
  - intros [i [-> [Hlt Ha]]]. exists (i, false). split; [reflexivity |].
    apply filter_In. split; [| reflexivity].
    apply In_enumerate_from. split; [lia |]. rewrite Z.sub_0_r.
    destruct (getitem_in_range (active P) i Hlt) as [a' [Ha' Hn']].
    unfold active_at in Ha. congruence.
Qed.

(** C3.  [get_vertices] runs the enumerator with, as subgroup
    generators, the 1-tuples of exactly the inactive mirrors; it stores the
    table and the words, sets [num_vertices] to the number of words, and
    stores for the vertex of index [k] the coordinate
    [transform(init_v, vwords[k])], which is the initial point of the
    object multiplied by its reflections of the letters of the word, first
    letter first.  The initial point, the mirrors, the reflections, the
    presentation, the flags, the edges and the faces are left as they
    were.  (It returns provided every letter of every word names a
    reflection.) *)
Theorem get_vertices_round_trip (P : Polytope) :
  let T := run (CosetTable_new (symmetry_gens P) (symmetry_rels P)
                  (Some (vertex_stabilizer_gens P)) None) in
  (forall w g, In w (get_words T) -> In g w ->
     exists R, getitem (reflections P) g = Ok R) ->
  (forall w, In w (vertex_stabilizer_gens P) <->
     exists i, w = [i] /\ 0 <= i < py_len (active P) /\ active_at P i = Ok false) /\
  exists P',
    get_vertices P = Ok P' /\
    vtable P' = Some T /\
    vwords P' = Some (get_words T) /\
    num_vertices P' = py_len (get_words T) /\
    py_len (vertices_coords P') = num_vertices P' /\
    (init_v P' = init_v P /\ mirrors P' = mirrors P /\ reflections P' = reflections P /\
     coxeter_matrix P' = coxeter_matrix P /\ active P' = active P /\
     symmetry_gens P' = symmetry_gens P /\ symmetry_rels P' = symmetry_rels P) /\
    (num_edges P' = num_edges P /\ num_faces P' = num_faces P /\
     edge_indices P' = edge_indices P /\ face_indices P' = face_indices P) /\
    forall k, 0 <= k < num_vertices P' ->
      exists w c Rs,
        getitem (get_words T) k = Ok w /\
        getitem (vertices_coords P') k = Ok c /\
        transform P (init_v P) w = Ok c /\
        transform P' (init_v P') w = Ok c /\
        Forall2 (fun g R => getitem (reflections P) g = Ok R) w Rs /\
        c = fold_left np_dot Rs (init_v P).
Proof.
  intros T Hletters. split; [apply vertex_stabilizer_gens_inactive |].
  unfold get_vertices. fold T.
  set (P1 := set_vertex_table P T (get_words T) (py_len (get_words T))).
  destruct (mapM_Forall2 (fun w => transform P1 (init_v P1) w)
              (fun w c => transform P (init_v P) w = Ok c /\
                 exists Rs, Forall2 (fun g R => getitem (reflections P) g = Ok R) w Rs /\
                            c = fold_left np_dot Rs (init_v P))
              (get_words T)) as [cs [Hcs HF]].
  { intros w Hw.
    destruct (transform_fold P w (fun g Hg => Hletters w g Hw Hg) (init_v P))
      as [Rs [HRs Ht]].
    exists (fold_left np_dot Rs (init_v P)).
    split; [| split; [exact Ht | exists Rs; split; [exact HRs | reflexivity]]].
    rewrite <- Ht. apply transform_same. reflexivity. }
  exists (set_vertices_coords P1 cs). rewrite Hcs. cbn [bind].
  split; [reflexivity |]. split; [reflexivity |]. split; [reflexivity |].
  split; [reflexivity |].
  split.
  { cbn [vertices_coords set_vertices_coords num_vertices P1 set_vertex_table].
    apply Forall2_length in HF. unfold py_len. lia. }
  split; [repeat split |]. split; [repeat split |].
  cbn [vertices_coords set_vertices_coords num_vertices P1 set_vertex_table].
  intros k Hk.
  destruct (Forall2_getitem _ _ _ k HF Hk) as [w [c [Hw [Hc [Ht [Rs [HRs Hfold]]]]]]].
  exists w, c, Rs. split; [exact Hw |]. split; [exact Hc |].
  split; [exact Ht |]. split; [| split; [exact HRs | exact Hfold]].
  rewrite <- Ht. apply transform_same. reflexivity.
Qed.

(** *** The constructors *)

Lemma getitem_raises {A : Type} (l : list A) (i : Z) (e : exn) :
  getitem l i = Raise e -> e = IndexError.
Proof.
  unfold getitem. destruct ((0 <=? _) && (_ <? _)).
  - destruct (nth_error l _); [discriminate |]. intros H. injection H as <-. reflexivity.
  - intros H. injection H as <-. reflexivity.
Qed.

Lemma mapM_raises {A B : Type} (f : A -> result B) (xs : list A) (e : exn) :
  mapM f xs = Raise e -> exists x, In x xs /\ f x = Raise e.
Proof.
  induction xs as [| x rest IH]; simpl; [discriminate |].
  destruct (f x) as [y | e'] eqn:Hfx; simpl.
  - destruct (mapM f rest) as [ys | e''] eqn:Hrest; simpl; [discriminate |].
    intros H. injection H as ->. destruct (IH eq_refl) as [x' [Hin Hx']].
    exists x'. split; [right; exact Hin | exact Hx'].
  - intros H. injection H as ->. exists x. split; [left; reflexivity | exact Hfx].
Qed.

(** The only exception [BasePolytope.__init__] raises by itself is the
    [IndexError] of a Coxeter matrix that is too small. *)
Lemma BasePolytope_init_raises (d : list diagram_entry) (dist : list pynum)
    (extra : list word) (e : exn) :
  BasePolytope_init d dist extra = Raise e -> e = IndexError.
Proof.
  unfold BasePolytope_init, coxeter_relations. intros H.
  apply bind_Raise_inv in H. destruct H as [H | [rels [_ H]]]; [| discriminate].
  apply mapM_raises in H. destruct H as [[i j] [_ H]].
  apply bind_Raise_inv in H. destruct H as [H | [row [_ H]]].
  - apply getitem_raises in H. exact H.
  - apply bind_Raise_inv in H. destruct H as [H | [m [_ H]]]; [| discriminate].
    apply getitem_raises in H. exact H.
Qed.

(** With a square Coxeter matrix and one distance per mirror,
    [BasePolytope.__init__] leaves a well-formed object. *)
Lemma BasePolytope_init_well_formed (d : list diagram_entry) (dist : list pynum)
    (extra : list word) (P : Polytope) :
  BasePolytope_init d dist extra = Ok P ->
  Forall (fun row => py_len row = py_len (get_coxeter_matrix d)) (get_coxeter_matrix d) ->
  py_len dist = py_len (get_coxeter_matrix d) ->
  well_formed P.
Proof.
  unfold BasePolytope_init. intros H Hrows Hdist.
  apply bind_Ok_inv in H. destruct H as [rels [_ H]]. injection H as <-.
  unfold well_formed. cbn [coxeter_matrix active symmetry_gens].
  split; [exact Hrows |]. split; [| reflexivity].
  unfold py_len in *. rewrite length_map. exact Hdist.
Qed.

(** C9.  [Polyhedra] raises its [ValueError] exactly when the diagram or
    the distances do not have length 3, [Polychora] exactly when the
    diagram does not have length 6 or the distances do not have length 4;
    with the right lengths each goes on as [BasePolytope.__init__]. *)
Theorem length_checks_3d_4d (d : list diagram_entry) (dist : list pynum)
    (extra : list word) :
  ((exists msg, Polyhedra_init d dist extra = Raise (ValueError msg)) <->
   (py_len d <> 3 \/ py_len dist <> 3)) /\
  (py_len d = 3 /\ py_len dist = 3 ->
   Polyhedra_init d dist extra = BasePolytope_init d dist extra) /\
  ((exists msg, Polychora_init d dist extra = Raise (ValueError msg)) <->
   (py_len d <> 6 \/ py_len dist <> 4)) /\
  (py_len d = 6 /\ py_len dist = 4 ->
   Polychora_init d dist extra = BasePolytope_init d dist extra).
Proof.
  unfold Polyhedra_init, Polychora_init.
  split; [| split; [| split]].
  - destruct (Z.eqb_spec (py_len d) (py_len dist)) as [Hd | Hd];
      destruct (Z.eqb_spec (py_len dist) 3) as [Hi | Hi]; cbn [andb negb].
    + split; [| lia]. intros [msg H].
      apply BasePolytope_init_raises in H. discriminate.
    + split; [lia |]. intros _. eexists. reflexivity.
    + split; [lia |]. intros _. eexists. reflexivity.
    + split; [lia |]. intros _. eexists. reflexivity.
  - intros [Hd Hi]. rewrite Hd, Hi. reflexivity.
  - destruct (Z.eqb_spec (py_len d) 6) as [Hd | Hd];
      destruct (Z.eqb_spec (py_len dist) 4) as [Hi | Hi]; cbn [andb negb].
    + split; [| lia]. intros [msg H].
      apply BasePolytope_init_raises in H. discriminate.
    + split; [lia |]. intros _. eexists. reflexivity.
    + split; [lia |]. intros _. eexists. reflexivity.
    + split; [lia |]. intros _. eexists. reflexivity.
  - intros [Hd Hi]. rewrite Hd, Hi. reflexivity.
Qed.

(** C5 (what the code does).  [Polytope5D] raises its [ValueError] only
    when the diagram's length differs from 10 and, at the same time, the
    distances' length differs from 5.  With ten diagram entries and three
    distances nothing is raised by the check: the constructor goes on as
    [BasePolytope.__init__], which raises no [ValueError]. *)
Theorem Polytope5D_init_needs_both_wrong :
  (forall d dist extra,
     (exists msg, Polytope5D_init d dist extra = Raise (ValueError msg)) <->
     (py_len d <> 10 /\ py_len dist <> 5)) /\
  (let d := [3; 2; 2; 2; 3; 2; 2; 3; 2; 3] in
   let dist := [PyInt 1; PyInt 0; PyInt 0] in
   py_len dist <> 5 /\
   Polytope5D_init d dist [] = BasePolytope_init d dist [] /\
   forall msg, Polytope5D_init d dist [] <> Raise (ValueError msg)).
Proof.
  split.
  - intros d dist extra. unfold Polytope5D_init.
    destruct (Z.eqb_spec (py_len d) 10) as [Hd | Hd];
      destruct (Z.eqb_spec (py_len dist) 5) as [Hi | Hi]; cbn [andb negb].
    + split; [| lia]. intros [msg H]. apply BasePolytope_init_raises in H. discriminate.
    + split; [| lia]. intros [msg H]. apply BasePolytope_init_raises in H. discriminate.
    + split; [| lia]. intros [msg H]. apply BasePolytope_init_raises in H. discriminate.
    + split; [| intros _; eexists; reflexivity]. intros _. split; assumption.
  - cbv zeta. split; [discriminate |]. split; [reflexivity |].
    intros msg H. change (Polytope5D_init _ _ _) with
      (BasePolytope_init [3; 2; 2; 2; 3; 2; 2; 3; 2; 3] [PyInt 1; PyInt 0; PyInt 0] []) in H.
    apply BasePolytope_init_raises in H. discriminate.
Qed.

(** *** [Snub] and [Snub24Cell] *)

(** C7 (as the code has it).  When [Snub] accepts a diagram, its
    generators are [0, 1, 2, 3] and its relations are, in order: generator
    0 repeated [p = matrix[0][1]] times, generator 2 repeated
    [q = matrix[1][2]] times, the pair [(0, 2)] repeated [matrix[0][2]]
    times, then [(0, 1)] and [(2, 3)].  The pair is repeated twice when
    [matrix[0][2]] is 2. *)
Theorem Snub_init_relations (d : list diagram_entry) (dist : list pynum)
    (S : SnubPolytope) :
  Snub_init d dist = Ok S ->
  exists p q m,
    matrix_at (snub_base S) 0 1 = Ok p /\
    matrix_at (snub_base S) 1 2 = Ok q /\
    matrix_at (snub_base S) 0 2 = Ok m /\
    symmetry_gens (snub_base S) = [0; 1; 2; 3] /\
    symmetry_rels (snub_base S) =
      [repeat 0 (Z.to_nat p); repeat 2 (Z.to_nat q); tuple_mul [0; 2] m; [0; 1]; [2; 3]] /\
    (m = 2 ->
     symmetry_rels (snub_base S) =
       [repeat 0 (Z.to_nat p); repeat 2 (Z.to_nat q); [0; 2; 0; 2]; [0; 1]; [2; 3]]).
Proof.
  unfold Snub_init. intros H.
  apply bind_Ok_inv in H. destruct H as [P [_ H]].
  apply bind_Ok_inv in H. destruct H as [p [Hp H]].
  apply bind_Ok_inv in H. destruct H as [q [Hq H]].
  apply bind_Ok_inv in H. destruct H as [m [Hm H]].
  apply bind_Ok_inv in H. destruct H as [p' [_ H]].
  apply bind_Ok_inv in H. destruct H as [q' [_ H]].
  apply bind_Ok_inv in H. destruct H as [m' [_ H]].
  injection H as <-. cbn [snub_base].
  assert (Hrep : forall (g : Z) (n : Z), tuple_mul [g] n = repeat g (Z.to_nat n)).
  { intros g n. unfold tuple_mul. induction (Z.to_nat n) as [| k IH]; simpl; [| rewrite IH]; reflexivity. }
  exists p, q, m.
  split; [exact Hp |]. split; [exact Hq |]. split; [exact Hm |].
  split; [reflexivity |].
  split.
  - cbn [symmetry_rels set_presentation]. rewrite !Hrep. reflexivity.
  - intros ->. cbn [symmetry_rels set_presentation]. rewrite !Hrep. reflexivity.
Qed.

(** C8.  [Snub24Cell] goes through the length check of [Polychora] and
    then sets the generators to [0 .. 5] and the relations to the nine
    words: [r^3], [s^3], [t^3], [(rs)^2], [(rt)^2], [(s^-1 t)^2] (the word
    [(3, 4, 3, 4)]), and the inverse pairs [(0, 1)], [(2, 3)], [(4, 5)]. *)
Theorem Snub24Cell_presentation :
  Snub24Cell_init =
    (P <- BasePolytope_init [3; 2; 2; 3; 3; 2] [PyInt 1; PyInt 1; PyInt 1; PyInt 1] [] ;;
     Ok (mkSnub
           (set_presentation P [0; 1; 2; 3; 4; 5]
              [[0; 0; 0]; [2; 2; 2]; [4; 4; 4];
               [0; 2; 0; 2]; [0; 4; 0; 4]; [3; 4; 3; 4];
               [0; 1]; [2; 3]; [4; 5]])
           [([0], 3); ([2], 3); ([4], 3); ([0; 2], 2); ([0; 4], 2); ([3; 4], 2)])) /\
  (forall S, Snub24Cell_init = Ok S ->
     symmetry_gens (snub_base S) = [0; 1; 2; 3; 4; 5] /\
     symmetry_rels (snub_base S) =
       [[0; 0; 0]; [2; 2; 2]; [4; 4; 4];
        [0; 2; 0; 2]; [0; 4; 0; 4]; [3; 4; 3; 4];
        [0; 1]; [2; 3]; [4; 5]] /\
     getitem (symmetry_rels (snub_base S)) 5 = Ok [3; 4; 3; 4]).
Proof.
  assert (Heq : Snub24Cell_init =
    (P <- BasePolytope_init [3; 2; 2; 3; 3; 2] [PyInt 1; PyInt 1; PyInt 1; PyInt 1] [] ;;
     Ok (mkSnub
           (set_presentation P [0; 1; 2; 3; 4; 5]
              [[0; 0; 0]; [2; 2; 2]; [4; 4; 4];
               [0; 2; 0; 2]; [0; 4; 0; 4]; [3; 4; 3; 4];
               [0; 1]; [2; 3]; [4; 5]])
           [([0], 3); ([2], 3); ([4], 3); ([0; 2], 2); ([0; 4], 2); ([3; 4], 2)]))).
  { reflexivity. }
  split; [exact Heq |].
  intros S H. rewrite Heq in H.
  apply bind_Ok_inv in H. destruct H as [P [_ H]]. injection H as <-.
  split; [reflexivity |]. split; reflexivity.
Qed.

Lemma Snub_transform_expansion (P : Polytope) (w : word) (v : vec) :
  Snub_transform P v w = transform P v (flat_map Snub_expansion w).
Proof.
  revert v. induction w as [| g rest IH]; intros v; [reflexivity |].
  cbn [Snub_transform flat_map]. unfold Snub_expansion at 1.
  destruct (g =? 0); cbn [app transform].
  - destruct (getitem (reflections P) 0) as [R0 |]; [| reflexivity]. cbn [bind].
    destruct (getitem (reflections P) 1) as [R1 |]; [| reflexivity]. cbn [bind].
    apply IH.
  - destruct (getitem (reflections P) 1) as [R1 |]; [| reflexivity]. cbn [bind].
    destruct (getitem (reflections P) 2) as [R2 |]; [| reflexivity]. cbn [bind].
    apply IH.
Qed.

Lemma Snub24Cell_transform_expansion (P : Polytope) (w : word) (v : vec) :
  Snub24Cell_transform P v w = transform P v (flat_map Snub24Cell_expansion w).
Proof.
  revert v. induction w as [| g rest IH]; intros v; [reflexivity |].
  cbn [Snub24Cell_transform flat_map]. unfold Snub24Cell_expansion at 1.
  destruct (g =? 0); [| destruct (g =? 2)]; cbn [app transform].
  - destruct (getitem (reflections P) 0) as [R0 |]; [| reflexivity]. cbn [bind].
    destruct (getitem (reflections P) 1) as [R1 |]; [| reflexivity]. cbn [bind].
    apply IH.
  - destruct (getitem (reflections P) 1) as [R1 |]; [| reflexivity]. cbn [bind].
    destruct (getitem (reflections P) 2) as [R2 |]; [| reflexivity]. cbn [bind].
    apply IH.
  - destruct (getitem (reflections P) 1) as [R1 |]; [| reflexivity]. cbn [bind].
    destruct (getitem (reflections P) 3) as [R3 |]; [| reflexivity]. cbn [bind].
    apply IH.
Qed.

(** C4.  For generators [S] of a well-formed object,
    [get_orthogonal_stabilizing_mirrors(S)] returns, each once and as a
    1-tuple, exactly the generators [s] with [matrix[x][s] == 2] for every
    [x] in [S] and [active[s]] false; with 1 on the diagonal of the matrix
    no member of [S] is among them. *)
Theorem orthogonal_stabilizing_mirrors_exact (P : Polytope) (S : list Z) :
  well_formed P -> Forall (is_generator P) S ->
  exists r,
    get_orthogonal_stabilizing_mirrors P S = Ok r /\
    (forall w, In w r <->
       exists s, w = [s] /\ is_generator P s /\
         (forall x, In x S -> matrix_at P x s = Ok 2) /\
         active_at P s = Ok false) /\
    NoDup r /\
    (diagonal_one P -> forall s, In s S -> ~ In [s] r).
Proof.
  intros Hwf HS.
  exists (map (fun s => [s]) (filter (orthogonal_and_fixing P S) (symmetry_gens P))).
  split; [apply get_orthogonal_stabilizing_mirrors_filter; assumption |].
  assert (Hmem : forall s,
             In [s] (map (fun s => [s]) (filter (orthogonal_and_fixing P S) (symmetry_gens P))) <->
             is_generator P s /\
             (forall x, In x S -> matrix_at P x s = Ok 2) /\ active_at P s = Ok false).
  { intros s. rewrite in_map_iff. split.
    - intros [s' [Heq Hin]]. injection Heq as ->.
      apply filter_In in Hin. destruct Hin as [Hg Hk].
      split; [exact Hg |]. apply orthogonal_and_fixing_spec; assumption.
    - intros [Hg Hk]. exists s. split; [reflexivity |].
      apply filter_In. split; [exact Hg |].
      apply orthogonal_and_fixing_spec; assumption. }
  split; [| split].
  - intros w. split.
    + intros Hw. assert (Hw' := Hw). apply in_map_iff in Hw'.
      destruct Hw' as [s [<- _]]. exists s. split; [reflexivity |].
      apply Hmem. exact Hw.
    + intros [s [-> H]]. apply Hmem. exact H.
  - apply Injective_map_NoDup.
    + intros a b H. injection H as ->. reflexivity.
    + apply NoDup_filter. destruct Hwf as [_ [_ Hg]]. rewrite Hg. apply NoDup_range.
  - intros Hdiag s Hs Hin. apply Hmem in Hin. destruct Hin as [Hg [Hc _]].
    specialize (Hc s Hs). rewrite (Hdiag s Hg) in Hc. discriminate.
Qed.

End Properties.

(** ** The tetrahedron, run through the model *)

Section TetrahedronRun.

#[local] Existing Instance Tetrahedron.NP.
#[local] Existing Instance Tetrahedron.CE.
#[local] Existing Instance Tetrahedron.HP.

Lemma Tetrahedron_polytope0 :
  Polyhedra_init Tetrahedron.diagram Tetrahedron.init_dist [] = Ok Tetrahedron.polytope0.
Proof. vm_compute. reflexivity. Qed.

Lemma Tetrahedron_polytope1 :
  @get_vertices Tetrahedron.NP Tetrahedron.CE Tetrahedron.polytope0 = Ok Tetrahedron.polytope1.
Proof. vm_compute. reflexivity. Qed.

(** The scenario of the tetrahedron: 4 vertices, 6 edges, 4 triangles. *)
Example Tetrahedron_counts :
  exists P,
    build_geometry Tetrahedron.polytope0 = Ok P /\
    num_vertices P = 4 /\ num_edges P = 6 /\ num_faces P = 4 /\
    vertices_coords P = [[1; 1; -1]; [1; -1; 1]; [-1; 1; 1]; [-1; -1; -1]]%float /\
    edge_indices P = [[(0, 1); (0, 2); (0, 3); (1, 2); (1, 3); (2, 3)]] /\
    face_indices P = [[[0; 2; 1]; [0; 3; 1]; [0; 3; 2]; [1; 3; 2]]].
Proof. eexists. split; [vm_compute; reflexivity |]. repeat split. Qed.

Lemma Tetrahedron_well_formed : well_formed Tetrahedron.polytope1.
Proof.
  unfold well_formed. vm_compute. repeat split; repeat constructor.
Qed.

Lemma Tetrahedron_generators (g : Z) :
  is_generator Tetrahedron.polytope1 g <-> g = 0 \/ g = 1 \/ g = 2.
Proof.
  unfold is_generator. vm_compute. split.
  - intros [H | [H | [H | []]]]; subst; auto.
  - intros [H | [H | H]]; subst; auto.
Qed.

Lemma Tetrahedron_diagonal_one : diagonal_one Tetrahedron.polytope1.
Proof.
  intros s Hs. apply Tetrahedron_generators in Hs.
  destruct Hs as [-> | [-> | ->]]; reflexivity.
Qed.

Lemma orthogonal_stabilizing_mirrors_exact_witness :
  exists r,
    get_orthogonal_stabilizing_mirrors Tetrahedron.polytope1 [0] = Ok r /\
    (forall w, In w r <->
       exists s, w = [s] /\ is_generator Tetrahedron.polytope1 s /\
         (forall x, In x [0] -> matrix_at Tetrahedron.polytope1 x s = Ok 2) /\
         active_at Tetrahedron.polytope1 s = Ok false) /\
    NoDup r /\
    (diagonal_one Tetrahedron.polytope1 -> forall s, In s [0] -> ~ In [s] r).
Proof.
  apply (orthogonal_stabilizing_mirrors_exact Tetrahedron.polytope1 [0]).
  - exact Tetrahedron_well_formed.
  - constructor; [| constructor]. apply Tetrahedron_generators. left. reflexivity.
Defined.

Lemma Tetrahedron_table_closed : vertex_table_closed Tetrahedron.polytope1.
Proof.
  exists Tetrahedron.vertex_table. split; [reflexivity |]. split; [reflexivity |].
  intros v g Hv Hg. apply Tetrahedron_generators in Hg.
  change (num_vertices Tetrahedron.polytope1) with 4 in *.
  assert (Hcases : v = 0 \/ v = 1 \/ v = 2 \/ v = 3) by lia.
  destruct Hcases as [-> | [-> | [-> | ->]]]; destruct Hg as [-> | [-> | ->]];
    cbn; eexists; (split; [reflexivity | lia]).
Qed.

Lemma Tetrahedron_words_valid : enumerator_words_valid Tetrahedron.polytope1.
Proof.
  intros sub w g Hw Hg. apply Tetrahedron_generators.
  cbn [CosetTable_new run get_words Tetrahedron.CE Standin.enumerator] in Hw.
  unfold Tetrahedron.known, Standin.lookup_table in Hw.
  repeat match type of Hw with
         | context [if ?c then _ else _] => destruct c
         end;
    cbn in Hw; intuition (subst; cbn in Hg; intuition lia).
Qed.

Lemma get_edges_orbits_witness :
  exists P' (os : list (option (list (Z * Z)))),
    get_edges Tetrahedron.polytope1 = Ok P' /\
    Forall2
      (fun (ia : Z * bool) (o : option (list (Z * Z))) =>
         active_at Tetrahedron.polytope1 (fst ia) = Ok (snd ia) /\
         match o with
         | None => snd ia = false
         | Some elist =>
             snd ia = true /\
             exists orth,
               get_orthogonal_stabilizing_mirrors Tetrahedron.polytope1 [fst ia] = Ok orth /\
               Forall2
                 (fun w e =>
                    move Tetrahedron.polytope1 0 w = Ok (fst e) /\
                    move Tetrahedron.polytope1 0 (fst ia :: w) = Ok (snd e))
                 (get_words (run (CosetTable_new (symmetry_gens Tetrahedron.polytope1)
                                    (symmetry_rels Tetrahedron.polytope1)
                                    (Some ([fst ia] :: orth)) None)))
                 elist
         end)
      (enumerate (active Tetrahedron.polytope1)) os /\
    edge_indices P' = edge_indices Tetrahedron.polytope1 ++ somes os /\
    num_edges P' = num_edges Tetrahedron.polytope1 + py_len (concat (somes os)).
Proof.
  apply (get_edges_orbits Tetrahedron.polytope1).
  - exact Tetrahedron_well_formed.
  - exact Tetrahedron_table_closed.
  - exact Tetrahedron_words_valid.
Defined.


Lemma Tetrahedron_letters (w : word) (g : Z) :
  In w [[]; [0]; [0; 1]; [0; 1; 2]] -> In g w ->
  exists R, getitem (reflections Tetrahedron.polytope0) g = Ok R.
Proof.
  intros Hw Hg.
  assert (Hcases : g = 0 \/ g = 1 \/ g = 2).
  { cbn in Hw. intuition (subst; cbn in Hg; intuition lia). }
  destruct Hcases as [-> | [-> | ->]]; eexists; vm_compute; reflexivity.
Qed.

Lemma get_vertices_round_trip_witness :
  exists P',
    get_vertices Tetrahedron.polytope0 = Ok P' /\
    num_vertices P' = 4 /\
    py_len (vertices_coords P') = num_vertices P' /\
    init_v P' = init_v Tetrahedron.polytope0 /\
    exists c, getitem (vertices_coords P') 3 = Ok c /\
              transform Tetrahedron.polytope0 (init_v Tetrahedron.polytope0) [0; 1; 2] = Ok c.
Proof.
  destruct (get_vertices_round_trip Tetrahedron.polytope0 Tetrahedron_letters)
    as [_ [P' [Hrun [_ [_ [Hnum [Hlen [[Hinit _] [_ Hcoords]]]]]]]]].
  exists P'. split; [exact Hrun |]. split; [exact Hnum |]. split; [exact Hlen |].
  split; [exact Hinit |].
  assert (Hk : 0 <= 3 < num_vertices P') by (rewrite Hnum; vm_compute; split; [discriminate | reflexivity]).
  destruct (Hcoords 3 Hk) as [w [c [Rs [Hw [Hc [Ht _]]]]]].
  exists c. split; [exact Hc |].
  vm_compute in Hw. injection Hw as <-. exact Ht.
Defined.

End TetrahedronRun.

(** ** The snub presentations on concrete diagrams *)

Section SnubRuns.

(** [Snub((3, 2, 3))] is accepted, with [(rs)^2]. *)
Lemma Snub_323_accepted :
  exists S,
    @Snub_init Tetrahedron.CE Tetrahedron.HP Tetrahedron.diagram Snub_default_init_dist = Ok S.
Proof. eexists. vm_compute. reflexivity. Qed.

Lemma Snub_init_relations_witness :
  exists S p q m,
    @Snub_init Tetrahedron.CE Tetrahedron.HP Tetrahedron.diagram Snub_default_init_dist = Ok S /\
    matrix_at (snub_base S) 0 1 = Ok p /\
    matrix_at (snub_base S) 1 2 = Ok q /\
    matrix_at (snub_base S) 0 2 = Ok m /\
    symmetry_gens (snub_base S) = [0; 1; 2; 3] /\
    symmetry_rels (snub_base S) =
      [repeat 0 (Z.to_nat p); repeat 2 (Z.to_nat q); tuple_mul [0; 2] m; [0; 1]; [2; 3]].
Proof.
  destruct Snub_323_accepted as [S HS].
  destruct (@Snub_init_relations Tetrahedron.CE Tetrahedron.HP
              Tetrahedron.diagram Snub_default_init_dist S HS)
    as [p [q [m [Hp [Hq [Hm [Hg [Hr _]]]]]]]].
  exists S, p, q, m. repeat (split; [assumption |]). exact Hr.
Defined.

(** [Snub((3, 3, 2))]: here [matrix[0][2]] is 3, and the pair [(0, 2)] is
    repeated three times, not twice. *)
Lemma Snub_init_relations_counterexample :
  exists S,
    @Snub_init Tetrahedron332.CE Tetrahedron332.HP [3; 3; 2] Snub_default_init_dist = Ok S /\
    matrix_at (snub_base S) 0 1 = Ok 3 /\
    matrix_at (snub_base S) 1 2 = Ok 2 /\
    symmetry_rels (snub_base S) = [[0; 0; 0]; [2; 2]; [0; 2; 0; 2; 0; 2]; [0; 1]; [2; 3]] /\
    symmetry_rels (snub_base S) <> [[0; 0; 0]; [2; 2]; [0; 2; 0; 2]; [0; 1]; [2; 3]].
Proof.
  eexists. split; [vm_compute; reflexivity |].
  split; [reflexivity |]. split; [reflexivity |]. split; [reflexivity |].
  cbn [symmetry_rels snub_base]. discriminate.
Qed.

End SnubRuns.

(** ** [transform] on the formal inverses *)

(** C10.  [Snub.transform] reads every generator other than 0 as the
    reflections 1 then 2, and [Snub24Cell.transform] reads every generator
    other than 0 and 2 as the reflections 1 then 3; so the inverse
    generators 1 and 3 (and 5) are transformed like [s] (like [t]), and
    [Snub.transform(v, (1,))] is [Snub.transform(v, (2,))] for every [v].  On
    the relator [(0, 1)] the transform is not the identity: with the
    tetrahedron's reflections it takes [(1, 2, 3)] to [(1, -2, -3)]. *)
Theorem snub_transform_inverse_generators :
  (forall (NP : Numpy) (CE : CosetEnumerator) (P : @Polytope CE) (v : vec) (w : word),
     @Snub_transform NP CE P v w = @transform NP CE P v (flat_map Snub_expansion w)) /\
  (forall g, g <> 0 -> Snub_expansion g = [1; 2]) /\
  (forall (NP : Numpy) (CE : CosetEnumerator) (P : @Polytope CE) (v : vec) (w : word),
     @Snub24Cell_transform NP CE P v w =
     @transform NP CE P v (flat_map Snub24Cell_expansion w)) /\
  (forall g, g <> 0 -> g <> 2 -> Snub24Cell_expansion g = [1; 3]) /\
  (forall (NP : Numpy) (CE : CosetEnumerator) (P : @Polytope CE) (v : vec),
     @Snub_transform NP CE P v [1] = @Snub_transform NP CE P v [2] /\
     @Snub_transform NP CE P v [3] = @Snub_transform NP CE P v [2]) /\
  (@Snub_transform Tetrahedron.NP Tetrahedron.CE Tetrahedron.polytope0
     [1; 2; 3]%float [0; 1] = Ok [1; -2; -3]%float /\
   [1; -2; -3]%float <> [1; 2; 3]%float).
Proof.
  split; [intros; apply Snub_transform_expansion |].
  split.
  { intros g Hg. unfold Snub_expansion. destruct (Z.eqb_spec g 0); [contradiction | reflexivity]. }
  split; [intros; apply Snub24Cell_transform_expansion |].
  split.
  { intros g H0 H2. unfold Snub24Cell_expansion.
    destruct (Z.eqb_spec g 0); [contradiction |].
    destruct (Z.eqb_spec g 2); [contradiction | reflexivity]. }
  split; [intros; split; reflexivity |].
  split; [vm_compute; reflexivity |].
  intros H.
  apply (f_equal (fun u : vec =>
                    match u with
                    | _ :: y :: _ => PrimFloat.eqb y 2
                    | _ => false
                    end)) in H.
  vm_compute in H. discriminate.
Qed.

(** ** The projection of the 5D family *)

Lemma Cube5_polytope1 :
  (P <- @Polytope5D_init Cube5.CE Cube5.HP Cube5.diagram Cube5.init_dist [] ;;
   @get_vertices Cube5.NP Cube5.CE P) = Ok Cube5.polytope1 /\
  num_vertices Cube5.polytope1 = 32.
Proof. split; vm_compute; reflexivity. Qed.

(** C6 (what the code does).  [proj4d] does not read its argument: it
    divides by [1.3 - v[-1]] whatever [pole] is.  On the 5-cube with
    [pole = 2] the first vertex [(1, 1, 1, 1, 1)] goes to
    [1 / (1.3 - 1)] in each coordinate, where [v[0:4] / (pole - v[4])]
    is [(1, 1, 1, 1)]. *)
Theorem proj4d_ignores_pole :
  (forall (CE : CosetEnumerator) (P : @Polytope CE) (pole : float),
     @proj4d CE P pole = @proj4d CE P 1.3%float) /\
  (exists P' Q',
     @proj4d Cube5.CE Cube5.polytope1 2%float = Ok P' /\
     @proj4d_as_specified Cube5.CE Cube5.polytope1 2%float = Ok Q' /\
     getitem (vertices_coords Cube5.polytope1) 0 = Ok [1; 1; 1; 1; 1]%float /\
     getitem (vertices_coords P') 0 =
       Ok (repeat (PrimFloat.div 1 (PrimFloat.sub 1.3 1)) 4) /\
     getitem (vertices_coords Q') 0 = Ok [1; 1; 1; 1]%float /\
     vertices_coords P' <> vertices_coords Q').
Proof.
  split; [reflexivity |].
  eexists. eexists.
  split; [vm_compute; reflexivity |].
  split; [vm_compute; reflexivity |].
  split; [vm_compute; reflexivity |].
  split; [vm_compute; reflexivity |].
  split; [vm_compute; reflexivity |].
  intros H.
  apply (f_equal (fun cs : list vec =>
                    match cs with
                    | (x :: _) :: _ => PrimFloat.eqb x 1
                    | _ => false
                    end)) in H.
  vm_compute in H. discriminate.
Qed.

(* ================================================================== *)
(** * Further properties of the base class *)

(** What a loop keeps: an invariant of every turn that returns is an
    invariant of the loop when it returns. *)
Lemma for_each_invariant {A S : Type} (inv : S -> Prop)
    (body : S -> A -> result S) (xs : list A) :
  (forall s x s', In x xs -> inv s -> body s x = Ok s' -> inv s') ->
  forall s s', inv s -> for_each xs body s = Ok s' -> inv s'.
Proof.
  induction xs as [| x rest IH]; intros H s s' Hs Hrun; simpl in Hrun.
  - injection Hrun as <-. exact Hs.
  - apply bind_Ok_inv in Hrun. destruct Hrun as [s1 [H1 Hrest]].
    apply (IH (fun t y t' Hy => H t y t' (or_intror Hy)) s1 s').
    + apply (H s x s1 (or_introl eq_refl) Hs H1).
    + exact Hrest.
Qed.

(** A loop raises what one of its turns raises. *)
Lemma for_each_raises {A S : Type} (body : S -> A -> result S) (xs : list A)
    (s : S) (e : exn) :
  for_each xs body s = Raise e -> exists t x, In x xs /\ body t x = Raise e.
Proof.
  revert s. induction xs as [| x rest IH]; intros s H; simpl in H; [discriminate |].
  apply bind_Raise_inv in H. destruct H as [H | [s1 [_ H]]].
  - exists s, x. split; [left; reflexivity | exact H].
  - destruct (IH s1 H) as [t [y [Hy Ht]]]. exists t, y. split; [right; exact Hy | exact Ht].
Qed.

Section BaseMore.

Context {NP : Numpy} {CE : CosetEnumerator} {HP : Helpers}.

(** X1.  [move] goes letter by letter, so it composes: moving by
    [w1 + w2] is moving by [w1] and then by [w2], and an exception met on
    the way is the same either way. *)
Theorem move_concat (P : Polytope) (w1 w2 : word) (v : Z) :
  move P v (w1 ++ w2) = (v' <- move P v w1 ;; move P v' w2).
Proof.
  revert v. induction w1 as [| g rest IH]; intros v; [reflexivity |].
  cbn [app move]. destruct (vtable_at P v g) as [v1 | e]; cbn [bind]; [apply IH | reflexivity].
Qed.

Lemma transform_concat_base (P : Polytope) (w1 w2 : word) (v : vec) :
  transform P v (w1 ++ w2) = (v' <- transform P v w1 ;; transform P v' w2).
Proof.
  revert v. induction w1 as [| g rest IH]; intros v; [reflexivity |].
  cbn [app transform]. destruct (getitem (reflections P) g) as [R | e]; cbn [bind];
    [apply IH | reflexivity].
Qed.

(** X2.  The three [transform] methods compose over concatenation of
    words: transforming by [w1 + w2] is transforming by [w1] and then by
    [w2]. *)
Theorem transform_concat (P : Polytope) (w1 w2 : word) (v : vec) :
  transform P v (w1 ++ w2) = (v' <- transform P v w1 ;; transform P v' w2) /\
  Snub_transform P v (w1 ++ w2) =
    (v' <- Snub_transform P v w1 ;; Snub_transform P v' w2) /\
  Snub24Cell_transform P v (w1 ++ w2) =
    (v' <- Snub24Cell_transform P v w1 ;; Snub24Cell_transform P v' w2).
Proof.
  split; [apply transform_concat_base |]. split.
  - rewrite !Snub_transform_expansion, flat_map_app, transform_concat_base.
    destruct (transform P v (flat_map Snub_expansion w1)); cbn [bind]; [| reflexivity].
    rewrite Snub_transform_expansion. reflexivity.
  - rewrite !Snub24Cell_transform_expansion, flat_map_app, transform_concat_base.
    destruct (transform P v (flat_map Snub24Cell_expansion w1)); cbn [bind]; [| reflexivity].
    rewrite Snub24Cell_transform_expansion. reflexivity.
Qed.

Lemma length_combinations2 {A : Type} (l : list A) :
  (2 * length (combinations2 l) = length l * (length l - 1))%nat.
Proof.
  induction l as [| a rest IH]; [reflexivity |].
  cbn [combinations2 length]. rewrite length_app, length_map. nia.
Qed.

Lemma pairs_count_Z (k c : nat) :
  (2 * c = k * (k - 1))%nat -> 2 * Z.of_nat c = Z.of_nat k * (Z.of_nat k - 1).
Proof.
  intros H. destruct k as [| k]; [simpl in H; lia |].
  replace (S k - 1)%nat with k in H by lia. nia.
Qed.

(** X3.  With a square Coxeter matrix [BasePolytope.__init__] returns.
    The object has the generators [0 .. n-1], one flag [bool(x)] per
    distance, one Coxeter relation [(i, j) * matrix[i][j]] per pair
    [i < j] in the order of [combinations] (that is [n (n-1) / 2] of them)
    followed by the extra relations, no vertex table, zero counts and
    empty collections. *)
Theorem BasePolytope_init_square (d : list diagram_entry) (dist : list pynum)
    (extra : list word) :
  Forall (fun row => py_len row = py_len (get_coxeter_matrix d)) (get_coxeter_matrix d) ->
  exists P rels,
    BasePolytope_init d dist extra = Ok P /\
    coxeter_matrix P = get_coxeter_matrix d /\
    reflections P = map reflection_matrix (get_mirrors d) /\
    active P = map truthy dist /\
    symmetry_gens P = range (py_len (get_coxeter_matrix d)) /\
    symmetry_rels P = rels ++ extra /\
    Forall2 (fun (ij : Z * Z) rel =>
               exists m, matrix_at P (fst ij) (snd ij) = Ok m /\
                         rel = tuple_mul [fst ij; snd ij] m)
            (combinations2 (range (py_len (get_coxeter_matrix d)))) rels /\
    2 * py_len rels = py_len (get_coxeter_matrix d) * (py_len (get_coxeter_matrix d) - 1) /\
    vtable P = None /\
    (num_vertices P = 0 /\ num_edges P = 0 /\ num_faces P = 0) /\
    (vertices_coords P = [] /\ edge_indices P = [] /\ face_indices P = []).
Proof.
  intros Hrows. unfold BasePolytope_init, coxeter_relations.
  set (M := get_coxeter_matrix d) in *.
  destruct (mapM_Forall2
              (fun ij : Z * Z =>
                 let (i, j) := ij in
                 row <- getitem M i ;; m <- getitem row j ;; Ok (tuple_mul [i; j] m))
              (fun (ij : Z * Z) rel =>
                 exists m, (row <- getitem M (fst ij) ;; getitem row (snd ij)) = Ok m /\
                           rel = tuple_mul [fst ij; snd ij] m)
              (combinations2 (range (py_len M)))) as [rels [Hrels HF]].
  { intros [i j] Hin. apply In_combinations2 in Hin. destruct Hin as [Hi Hj].
    apply In_range in Hi. apply In_range in Hj.
    destruct (getitem_in_range M i Hi) as [row [Hrow _]].
    assert (Hlen : py_len row = py_len M).
    { rewrite Forall_forall in Hrows. apply Hrows. eapply getitem_Ok_In. exact Hrow. }
    rewrite <- Hlen in Hj.
    destruct (getitem_in_range row j Hj) as [m [Hm _]].
    exists (tuple_mul [i; j] m). cbn [fst snd]. rewrite Hrow. cbn [bind]. rewrite Hm. cbn [bind].
    split; [reflexivity |]. exists m. split; reflexivity. }
  rewrite Hrels. cbn [bind].
  eexists. exists rels. split; [reflexivity |]. cbn.
  repeat (split; [reflexivity |]).
  split; [exact HF |].
  split; [| repeat split].
  apply Forall2_length in HF.
  pose proof (length_combinations2 (range (py_len M))) as Hc.
  pose proof (length_range (py_len M)) as Hr. pose proof (py_len_nonneg M) as Hn.
  change (2 * py_len rels = py_len M * (py_len M - 1)).
  rewrite Z.max_r in Hr by exact Hn. rewrite <- Hr.
  unfold py_len at 1 2 4. rewrite <- HF.
  apply pairs_count_Z. exact Hc.
Qed.

Lemma for_each_skip {A S : Type} (body : S -> A -> result S) (xs : list A) (s : S) :
  (forall x, In x xs -> body s x = Ok s) -> for_each xs body s = Ok s.
Proof.
  induction xs as [| x rest IH]; intros H; simpl; [reflexivity |].
  rewrite (H x (or_introl eq_refl)). cbn [bind].
  apply IH. intros y Hy. apply H. right. exact Hy.
Qed.

Lemma In_enumerate_snd {A : Type} (l : list A) (start i : Z) (a : A) :
  In (i, a) (enumerate_from start l) -> In a l.
Proof.
  intros H. apply In_enumerate_from in H. destruct H as [_ H].
  eapply nth_error_In. exact H.
Qed.

Lemma In_enumerate_exists {A : Type} (l : list A) (start : Z) (a : A) :
  In a l -> exists i, In (i, a) (enumerate_from start l).
Proof.
  revert start. induction l as [| b rest IH]; intros start; simpl; [intros [] |].
  intros [-> | H].
  - exists start. left. reflexivity.
  - destruct (IH (start + 1) H) as [i Hi]. exists i. right. exact Hi.
Qed.

(** X4.  When no mirror is active, [get_edges] returns the object as it
    found it, and so does [get_faces] on a well-formed object: a point on
    every mirror spans no edge and no face. *)
Theorem no_active_mirror_nothing_added (P : Polytope) :
  Forall (fun a => a = false) (active P) ->
  get_edges P = Ok P /\ (well_formed P -> get_faces P = Ok P).
Proof.
  intros Hall. rewrite Forall_forall in Hall. split.
  - unfold get_edges. apply for_each_skip. intros [i a] Hin.
    apply In_enumerate_snd in Hin. rewrite (Hall a Hin). reflexivity.
  - intros Hwf. unfold get_faces. apply for_each_skip. intros [i j] Hin.
    apply In_combinations2 in Hin. destruct Hin as [Hi Hj].
    destruct (matrix_at_defined P i j Hwf Hi Hj) as [m Hm].
    destruct (active_at_defined P i Hwf Hi) as [ai Hai].
    destruct (active_at_defined P j Hwf Hj) as [aj Haj].
    assert (ai = false) as ->.
    { apply Hall. eapply getitem_Ok_In. exact Hai. }
    assert (aj = false) as ->.
    { apply Hall. eapply getitem_Ok_In. exact Haj. }
    assert (Hgens : Forall (is_generator P) [i; j]).
    { constructor; [exact Hi |]. constructor; [exact Hj | constructor]. }
    unfold face_orbit, face_stabilizer_gens, base_face.
    rewrite Hm, (get_orthogonal_stabilizing_mirrors_filter P [i; j] Hwf Hgens).
    cbn [bind].
    rewrite (both_active_eval P i j false false Hai Haj),
            (one_active_and_not_orthogonal_eval P i j m false false Hai Haj).
    reflexivity.
Qed.

(** X5.  [get_edges] needs the vertex table: on a well-formed object that
    has an active mirror and no table yet ([get_vertices] has not run), it
    raises [TypeError] (subscripting [None]), given that an enumeration
    never comes back without a word. *)
Theorem get_edges_before_get_vertices (P : Polytope) :
  well_formed P -> vtable P = None ->
  (forall sub,
     get_words (run (CosetTable_new (symmetry_gens P) (symmetry_rels P) sub None)) <> []) ->
  In true (active P) ->
  get_edges P = Raise TypeError.
Proof.
  intros Hwf Hnone Hwords Hact.
  assert (Horbit : forall i, is_generator P i -> edge_orbit P i = Raise TypeError).
  { intros i Hi.
    assert (Hgens : Forall (is_generator P) [i]) by (constructor; [exact Hi | constructor]).
    unfold edge_orbit, edge_stabilizer_gens.
    rewrite (get_orthogonal_stabilizing_mirrors_filter P [i] Hwf Hgens). cbn [bind app].
    pose proof (Hwords (Some ([i] ::
        map (fun s => [s]) (filter (orthogonal_and_fixing P [i]) (symmetry_gens P))))) as Hne.
    match goal with |- for_each ?ws _ _ = _ => destruct ws as [| w ws'] eqn:Ews end;
      [exfalso; apply Hne; exact Ews |].
    cbn [for_each]. destruct w as [| g w'].
    - cbn [move bind]. unfold vtable_at. rewrite Hnone. reflexivity.
    - cbn [move]. unfold vtable_at. rewrite Hnone. reflexivity. }
  destruct (In_enumerate_exists (active P) 0 true Hact) as [i0 Hi0].
  unfold get_edges, enumerate in *.
  assert (Hgen : forall i a, In (i, a) (enumerate_from 0 (active P)) -> is_generator P i).
  { intros i a Hin. apply (enumerate_active P i a Hwf Hin). }
  revert Hgen Hi0. generalize (enumerate_from 0 (active P)) as items.
  induction items as [| [i a] rest IH]; intros Hgen Hi0; [contradiction |].
  cbn [for_each]. destruct a.
  - rewrite (Horbit i (Hgen i true (or_introl eq_refl))). reflexivity.
  - cbn [bind]. apply IH.
    + intros j b Hin. apply (Hgen j b). right. exact Hin.
    + destruct Hi0 as [Heq | Hin]; [discriminate | exact Hin].
Qed.

Lemma Forall2_In_r {A B : Type} (R : A -> B -> Prop) (xs : list A) (ys : list B) (y : B) :
  Forall2 R xs ys -> In y ys -> exists x, In x xs /\ R x y.
Proof.
  induction 1 as [| a b xs' ys' Hab _ IH]; simpl; [intros [] |].
  intros [<- | Hin].
  - exists a. split; [left; reflexivity | exact Hab].
  - destruct (IH Hin) as [x [Hx HR]]. exists x. split; [right; exact Hx | exact HR].
Qed.

Lemma Forall_somes {O : Type} (Q : O -> Prop) (os : list (option O)) :
  Forall (fun o => match o with Some y => Q y | None => True end) os ->
  Forall Q (somes os).
Proof.
  induction 1 as [| o rest Ho _ IH]; simpl; [constructor |].
  destruct o; [constructor; assumption | exact IH].
Qed.

Lemma Forall2_Forall_r {A B : Type} (R : A -> B -> Prop) (Q : B -> Prop)
    (xs : list A) (ys : list B) :
  Forall2 R xs ys -> (forall x y, In x xs -> R x y -> Q y) -> Forall Q ys.
Proof.
  induction 1 as [| a b xs' ys' Hab _ IH]; intros H; constructor.
  - apply (H a b (or_introl eq_refl) Hab).
  - apply IH. intros x y Hx. apply H. right. exact Hx.
Qed.

(** A vertex reached by [move] on a closed table is a vertex. *)
Lemma move_in_range (P : Polytope) (w : word) (v v' : Z) :
  vertex_table_closed P -> Forall (is_generator P) w -> is_vertex P v ->
  move P v w = Ok v' -> is_vertex P v'.
Proof.
  intros Hclosed Hw Hv Hmove.
  destruct (move_closed P w Hclosed Hw v Hv) as [v1 [H1 Hr]].
  rewrite H1 in Hmove. injection Hmove as <-. exact Hr.
Qed.

Lemma zero_is_vertex (P : Polytope) : vertex_table_closed P -> is_vertex P 0.
Proof. intros [_ [_ [Hpos _]]]. unfold is_vertex. lia. Qed.

(** X6.  On a well-formed object with a closed vertex table,
    [get_edges] only appends to [edge_indices], and both ends of every
    edge it adds are vertex indices in [0, num_vertices). *)
Theorem get_edges_in_range (P : Polytope) :
  well_formed P -> vertex_table_closed P -> enumerator_words_valid P ->
  exists P' added,
    get_edges P = Ok P' /\
    edge_indices P' = edge_indices P ++ added /\
    num_vertices P' = num_vertices P /\
    Forall (Forall (fun e : Z * Z => is_vertex P (fst e) /\ is_vertex P (snd e))) added.
Proof.
  intros Hwf Hclosed Hwords. unfold get_edges.
  match goal with |- context [for_each ?xs ?b _] => set (body := b) end.
  destruct (@for_each_emit Polytope (Z * bool) (list (Z * Z))
              (fun s => same_symmetry s P /\ num_vertices s = num_vertices P) add_edges
              (fun (_ : Z * bool) (o : option (list (Z * Z))) =>
                 match o with
                 | Some elist =>
                     Forall (fun e : Z * Z => is_vertex P (fst e) /\ is_vertex P (snd e)) elist
                 | None => True
                 end)
              body (enumerate (active P))) with (s := P) as [os [HF Hrun]].
  - intros s o Hs. exact Hs.
  - intros s [i a] [Hs _] Hin. unfold body.
    destruct (enumerate_active P i a Hwf Hin) as [Hgen _].
    destruct a; [| exists None; split; [exact I | reflexivity]].
    destruct (edge_orbit_spec P i Hwf Hclosed Hwords Hgen) as [orth [elist [_ [He HFe]]]].
    exists (Some elist). rewrite (edge_orbit_same s P i Hs), He. split; [| reflexivity].
    apply (Forall2_Forall_r _ _ _ _ HFe). intros w e Hw [H1 H2].
    pose proof (enumerated_words_valid P _ w Hwords Hw) as Hvalid.
    split.
    + apply (move_in_range P w 0 (fst e) Hclosed Hvalid (zero_is_vertex P Hclosed) H1).
    + apply (move_in_range P (i :: w) 0 (snd e) Hclosed (Forall_cons i Hgen Hvalid)
               (zero_is_vertex P Hclosed) H2).
  - split; [apply same_symmetry_refl | reflexivity].
  - destruct (fold_add_edges os P) as [He _].
    eexists. exists (somes os). split; [exact Hrun |]. split; [exact He |].
    split.
    + clear. revert P. induction os as [| [y |] rest IH]; intros P; simpl;
        [reflexivity | rewrite IH; reflexivity | apply IH].
    + apply Forall_somes. apply (Forall2_Forall_r _ _ _ _ HF). intros x o _ Ho. exact Ho.
Qed.

(** X7.  On a well-formed object with a closed vertex table,
    [get_faces] returns, only appends to [face_indices], and every face
    it adds is made of vertex indices in [0, num_vertices), whatever the
    orders are.  When, moreover, the orders [matrix[i][j]] of the pairs
    are at least 2, every face it adds has at least three vertices. *)
Theorem get_faces_in_range (P : Polytope) :
  well_formed P -> vertex_table_closed P -> enumerator_words_valid P ->
  exists P' added,
    get_faces P = Ok P' /\
    face_indices P' = face_indices P ++ added /\
    Forall (Forall (Forall (is_vertex P))) added /\
    ((forall i j m, In (i, j) (combinations2 (symmetry_gens P)) ->
        matrix_at P i j = Ok m -> 2 <= m) ->
     Forall (Forall (fun f : list Z => 3 <= py_len f)) added).
Proof.
  intros Hwf Hclosed Hwords. unfold get_faces.
  match goal with |- context [for_each ?xs ?b _] => set (body := b) end.
  destruct (@for_each_emit Polytope (Z * Z) (list (list Z))
              (fun s => same_symmetry s P) add_faces
              (fun (ij : Z * Z) (o : option (list (list Z))) =>
                 match o with
                 | Some flist =>
                     exists m, matrix_at P (fst ij) (snd ij) = Ok m /\
                       Forall (fun f : list Z =>
                                 Forall (is_vertex P) f /\ (2 <= m -> 3 <= py_len f)) flist
                 | None => True
                 end)
              body (combinations2 (symmetry_gens P))) with (s := P) as [os [HF Hrun]].
  - intros s o Hs. exact Hs.
  - intros s [i j] Hs Hin. unfold body.
    destruct (In_combinations2 (symmetry_gens P) i j Hin) as [Hi Hj].
    destruct (face_orbit_spec P i j Hwf Hclosed Hwords Hi Hj)
      as [m [ai [aj [o [Hm [_ [_ [Ho Hshape]]]]]]]].
    exists o. rewrite (face_orbit_same s P (i, j) Hs), Ho. cbn [bind].
    split; [| destruct o; reflexivity].
    destruct o as [flist |]; [| exact I].
    destruct Hshape as [f0 [orth [Hbase [_ Hfl]]]].
    exists m. split; [exact Hm |].
    pose proof (rotation_word_valid P i j) as Hrot.
    assert (Hf0 : Forall (is_vertex P) f0 /\ (2 <= m -> 3 <= py_len f0)).
    { destruct Hbase as [[_ [_ [pairs [HFp ->]]]] | [_ [Hgt HFk]]].
      - split.
        + clear Hfl. induction HFp as [| k ab ks abs [Ha Hb] _ IH]; cbn [flat_map app];
            [constructor |].
          constructor;
            [apply (move_in_range P _ 0 _ Hclosed (Hrot k Hi Hj) (zero_is_vertex P Hclosed) Ha) |].
          constructor;
            [apply (move_in_range P _ 0 _ Hclosed (Forall_cons j Hj (Hrot k Hi Hj))
                      (zero_is_vertex P Hclosed) Hb) |].
          exact IH.
        + intros Hm2. apply Forall2_length in HFp. pose proof (length_range m) as Hl.
          unfold py_len in *. rewrite (flat_map_constant_length (c := 2%nat)).
          * lia.
          * intros ab _. reflexivity.
      - split.
        + apply (Forall2_Forall_r _ _ _ _ HFk). intros k a _ Ha.
          apply (move_in_range P _ 0 _ Hclosed (Hrot k Hi Hj) (zero_is_vertex P Hclosed) Ha).
        + intros _. apply Forall2_length in HFk. pose proof (length_range m) as Hl.
          unfold py_len in *. lia. }
    destruct Hf0 as [Hverts Hlen].
    apply (Forall2_Forall_r _ _ _ _ Hfl). intros w f Hw HFf.
    pose proof (enumerated_words_valid P _ w Hwords Hw) as Hvalid.
    split.
    + rewrite Forall_forall in Hverts.
      apply (Forall2_Forall_r _ _ _ _ HFf). intros v v' Hv Hmove.
      apply (move_in_range P w v v' Hclosed Hvalid (Hverts v Hv) Hmove).
    + intros Hm2. specialize (Hlen Hm2).
      apply Forall2_length in HFf. unfold py_len in *. lia.
  - apply same_symmetry_refl.
  - destruct (fold_add_faces os P) as [He _].
    eexists. exists (somes os). split; [exact Hrun |]. split; [exact He |].
    split.
    + apply Forall_somes. apply (Forall2_Forall_r _ _ _ _ HF). intros x o _ Ho.
      destruct o as [flist |]; [| exact I].
      destruct Ho as [m [_ Hfl]].
      apply (Forall_impl _ (fun f H => proj1 H) Hfl).
    + intros Horders.
      apply Forall_somes. apply (Forall2_Forall_r _ _ _ _ HF). intros [i j] o Hin Ho.
      destruct o as [flist |]; [| exact I].
      destruct Ho as [m [Hm Hfl]]. cbn [fst snd] in Hm.
      pose proof (Horders i j m Hin Hm) as Hm2.
      apply (Forall_impl _ (fun f H => proj2 H Hm2) Hfl).
Qed.

Lemma mapM_length {A B : Type} (f : A -> result B) (xs : list A) (ys : list B) :
  mapM f xs = Ok ys -> length ys = length xs.
Proof.
  revert ys. induction xs as [| x rest IH]; intros ys H; simpl in H.
  - injection H as <-. reflexivity.
  - apply bind_Ok_inv in H. destruct H as [y [_ H]].
    apply bind_Ok_inv in H. destruct H as [ys' [Hrest H]].
    injection H as <-. simpl. rewrite (IH ys' Hrest). reflexivity.
Qed.

Lemma py_len_concat_snoc {A : Type} (ls : list (list A)) (l : list A) :
  py_len (concat (ls ++ [l])) = py_len (concat ls) + py_len l.
Proof.
  unfold py_len. rewrite concat_app, length_app. simpl. rewrite app_nil_r. lia.
Qed.

(** X8.  [build_geometry] keeps the counters in step with the
    collections: if [num_edges] and [num_faces] count the edges and faces
    stored so far (as on a new object, where all are empty), then after
    [build_geometry] returns, [num_vertices], [num_edges] and [num_faces]
    are the numbers of stored coordinates, edges and faces, and
    [num_vertices] is the number of vertex words. *)
Theorem build_geometry_counts (P P' : Polytope) :
  build_geometry P = Ok P' ->
  num_edges P = py_len (concat (edge_indices P)) ->
  num_faces P = py_len (concat (face_indices P)) ->
  counts_agree P' /\
  exists ws, vwords P' = Some ws /\ num_vertices P' = py_len ws.
Proof.
  unfold build_geometry. intros H He Hf.
  apply bind_Ok_inv in H. destruct H as [P1 [H1 H]].
  apply bind_Ok_inv in H. destruct H as [P2 [H2 H3]].
  unfold get_vertices in H1.
  apply bind_Ok_inv in H1. destruct H1 as [cs [Hcs H1]]. injection H1 as <-.
  apply mapM_length in Hcs.
  set (ws := get_words (run (CosetTable_new (symmetry_gens P) (symmetry_rels P)
                               (Some (vertex_stabilizer_gens P)) None))) in *.
  set (Q := fun s : Polytope =>
              counts_agree s /\ vwords s = Some ws /\ num_vertices s = py_len ws).
  match type of H2 with get_edges ?X = _ => assert (HQ1 : Q X) end.
  { unfold Q, counts_agree. cbn. repeat split; try assumption.
    unfold py_len. rewrite Hcs. reflexivity. }
  assert (HQ2 : Q P2).
  { unfold get_edges in H2.
    refine (for_each_invariant Q _ _ _ _ _ HQ1 H2).
    intros s [i a] s' _ Hs Hbody. destruct a; [| injection Hbody as <-; exact Hs].
    apply bind_Ok_inv in Hbody. destruct Hbody as [elist [_ Hbody]]. injection Hbody as <-.
    destruct Hs as [[Hv [Hed Hfa]] [Hw Hn]].
    unfold Q, counts_agree. cbn [add_edges num_vertices vertices_coords num_edges edge_indices
                                 num_faces face_indices vwords].
    rewrite py_len_concat_snoc. repeat split; try assumption. lia. }
  assert (HQ3 : Q P').
  { unfold get_faces in H3.
    refine (for_each_invariant Q _ _ _ _ _ HQ2 H3).
    intros s ij s' _ Hs Hbody.
    apply bind_Ok_inv in Hbody. destruct Hbody as [fo [_ Hbody]].
    destruct fo as [flist |]; injection Hbody as <-; [| exact Hs].
    destruct Hs as [[Hv [Hed Hfa]] [Hw Hn]].
    unfold Q, counts_agree. cbn [add_faces num_vertices vertices_coords num_edges edge_indices
                                 num_faces face_indices vwords].
    rewrite py_len_concat_snoc. repeat split; try assumption. lia. }
  destruct HQ3 as [Hc [Hw Hn]]. split; [exact Hc |]. exists ws. split; assumption.
Qed.

(** *** More on [get_orthogonal_stabilizing_mirrors] *)

Lemma getitem_app_middle {A : Type} (pre rest : list A) (a : A) :
  getitem (pre ++ a :: rest) (py_len pre) = Ok a.
Proof.
  assert (Hr : 0 <= py_len pre < py_len (pre ++ a :: rest)).
  { unfold py_len. rewrite length_app. simpl. lia. }
  destruct (getitem_in_range _ _ Hr) as [b [Hb Hn]]. rewrite Hb. f_equal.
  unfold py_len in Hn. rewrite Nat2Z.id, nth_error_app2 in Hn by lia.
  rewrite Nat.sub_diag in Hn. simpl in Hn. congruence.
Qed.

Lemma inactive_loop (P : Polytope) (rest pre : list bool) (acc : list word) :
  active P = pre ++ rest ->
  for_each (map Z.of_nat (seq (length pre) (length rest)))
    (fun acc s =>
       c <- all_commute P [] s ;;
       if c then
         a <- active_at P s ;;
         if negb a then Ok (acc ++ [[s]]) else Ok acc
       else Ok acc)
    acc =
  Ok (acc ++ map (fun ia : Z * bool => [fst ia])
                 (filter (fun ia : Z * bool => negb (snd ia))
                         (enumerate_from (py_len pre) rest))).
Proof.
  revert pre acc. induction rest as [| a rest IH]; intros pre acc Hact.
  - simpl. rewrite app_nil_r. reflexivity.
  - cbn [length seq map for_each all_commute bind].
    unfold active_at at 1. rewrite Hact. fold (py_len pre).
    rewrite getitem_app_middle. cbn [bind].
    specialize (IH (pre ++ [a])).
    rewrite length_app in IH. simpl length in IH.
    replace (length pre + 1)%nat with (S (length pre)) in IH by lia.
    assert (Hlen : py_len (pre ++ [a]) = py_len pre + 1).
    { unfold py_len. rewrite length_app. simpl. lia. }
    rewrite Hlen in IH.
    assert (Hact' : active P = (pre ++ [a]) ++ rest) by (rewrite <- app_assoc; exact Hact).
    cbn [enumerate_from filter snd].
    destruct a; cbn [negb].
    + cbn [bind]. exact (IH acc Hact').
    + cbn [bind map fst].
      pose proof (IH (acc ++ [[py_len pre]]) Hact') as IH'.
      rewrite <- app_assoc in IH'. exact IH'.
Qed.

(** X9.  On the empty list of generators
    [get_orthogonal_stabilizing_mirrors] returns every inactive mirror, in
    order: on a well-formed object it is the list of subgroup generators
    that [get_vertices] hands to the enumerator. *)
Theorem orthogonal_mirrors_of_nothing (P : Polytope) :
  well_formed P ->
  get_orthogonal_stabilizing_mirrors P [] = Ok (vertex_stabilizer_gens P).
Proof.
  intros [_ [Hact Hgens]].
  unfold get_orthogonal_stabilizing_mirrors, vertex_stabilizer_gens, enumerate.
  rewrite Hgens, <- Hact. unfold range, py_len at 1. rewrite Nat2Z.id.
  apply (inactive_loop P (active P) [] []). reflexivity.
Qed.

(** X10.  Asking for more can only give less: when [S] is part of [S'],
    every mirror returned for [S'] is returned for [S]. *)
Theorem orthogonal_mirrors_antitone (P : Polytope) (S S' : list Z) :
  well_formed P -> Forall (is_generator P) S' -> incl S S' ->
  exists r r',
    get_orthogonal_stabilizing_mirrors P S = Ok r /\
    get_orthogonal_stabilizing_mirrors P S' = Ok r' /\
    incl r' r.
Proof.
  intros Hwf HS' Hincl.
  assert (HS : Forall (is_generator P) S).
  { rewrite Forall_forall in *. intros x Hx. apply HS'. apply Hincl. exact Hx. }
  eexists. eexists.
  split; [apply get_orthogonal_stabilizing_mirrors_filter; assumption |].
  split; [apply get_orthogonal_stabilizing_mirrors_filter; assumption |].
  intros w Hw. apply in_map_iff in Hw. destruct Hw as [s [<- Hs]].
  apply filter_In in Hs. destruct Hs as [Hg Hk].
  apply in_map_iff. exists s. split; [reflexivity |].
  apply filter_In. split; [exact Hg |].
  apply (orthogonal_and_fixing_spec P S' s Hwf HS' Hg) in Hk. destruct Hk as [Hc Ha].
  apply (orthogonal_and_fixing_spec P S s Hwf HS Hg).
  split; [| exact Ha]. intros x Hx. apply Hc. apply Hincl. exact Hx.
Qed.

Lemma getitem_negative {A : Type} (l : list A) (k : Z) :
  1 <= k <= py_len l -> getitem l (- k) = getitem l (py_len l - k).
Proof.
  intros Hk. unfold getitem.
  destruct (Z.ltb_spec (- k) 0); [| lia].
  destruct (Z.ltb_spec (py_len l - k) 0); [lia |].
  replace (- k + py_len l) with (py_len l - k) by lia. reflexivity.
Qed.

Lemma getitem_out_of_range {A : Type} (l : list A) (i : Z) :
  i < - py_len l \/ py_len l <= i -> getitem l i = Raise IndexError.
Proof.
  intros Hi. unfold getitem.
  destruct (Z.ltb_spec i 0).
  - destruct (Z.leb_spec 0 (i + py_len l)); [| reflexivity].
    destruct (Z.ltb_spec (i + py_len l) (py_len l)); [| reflexivity].
    pose proof (py_len_nonneg l). lia.
  - destruct (Z.leb_spec 0 i); [| reflexivity].
    destruct (Z.ltb_spec i (py_len l)); [lia | reflexivity].
Qed.

(** X11.  The members of [subgens] are used as Python indices into the
    Coxeter matrix.  An index outside [-n, n) at the head of [subgens]
    raises [IndexError] (when there is a generator at all); a negative
    index [-k] with [1 <= k <= n] is not rejected: it counts from the end
    and gives what [n - k] gives. *)
Theorem orthogonal_mirrors_indexing (P : Polytope) (x : Z) (rest : list Z) :
  let n := py_len (coxeter_matrix P) in
  (symmetry_gens P <> [] -> x < - n \/ n <= x ->
   get_orthogonal_stabilizing_mirrors P (x :: rest) = Raise IndexError) /\
  (forall k, 1 <= k <= n ->
   get_orthogonal_stabilizing_mirrors P (- k :: rest) =
   get_orthogonal_stabilizing_mirrors P (n - k :: rest)).
Proof.
  intros n. split.
  - intros Hne Hx. unfold get_orthogonal_stabilizing_mirrors.
    destruct (symmetry_gens P) as [| s gens]; [contradiction |].
    cbn [for_each all_commute]. unfold matrix_at.
    rewrite (getitem_out_of_range (coxeter_matrix P) x Hx). reflexivity.
  - intros k Hk. unfold get_orthogonal_stabilizing_mirrors.
    apply for_each_ext. intros acc s. cbn [all_commute]. unfold matrix_at.
    rewrite (getitem_negative (coxeter_matrix P) k Hk). reflexivity.
Qed.

End BaseMore.

(* ================================================================== *)
(** * Further properties of the snub classes *)

Lemma sbind_SOk_inv {A B : Type} (c : snub_result A) (k : A -> snub_result B) (b : B) :
  sbind c k = SOk b -> exists a, c = SOk a /\ k a = SOk b.
Proof.
  destruct c as [a | e]; simpl; intros H.
  - exists a. split; [reflexivity | exact H].
  - discriminate.
Qed.

(** A loop of the snub methods in which every turn hands one item to
    [emit]. *)
Lemma sfor_each_collect {S A O : Type} (inv : S -> Prop) (emit : S -> O -> S)
    (R : A -> O -> Prop) (body : S -> A -> snub_result S) (xs : list A) :
  (forall s o, inv s -> inv (emit s o)) ->
  (forall s x, inv s -> In x xs -> exists o, R x o /\ body s x = SOk (emit s o)) ->
  forall s, inv s ->
    exists os, Forall2 R xs os /\ sfor_each xs body s = SOk (fold_left emit os s).
Proof.
  intros Hemit.
  induction xs as [| x rest IH]; intros H s Hs; simpl.
  - exists []. split; [constructor | reflexivity].
  - destruct (H s x Hs (or_introl eq_refl)) as [o [HR Hb]]. rewrite Hb. simpl.
    destruct (IH (fun s' y Hi Hy => H s' y Hi (or_intror Hy)) _ (Hemit s o Hs))
      as [os [HF Hos]].
    exists (o :: os). split; [constructor; assumption | exact Hos].
Qed.

Section SnubMore.

Context {NP : Numpy} {CE : CosetEnumerator} {HP : Helpers}.

(** [transform] returns on a word whose letters all name reflections. *)
Lemma transform_defined (P : Polytope) (w : word) (v : vec) :
  Forall (fun g => 0 <= g < py_len (reflections P)) w ->
  exists c, transform P v w = Ok c.
Proof.
  intros Hw.
  destruct (transform_fold P w) with (v := v) as [Rs [_ Ht]].
  - intros g Hg. rewrite Forall_forall in Hw.
    destruct (getitem_in_range (reflections P) g (Hw g Hg)) as [R [HR _]].
    exists R. exact HR.
  - eexists. exact Ht.
Qed.

Lemma Snub_expansion_letters (w : word) (n : Z) :
  3 <= n -> Forall (fun g => 0 <= g < n) (flat_map Snub_expansion w).
Proof.
  intros Hn. induction w as [| g rest IH]; cbn [flat_map]; [constructor |].
  apply Forall_app. split; [| exact IH].
  unfold Snub_expansion. destruct (g =? 0); repeat constructor; lia.
Qed.

Lemma Snub24Cell_expansion_letters (w : word) (n : Z) :
  4 <= n -> Forall (fun g => 0 <= g < n) (flat_map Snub24Cell_expansion w).
Proof.
  intros Hn. induction w as [| g rest IH]; cbn [flat_map]; [constructor |].
  apply Forall_app. split; [| exact IH].
  unfold Snub24Cell_expansion.
  destruct (g =? 0); [| destruct (g =? 2)]; repeat constructor; lia.
Qed.

(** Two words with 0 at the same places expand alike. *)
Lemma Snub_expansion_zero_pattern (w1 w2 : word) :
  map (fun g => g =? 0) w1 = map (fun g => g =? 0) w2 ->
  flat_map Snub_expansion w1 = flat_map Snub_expansion w2.
Proof.
  revert w2. induction w1 as [| g rest IH]; intros [| g' rest'] H; try discriminate;
    [reflexivity |].
  cbn [map] in H. injection H as Hg Hrest. cbn [flat_map].
  rewrite (IH rest' Hrest). unfold Snub_expansion. rewrite Hg. reflexivity.
Qed.

(** X12.  [Snub.get_vertices] returns whenever the object has three
    reflections, whatever words the enumerator gives (a letter is never
    used as an index).  The coordinate of the vertex of index [k] is the
    initial point moved by the base [transform] along the word of the
    vertex with each letter expanded (0 to reflections 0, 1; any other
    letter to reflections 1, 2).  So two vertices whose words have 0 at the
    same places, such as [(1,)], [(2,)] and [(3,)], are given the same
    coordinates. *)
Theorem Snub_get_vertices_coords (S : SnubPolytope) :
  3 <= py_len (reflections (snub_base S)) ->
  exists S' ws,
    Snub_get_vertices S = Ok S' /\
    ws = get_words (run (CosetTable_new (symmetry_gens (snub_base S))
                           (symmetry_rels (snub_base S)) None (Some false))) /\
    vwords (snub_base S') = Some ws /\
    num_vertices (snub_base S') = py_len ws /\
    rotations S' = rotations S /\
    Forall2 (fun w c =>
               transform (snub_base S) (init_v (snub_base S)) (flat_map Snub_expansion w)
               = Ok c)
            ws (vertices_coords (snub_base S')) /\
    (forall i j wi wj ci cj,
       getitem ws i = Ok wi -> getitem ws j = Ok wj ->
       map (fun g => g =? 0) wi = map (fun g => g =? 0) wj ->
       getitem (vertices_coords (snub_base S')) i = Ok ci ->
       getitem (vertices_coords (snub_base S')) j = Ok cj ->
       ci = cj).
Proof.
  intros Hrefl. unfold Snub_get_vertices.
  set (P := snub_base S) in *.
  set (ws := get_words (run (CosetTable_new (symmetry_gens P) (symmetry_rels P)
                               None (Some false)))).
  set (P1 := set_vertex_table P _ ws (py_len ws)).
  destruct (mapM_Forall2 (fun w => Snub_transform P1 (init_v P1) w)
              (fun w c => transform P (init_v P) (flat_map Snub_expansion w) = Ok c) ws)
    as [cs [Hcs HF]].
  { intros w _.
    destruct (transform_defined P (flat_map Snub_expansion w) (init_v P)
                (Snub_expansion_letters w _ Hrefl)) as [c Hc].
    exists c. split; [| exact Hc].
    rewrite Snub_transform_expansion, <- Hc. apply transform_same. reflexivity. }
  rewrite Hcs. cbn [bind]. eexists. exists ws.
  split; [reflexivity |]. split; [reflexivity |]. split; [reflexivity |].
  split; [reflexivity |]. split; [reflexivity |].
  cbn [snub_base vertices_coords set_vertices_coords].
  split; [exact HF |].
  intros i j wi wj ci cj Hwi Hwj Hpat Hci Hcj.
  assert (Hnth : forall k w c, getitem ws k = Ok w -> getitem cs k = Ok c ->
                   transform P (init_v P) (flat_map Snub_expansion w) = Ok c).
  { clear - HF. intros k w c Hw Hc. unfold getitem in Hw, Hc.
    assert (Hlen : py_len cs = py_len ws).
    { unfold py_len. apply Forall2_length in HF. lia. }
    rewrite Hlen in Hc.
    destruct ((0 <=? _) && (_ <? _)); [| discriminate].
    destruct (nth_error ws _) as [w' |] eqn:Hnw; [| discriminate].
    destruct (nth_error cs _) as [c' |] eqn:Hnc; [| discriminate].
    injection Hw as <-. injection Hc as <-.
    revert Hnw Hnc. generalize (Z.to_nat (if k <? 0 then k + py_len ws else k)) as n.
    clear Hlen. induction HF as [| a b xs ys Hab _ IH]; intros [| n]; simpl; try discriminate.
    - intros H1 H2. injection H1 as <-. injection H2 as <-. exact Hab.
    - apply IH. }
  pose proof (Hnth i wi ci Hwi Hci) as Hi.
  pose proof (Hnth j wj cj Hwj Hcj) as Hj.
  rewrite (Snub_expansion_zero_pattern wi wj Hpat) in Hi. congruence.
Qed.

(** X13.  [Snub24Cell.get_vertices] returns whenever the object has four
    reflections, whatever the words, and the coordinate of a vertex is the
    initial point moved by the base [transform] along its word with each
    letter expanded (0 to reflections 0, 1; 2 to 1, 2; any other letter,
    the inverses included, to 1, 3). *)
Theorem Snub24Cell_get_vertices_coords (S : SnubPolytope) :
  4 <= py_len (reflections (snub_base S)) ->
  exists S' ws,
    Snub24Cell_get_vertices S = Ok S' /\
    ws = get_words (run (CosetTable_new (symmetry_gens (snub_base S))
                           (symmetry_rels (snub_base S)) None (Some false))) /\
    vwords (snub_base S') = Some ws /\
    num_vertices (snub_base S') = py_len ws /\
    rotations S' = rotations S /\
    Forall2 (fun w c =>
               transform (snub_base S) (init_v (snub_base S))
                 (flat_map Snub24Cell_expansion w) = Ok c)
            ws (vertices_coords (snub_base S')).
Proof.
  intros Hrefl. unfold Snub24Cell_get_vertices.
  set (P := snub_base S) in *.
  set (ws := get_words (run (CosetTable_new (symmetry_gens P) (symmetry_rels P)
                               None (Some false)))).
  set (P1 := set_vertex_table P _ ws (py_len ws)).
  destruct (mapM_Forall2 (fun w => Snub24Cell_transform P1 (init_v P1) w)
              (fun w c => transform P (init_v P) (flat_map Snub24Cell_expansion w) = Ok c) ws)
    as [cs [Hcs HF]].
  { intros w _.
    destruct (transform_defined P (flat_map Snub24Cell_expansion w) (init_v P)
                (Snub24Cell_expansion_letters w _ Hrefl)) as [c Hc].
    exists c. split; [| exact Hc].
    rewrite Snub24Cell_transform_expansion, <- Hc. apply transform_same. reflexivity. }
  rewrite Hcs. cbn [bind]. eexists. exists ws.
  split; [reflexivity |]. split; [reflexivity |]. split; [reflexivity |].
  split; [reflexivity |]. split; [reflexivity |].
  exact HF.
Qed.

(** *** The edges of the snub classes *)

Lemma move_app (P : Polytope) (w1 w2 : word) (v : Z) :
  move P v (w1 ++ w2) = (v' <- move P v w1 ;; move P v' w2).
Proof.
  revert v. induction w1 as [| g rest IH]; intros v; [reflexivity |].
  cbn [app move]. destruct (vtable_at P v g); cbn [bind]; [apply IH | reflexivity].
Qed.

Lemma rotation_edges_spec (P : Polytope) (ws : list word) (rot : word) (order : Z) :
  snub_ready P ws -> Forall (is_generator P) rot ->
  exists elist,
    rotation_edges P rot order = SOk elist /\
    Forall2 (fun w (e : Z * Z) =>
               (move P 0 w = Ok (fst e) /\ move P 0 (rot ++ w) = Ok (snd e)) /\
               is_vertex P (fst e) /\ is_vertex P (snd e))
            (edge_words P ws rot order) elist.
Proof.
  intros [Hclosed [Hvw [Hws Hcos]]] Hrot. unfold rotation_edges.
  assert (Hwords : (if order =? 2 then SOk (rotation_cosets P rot) else read_vwords P)
                   = SOk (edge_words P ws rot order)).
  { unfold edge_words, read_vwords. rewrite Hvw. destruct (order =? 2); reflexivity. }
  assert (Hvalid : forall w, In w (edge_words P ws rot order) -> Forall (is_generator P) w).
  { unfold edge_words. destruct (order =? 2); intros w Hw;
      [apply (Hcos rot w Hw) | rewrite Forall_forall in Hws; apply (Hws w Hw)]. }
  rewrite Hwords. cbn [sbind].
  destruct (move_closed P rot Hclosed Hrot 0 (zero_is_vertex P Hclosed)) as [u [Hu Hur]].
  rewrite Hu. cbn [lift sbind].
  destruct (@for_each_append word (Z * Z) (Z * Z) (fun c => [c])
              (fun w (e : Z * Z) =>
                 (move P 0 w = Ok (fst e) /\ move P 0 (rot ++ w) = Ok (snd e)) /\
                 is_vertex P (fst e) /\ is_vertex P (snd e))
              (fun elist w => v1 <- move P 0 w ;; v2 <- move P u w ;; Ok (elist ++ [(v1, v2)]))
              (edge_words P ws rot order)) with (acc := @nil (Z * Z)) as [cs [Hrun HF]].
  { intros acc w Hw.
    destruct (move_closed P w Hclosed (Hvalid w Hw) 0 (zero_is_vertex P Hclosed))
      as [v1 [Hv1 Hr1]].
    destruct (move_closed P w Hclosed (Hvalid w Hw) u Hur) as [v2 [Hv2 Hr2]].
    exists (v1, v2). rewrite Hv1. cbn [bind]. rewrite Hv2. cbn [bind fst snd].
    split; [reflexivity |]. split; [| split; assumption].
    split; [reflexivity |]. rewrite move_app, Hu. exact Hv2. }
  exists cs. rewrite Hrun. cbn [app lift]. rewrite flat_map_singleton.
  split; [reflexivity | exact HF].
Qed.

Lemma rotation_edges_same (P Q : Polytope) (rot : word) (order : Z) :
  same_symmetry P Q -> vwords P = vwords Q ->
  rotation_edges P rot order = rotation_edges Q rot order.
Proof.
  intros H Hvw. unfold rotation_edges, read_vwords, rotation_cosets.
  pose proof H as [_ [_ [Hg [Hr _]]]]. rewrite Hg, Hr, Hvw, (move_same P Q H rot 0).
  destruct (if order =? 2 then _ else _) as [words |]; [| reflexivity]. cbn [sbind].
  destruct (move Q 0 rot) as [u |]; [| reflexivity]. cbn [lift sbind]. f_equal.
  apply for_each_ext. intros acc w.
  rewrite (move_same P Q H w 0), (move_same P Q H w u). reflexivity.
Qed.

Lemma dict_get_In (d : list (word * Z)) (k : word) (v : Z) :
  NoDup (map fst d) -> In (k, v) d -> dict_get d k = SOk v.
Proof.
  induction d as [| [k' v'] rest IH]; intros Hnd Hin; [contradiction |].
  cbn [map fst] in Hnd. inversion Hnd as [| ? ? Hnotin Hnd']; subst.
  cbn [dict_get]. destruct (list_eq_dec Z.eq_dec k' k) as [-> | Hne].
  - destruct Hin as [Heq | Hin]; [injection Heq as ->; reflexivity |].
    exfalso. apply Hnotin. apply in_map_iff. exists (k, v). split; [reflexivity | exact Hin].
  - destruct Hin as [Heq | Hin]; [injection Heq as -> _; contradiction |].
    apply IH; assumption.
Qed.

Lemma sfor_each_keys_items (d l : list (word * Z)) (s : SnubPolytope) :
  rotations s = d ->
  (forall k v, In (k, v) l -> dict_get d k = SOk v) ->
  sfor_each (map fst l)
    (fun self rot =>
       order <~ dict_get (rotations self) rot ;;
       elist <~ rotation_edges (snub_base self) rot order ;;
       SOk (mkSnub (add_edges (snub_base self) elist) (rotations self)))
    s =
  sfor_each l
    (fun self item =>
       let (rot, order) := item : word * Z in
       elist <~ rotation_edges (snub_base self) rot order ;;
       SOk (mkSnub (add_edges (snub_base self) elist) (rotations self)))
    s.
Proof.
  revert s. induction l as [| [k v] rest IH]; intros s Hs Hget; [reflexivity |].
  cbn [map fst sfor_each]. rewrite Hs, (Hget k v (or_introl eq_refl)). cbn [sbind].
  destruct (rotation_edges (snub_base s) k v) as [elist |]; [| reflexivity]. cbn [sbind].
  apply IH; [reflexivity |]. intros k' v' Hin. apply Hget. right. exact Hin.
Qed.

(** With distinct keys, looping over the keys and looking the order up is
    looping over the items. *)
Lemma Snub_get_edges_items (S : SnubPolytope) :
  NoDup (map fst (rotations S)) -> Snub_get_edges S = Snub24Cell_get_edges S.
Proof.
  intros Hnd. unfold Snub_get_edges, Snub24Cell_get_edges.
  apply (sfor_each_keys_items (rotations S) (rotations S) S eq_refl).
  intros k v. apply dict_get_In. exact Hnd.
Qed.

Lemma fold_snub_edges (lists : list (list (Z * Z))) (S : SnubPolytope) :
  let S' := fold_left (fun s elist => mkSnub (add_edges (snub_base s) elist) (rotations s))
                      lists S in
  edge_indices (snub_base S') = edge_indices (snub_base S) ++ lists /\
  num_edges (snub_base S') = num_edges (snub_base S) + py_len (concat lists) /\
  rotations S' = rotations S /\
  face_indices (snub_base S') = face_indices (snub_base S).
Proof.
  revert S. induction lists as [| elist rest IH]; intros S; simpl.
  - rewrite app_nil_r. unfold py_len. simpl. repeat split. lia.
  - destruct (IH (mkSnub (add_edges (snub_base S) elist) (rotations S))) as [He [Hn [Hr Hf]]].
    simpl in *. rewrite He, Hn, Hr, Hf, <- app_assoc. simpl.
    repeat split. unfold py_len. rewrite length_app. lia.
Qed.

(** X14.  On a snub object that is ready (closed vertex table, words in
    the generators) and whose rotations are words in the generators with
    distinct keys, [Snub.get_edges] and [Snub24Cell.get_edges] return the
    same object.  They append one edge list per rotation, in the order of
    the dictionary: for a rotation of order 2 one edge per coset of the
    subgroup it generates, for any other order one edge per vertex word;
    the edge of the word [w] is [(move(0, w), move(0, rot + w))], and both
    ends are vertex indices. *)
Theorem snub_get_edges_orbits (S : SnubPolytope) (ws : list word) :
  snub_ready (snub_base S) ws ->
  Forall (fun item : word * Z => Forall (is_generator (snub_base S)) (fst item))
         (rotations S) ->
  NoDup (map fst (rotations S)) ->
  exists S' lists,
    Snub_get_edges S = SOk S' /\
    Snub24Cell_get_edges S = SOk S' /\
    rotations S' = rotations S /\
    edge_indices (snub_base S') = edge_indices (snub_base S) ++ lists /\
    num_edges (snub_base S') = num_edges (snub_base S) + py_len (concat lists) /\
    Forall2 (fun (item : word * Z) elist =>
               Forall2 (fun w (e : Z * Z) =>
                          (move (snub_base S) 0 w = Ok (fst e) /\
                           move (snub_base S) 0 (fst item ++ w) = Ok (snd e)) /\
                          is_vertex (snub_base S) (fst e) /\
                          is_vertex (snub_base S) (snd e))
                       (edge_words (snub_base S) ws (fst item) (snd item)) elist)
            (rotations S) lists.
Proof.
  intros Hready Hrots Hnd.
  rewrite (Snub_get_edges_items S Hnd). unfold Snub24Cell_get_edges.
  match goal with |- context [sfor_each ?xs ?b _] => set (body := b) end.
  match goal with |- context [Forall2 ?rel (rotations S) _] => set (R := rel) end.
  destruct (@sfor_each_collect SnubPolytope (word * Z) (list (Z * Z))
              (fun s => same_symmetry (snub_base s) (snub_base S) /\
                        vwords (snub_base s) = vwords (snub_base S))
              (fun s elist => mkSnub (add_edges (snub_base s) elist) (rotations s))
              R body (rotations S)) with (s := S) as [lists [HF Hrun]].
  - intros s o Hs. exact Hs.
  - intros s [rot order] [Hsym Hvw] Hin. unfold body.
    rewrite Forall_forall in Hrots. pose proof (Hrots (rot, order) Hin) as Hrot.
    destruct (rotation_edges_spec (snub_base S) ws rot order Hready Hrot) as [elist [He HFe]].
    exists elist. rewrite (rotation_edges_same _ _ rot order Hsym Hvw), He.
    split; [exact HFe | reflexivity].
  - split; [apply same_symmetry_refl | reflexivity].
  - destruct (fold_snub_edges lists S) as [He [Hn [Hr _]]].
    eexists. exists lists. split; [exact Hrun |]. split; [exact Hrun |].
    split; [exact Hr |]. split; [exact He |]. split; [exact Hn | exact HF].
Qed.

(** *** The faces of the snub classes *)

Lemma orbit_of_spec (P : Polytope) (base : list Z) (words : list word) :
  vertex_table_closed P -> Forall (is_vertex P) base ->
  (forall w, In w words -> Forall (is_generator P) w) ->
  exists flist,
    orbit_of P base words = Ok flist /\
    Forall2 (fun w f => Forall2 (fun v v' => move P v w = Ok v') base f /\
                        Forall (is_vertex P) f)
            words flist.
Proof.
  intros Hclosed Hbase Hvalid. unfold orbit_of.
  destruct (@for_each_append word (list Z) (list Z) (fun f => [f])
              (fun w f => Forall2 (fun v v' => move P v w = Ok v') base f /\
                          Forall (is_vertex P) f)
              (fun flist w => f <- mapM (fun v => move P v w) base ;; Ok (flist ++ [f]))
              words) with (acc := @nil (list Z)) as [flist [Hrun HF]].
  { intros acc w Hw.
    destruct (mapM_Forall2 (fun v => move P v w)
                (fun v v' => move P v w = Ok v' /\ is_vertex P v') base) as [f [Hf HFf]].
    { intros v Hv. rewrite Forall_forall in Hbase.
      destruct (move_closed P w Hclosed (Hvalid w Hw) v (Hbase v Hv)) as [v' [Hv' Hr]].
      exists v'. split; [exact Hv' | split; [exact Hv' | exact Hr]]. }
    exists f. rewrite Hf. split; [reflexivity |]. split.
    - eapply Forall2_impl; [| exact HFf]. intros v v' [Hm _]. exact Hm.
    - apply (Forall2_Forall_r _ _ _ _ HFf). intros v v' _ [_ Hr]. exact Hr. }
  exists flist. split; [| exact HF].
  etransitivity; [exact Hrun |]. cbn [app]. rewrite flat_map_singleton. reflexivity.
Qed.

Lemma orbit_of_same (P Q : Polytope) (base : list Z) (words : list word) :
  same_symmetry P Q -> orbit_of P base words = orbit_of Q base words.
Proof.
  intros H. unfold orbit_of. apply for_each_ext. intros flist w.
  rewrite (mapM_ext (fun v => move P v w) (fun v => move Q v w));
    [reflexivity | intros v; apply move_same; exact H].
Qed.

Lemma rotation_faces_spec (P : Polytope) (ws : list word) (rot : word) (order : Z) :
  snub_ready P ws -> Forall (is_generator P) rot ->
  exists f0 flist,
    rotation_faces P rot order = Ok flist /\
    Forall2 (fun k a => move P 0 (tuple_mul rot k) = Ok a) (range order) f0 /\
    Forall2 (fun w f => Forall2 (fun v v' => move P v w = Ok v') f0 f /\
                        Forall (is_vertex P) f)
            (rotation_cosets P rot) flist.
Proof.
  intros [Hclosed [_ [_ Hcos]]] Hrot. unfold rotation_faces.
  destruct (mapM_Forall2 (fun k => move P 0 (tuple_mul rot k))
              (fun k a => move P 0 (tuple_mul rot k) = Ok a /\ is_vertex P a)
              (range order)) as [f0 [Hf0 HF0]].
  { intros k _.
    assert (Hw : Forall (is_generator P) (tuple_mul rot k)).
    { apply Forall_forall. intros g Hg. apply In_tuple_mul in Hg.
      rewrite Forall_forall in Hrot. apply Hrot. exact Hg. }
    destruct (move_closed P _ Hclosed Hw 0 (zero_is_vertex P Hclosed)) as [a [Ha Hr]].
    exists a. split; [exact Ha | split; [exact Ha | exact Hr]]. }
  rewrite Hf0. cbn [bind].
  destruct (orbit_of_spec P f0 (rotation_cosets P rot) Hclosed) as [flist [Hfl HFl]].
  { apply (Forall2_Forall_r _ _ _ _ HF0). intros k a _ [_ Hr]. exact Hr. }
  { intros w Hw. apply (Hcos rot w Hw). }
  exists f0, flist. split; [exact Hfl |]. split; [| exact HFl].
  eapply Forall2_impl; [| exact HF0]. intros k a [Hm _]. exact Hm.
Qed.

Lemma rotation_faces_same (P Q : Polytope) (rot : word) (order : Z) :
  same_symmetry P Q -> rotation_faces P rot order = rotation_faces Q rot order.
Proof.
  intros H. unfold rotation_faces, rotation_cosets.
  pose proof H as [_ [_ [Hg [Hr _]]]]. rewrite Hg, Hr.
  rewrite (mapM_ext (fun k => move P 0 (tuple_mul rot k))
                    (fun k => move Q 0 (tuple_mul rot k)));
    [| intros k; apply move_same; exact H].
  destruct (mapM _ (range order)) as [f0 |]; [| reflexivity]. cbn [bind].
  apply orbit_of_same. exact H.
Qed.

(** The faces of the triangle [(0, move(0, u1), move(0, u2))]. *)
Lemma triangle_faces_spec (P : Polytope) (ws : list word) (u1 u2 : word) (a b : Z) :
  snub_ready P ws ->
  Forall (is_generator P) u1 -> Forall (is_generator P) u2 ->
  move P 0 u1 = Ok a -> move P 0 u2 = Ok b ->
  exists flist,
    triangle_faces P [0; a; b] = SOk flist /\
    Forall2 (fun w f =>
               exists x y z, f = [x; y; z] /\
                 move P 0 w = Ok x /\ move P 0 (u1 ++ w) = Ok y /\
                 move P 0 (u2 ++ w) = Ok z /\
                 is_vertex P x /\ is_vertex P y /\ is_vertex P z)
            ws flist.
Proof.
  intros [Hclosed [Hvw [Hws _]]] Hu1 Hu2 Ha Hb. unfold triangle_faces, read_vwords.
  rewrite Hvw. cbn [sbind].
  pose proof (zero_is_vertex P Hclosed) as H0.
  pose proof (move_in_range P u1 0 a Hclosed Hu1 H0 Ha) as Hra.
  pose proof (move_in_range P u2 0 b Hclosed Hu2 H0 Hb) as Hrb.
  destruct (orbit_of_spec P [0; a; b] ws Hclosed) as [flist [Hfl HFl]].
  { constructor; [exact H0 |]. constructor; [exact Hra |].
    constructor; [exact Hrb | constructor]. }
  { intros w Hw. rewrite Forall_forall in Hws. apply (Hws w Hw). }
  exists flist. rewrite Hfl. split; [reflexivity |].
  clear Hfl. eapply Forall2_impl; [| exact HFl]. intros w f [Hmoves Hverts].
  inversion Hmoves as [| ? x ? f1 Hx H1]; subst.
  inversion H1 as [| ? y ? f2 Hy H2]; subst.
  inversion H2 as [| ? z ? f3 Hz H3]; subst.
  inversion H3; subst.
  inversion Hverts as [| ? ? Hvx Hv1]; subst.
  inversion Hv1 as [| ? ? Hvy Hv2]; subst.
  inversion Hv2 as [| ? ? Hvz _]; subst.
  exists x, y, z. split; [reflexivity |]. split; [exact Hx |].
  split; [rewrite move_app, Ha; exact Hy |].
  split; [rewrite move_app, Hb; exact Hz |].
  split; [exact Hvx |]. split; [exact Hvy | exact Hvz].
Qed.

Lemma triangle_faces_same (P Q : Polytope) (triangle : list Z) :
  same_symmetry P Q -> vwords P = vwords Q ->
  triangle_faces P triangle = triangle_faces Q triangle.
Proof.
  intros H Hvw. unfold triangle_faces, read_vwords. rewrite Hvw.
  destruct (vwords Q) as [ws |]; [| reflexivity]. cbn [sbind].
  rewrite (orbit_of_same P Q triangle ws H). reflexivity.
Qed.

Lemma fold_snub_faces (os : list (option (list (list Z)))) (S : SnubPolytope) :
  let S' := fold_left emit_faces os S in
  face_indices (snub_base S') = face_indices (snub_base S) ++ somes os /\
  num_faces (snub_base S') = num_faces (snub_base S) + py_len (concat (somes os)) /\
  rotations S' = rotations S /\
  same_symmetry (snub_base S') (snub_base S) /\
  vwords (snub_base S') = vwords (snub_base S) /\
  num_vertices (snub_base S') = num_vertices (snub_base S).
Proof.
  revert S. induction os as [| o rest IH]; intros S; simpl.
  - rewrite app_nil_r. unfold py_len. simpl. repeat split. lia.
  - destruct (IH (emit_faces S o)) as [He [Hn [Hr [Hs [Hv Hnv]]]]].
    destruct o as [flist |]; simpl in *.
    + split; [rewrite He, <- app_assoc; reflexivity |].
      split; [rewrite Hn; unfold py_len; rewrite length_app; lia |].
      split; [exact Hr |]. split; [exact Hs |]. split; [exact Hv | exact Hnv].
    + split; [exact He |]. split; [exact Hn |].
      split; [exact Hr |]. split; [exact Hs |]. split; [exact Hv | exact Hnv].
Qed.

(** X15.  On a ready snub object whose rotations are words in the
    generators (0 and 2 being generators), [Snub.get_faces] returns.  It
    goes through the rotations in order: a rotation of order greater than 2
    contributes one face per coset of the subgroup it generates, each
    with as many vertices as the order ([move(0, rot * k)] for the base
    face); a rotation of order at most 2 contributes nothing.  Last comes
    the list of the triangles, one per vertex word [w]:
    [(move(0, w), move(0, (2,) + w), move(0, (0, 2) + w))].  Every index
    stored is a vertex index. *)
Theorem Snub_get_faces_orbits (S : SnubPolytope) (ws : list word) :
  snub_ready (snub_base S) ws ->
  Forall (fun item : word * Z => Forall (is_generator (snub_base S)) (fst item))
         (rotations S) ->
  is_generator (snub_base S) 0 -> is_generator (snub_base S) 2 ->
  exists S' os triangles,
    Snub_get_faces S = SOk S' /\
    face_indices (snub_base S') = face_indices (snub_base S) ++ somes os ++ [triangles] /\
    num_faces (snub_base S') =
      num_faces (snub_base S) + py_len (concat (somes os)) + py_len ws /\
    Forall2 (fun (item : word * Z) o =>
               match o with
               | None => snd item <= 2
               | Some flist =>
                   snd item > 2 /\
                   py_len flist = py_len (rotation_cosets (snub_base S) (fst item)) /\
                   Forall (fun f => py_len f = snd item /\
                                    Forall (is_vertex (snub_base S)) f) flist
               end)
            (rotations S) os /\
    Forall2 (fun w f =>
               exists x y z, f = [x; y; z] /\
                 move (snub_base S) 0 w = Ok x /\
                 move (snub_base S) 0 ([2] ++ w) = Ok y /\
                 move (snub_base S) 0 ([0; 2] ++ w) = Ok z /\
                 is_vertex (snub_base S) x /\ is_vertex (snub_base S) y /\
                 is_vertex (snub_base S) z)
            ws triangles.
Proof.
  intros Hready Hrots Hg0 Hg2. unfold Snub_get_faces.
  set (P := snub_base S) in *.
  match goal with |- context [sfor_each ?xs ?b _] => set (body := b) end.
  match goal with |- context [Forall2 ?rel (rotations S) _] => set (R := rel) end.
  destruct (@sfor_each_collect SnubPolytope (word * Z) (option (list (list Z)))
              (fun s => same_symmetry (snub_base s) P)
              emit_faces R body (rotations S)) with (s := S) as [os [HF Hrun]].
  - intros s [flist |] Hs; exact Hs.
  - intros s [rot order] Hsym Hin. unfold body.
    rewrite Forall_forall in Hrots. pose proof (Hrots (rot, order) Hin) as Hrot.
    destruct (Z.gtb_spec order 2) as [Hgt | Hle].
    + destruct (rotation_faces_spec P ws rot order Hready Hrot)
        as [f0 [flist [Hfl [HF0 HFl]]]].
      exists (Some flist). rewrite (rotation_faces_same _ P rot order Hsym), Hfl.
      split; [| reflexivity]. unfold R. cbn [fst snd].
      split; [lia |]. split.
      * apply Forall2_length in HFl. unfold py_len. lia.
      * apply (Forall2_Forall_r _ _ _ _ HFl). intros w f _ [Hmoves Hverts].
        split; [| exact Hverts].
        apply Forall2_length in Hmoves. apply Forall2_length in HF0.
        pose proof (length_range order) as Hl. unfold py_len in *. lia.
    + exists None. split; [| reflexivity]. exact Hle.
  - apply same_symmetry_refl.
  - rewrite Hrun. cbn [sbind].
    destruct (fold_snub_faces os S) as [He [Hn [Hr [Hsym [Hvw Hnv]]]]].
    set (S1 := fold_left emit_faces os S) in *.
    pose proof Hready as [Hclosed _].
    pose proof (zero_is_vertex P Hclosed) as H0.
    assert (Hu1 : Forall (is_generator P) [2]).
    { constructor; [exact Hg2 | constructor]. }
    assert (Hu2 : Forall (is_generator P) [0; 2]).
    { constructor; [exact Hg0 |]. constructor; [exact Hg2 | constructor]. }
    destruct (move_closed P [2] Hclosed Hu1 0 H0) as [a [Ha _]].
    destruct (move_closed P [0; 2] Hclosed Hu2 0 H0) as [b [Hb _]].
    rewrite (move_same _ P Hsym [2] 0), Ha. cbn [lift sbind].
    rewrite (move_same _ P Hsym [0; 2] 0), Hb. cbn [lift sbind].
    destruct (triangle_faces_spec P ws [2] [0; 2] a b Hready Hu1 Hu2 Ha Hb)
      as [tri [Htri HFt]].
    rewrite (triangle_faces_same _ P [0; a; b] Hsym Hvw), Htri. cbn [sbind].
    eexists. exists os, tri. split; [reflexivity |].
    cbn [snub_base face_indices num_faces add_faces].
    split; [rewrite He, <- app_assoc; reflexivity |].
    split; [| split; [exact HF | exact HFt]].
    rewrite Hn. apply Forall2_length in HFt. unfold py_len in *.
    change (num_faces (snub_base S)) with (num_faces P). lia.
Qed.

Lemma faces_added_emit (P : Polytope) (d : list (word * Z)) (s : SnubPolytope)
    (o : option (list (list Z))) :
  faces_added P d s -> faces_added P d (emit_faces s o).
Proof. intros H. destruct o; exact H. Qed.

(** One turn of the first loop of [Snub24Cell.get_faces]. *)
Lemma rotation_turn (P : Polytope) (ws : list word) (d : list (word * Z))
    (s : SnubPolytope) (rot : word) (order : Z) :
  snub_ready P ws -> faces_added P d s ->
  Forall (is_generator P) rot -> dict_get d rot = SOk order ->
  exists flist,
    (order' <~ dict_get (rotations s) rot ;;
     flist <~ lift (rotation_faces (snub_base s) rot order') ;;
     SOk (mkSnub (add_faces (snub_base s) flist) (rotations s)))
    = SOk (emit_faces s (Some flist)) /\
    py_len flist = py_len (rotation_cosets P rot) /\
    Forall (fun f => py_len f = Z.max 0 order /\ Forall (is_vertex P) f) flist.
Proof.
  intros Hready [Hsym [Hvw Hd]] Hrot Hget. subst d.
  destruct (rotation_faces_spec P ws rot order Hready Hrot) as [f0 [flist [Hfl [HF0 HFl]]]].
  exists flist. rewrite Hget. cbn [sbind].
  rewrite (rotation_faces_same _ P rot order Hsym), Hfl.
  split; [reflexivity |]. split.
  - apply Forall2_length in HFl. unfold py_len. lia.
  - apply (Forall2_Forall_r _ _ _ _ HFl). intros w f _ [Hmoves Hverts].
    split; [| exact Hverts].
    apply Forall2_length in Hmoves. apply Forall2_length in HF0.
    pose proof (length_range order) as Hl. unfold py_len in *. lia.
Qed.

(** One turn of the loop over the triangles. *)
Lemma triangle_turn (P : Polytope) (ws : list word) (d : list (word * Z))
    (s : SnubPolytope) (u1 u2 : word) (a b : Z) :
  snub_ready P ws -> faces_added P d s ->
  Forall (is_generator P) u1 -> Forall (is_generator P) u2 ->
  move P 0 u1 = Ok a -> move P 0 u2 = Ok b ->
  exists tri,
    (flist <~ triangle_faces (snub_base s) [0; a; b] ;;
     SOk (mkSnub (add_faces (snub_base s) flist) (rotations s)))
    = SOk (emit_faces s (Some tri)) /\
    Forall2 (fun w f =>
               exists x y z, f = [x; y; z] /\
                 move P 0 w = Ok x /\ move P 0 (u1 ++ w) = Ok y /\
                 move P 0 (u2 ++ w) = Ok z /\
                 is_vertex P x /\ is_vertex P y /\ is_vertex P z)
            ws tri.
Proof.
  intros Hready [Hsym [Hvw _]] Hu1 Hu2 Ha Hb.
  destruct (triangle_faces_spec P ws u1 u2 a b Hready Hu1 Hu2 Ha Hb) as [tri [Htri HF]].
  exists tri. rewrite (triangle_faces_same _ P [0; a; b] Hsym Hvw), Htri.
  split; [reflexivity | exact HF].
Qed.

Lemma triangles_are_triangles (P : Polytope) (ws : list word) (u1 u2 : word)
    (tri : list (list Z)) :
  Forall2 (fun w f =>
             exists x y z, f = [x; y; z] /\
               move P 0 w = Ok x /\ move P 0 (u1 ++ w) = Ok y /\
               move P 0 (u2 ++ w) = Ok z /\
               is_vertex P x /\ is_vertex P y /\ is_vertex P z)
          ws tri ->
  py_len tri = py_len ws /\ Forall (is_triangle P) tri.
Proof.
  intros HF. split.
  - apply Forall2_length in HF. unfold py_len. lia.
  - apply (Forall2_Forall_r _ _ _ _ HF).
    intros w f _ [x [y [z [-> [_ [_ [_ [Hx [Hy Hz]]]]]]]]].
    split; [reflexivity |].
    constructor; [exact Hx |]. constructor; [exact Hy |]. constructor; [exact Hz | constructor].
Qed.

(** X16.  On a ready object with the rotations of the snub 24-cell (0, 2,
    4 and 5 being generators), [Snub24Cell.get_faces] returns and appends
    exactly seven face lists: one for each of [r], [s], [t], with one face
    per coset of the subgroup the rotation generates, then four lists of
    one face per vertex word.  Every face is a triangle of vertex indices;
    the triangle of the word [w] in the last four lists is
    [(move(0, w), move(0, u1 + w), move(0, u2 + w))] for [(u1, u2)] among
    [((2,), (0,2))], [((4,), (0,4))], [((2,), (5,2))], [((0,2), (5,2))]. *)
Theorem Snub24Cell_get_faces_orbits (S : SnubPolytope) (ws : list word) :
  snub_ready (snub_base S) ws ->
  rotations S = Snub24Cell_rotations ->
  Forall (is_generator (snub_base S)) [0; 2; 4; 5] ->
  exists S' fr fs ft t1 t2 t3 t4,
    Snub24Cell_get_faces S = SOk S' /\
    face_indices (snub_base S') =
      face_indices (snub_base S) ++ [fr; fs; ft; t1; t2; t3; t4] /\
    (py_len fr = py_len (rotation_cosets (snub_base S) [0]) /\
     py_len fs = py_len (rotation_cosets (snub_base S) [2]) /\
     py_len ft = py_len (rotation_cosets (snub_base S) [4])) /\
    Forall (fun tri => py_len tri = py_len ws) [t1; t2; t3; t4] /\
    Forall (Forall (is_triangle (snub_base S))) [fr; fs; ft; t1; t2; t3; t4] /\
    Forall2 (fun (uv : word * word) tri =>
               Forall2 (fun w f =>
                          exists x y z, f = [x; y; z] /\
                            move (snub_base S) 0 w = Ok x /\
                            move (snub_base S) 0 (fst uv ++ w) = Ok y /\
                            move (snub_base S) 0 (snd uv ++ w) = Ok z /\
                            is_vertex (snub_base S) x /\ is_vertex (snub_base S) y /\
                            is_vertex (snub_base S) z)
                       ws tri)
            [([2], [0; 2]); ([4], [0; 4]); ([2], [5; 2]); ([0; 2], [5; 2])]
            [t1; t2; t3; t4].
Proof.
  intros Hready Hrots Hgens.
  set (P := snub_base S) in *.
  inversion Hgens as [| ? ? Hg0 Hgens1]; subst.
  inversion Hgens1 as [| ? ? Hg2 Hgens2]; subst.
  inversion Hgens2 as [| ? ? Hg4 Hgens3]; subst.
  inversion Hgens3 as [| ? ? Hg5 _]; subst.
  assert (W0 : Forall (is_generator P) [0]) by (constructor; [exact Hg0 | constructor]).
  assert (W2 : Forall (is_generator P) [2]) by (constructor; [exact Hg2 | constructor]).
  assert (W4 : Forall (is_generator P) [4]) by (constructor; [exact Hg4 | constructor]).
  assert (W02 : Forall (is_generator P) [0; 2]) by (constructor; [exact Hg0 | exact W2]).
  assert (W04 : Forall (is_generator P) [0; 4]) by (constructor; [exact Hg0 | exact W4]).
  assert (W52 : Forall (is_generator P) [5; 2]) by (constructor; [exact Hg5 | exact W2]).
  pose proof Hready as [Hclosed _].
  pose proof (zero_is_vertex P Hclosed) as H0.
  assert (Hinv0 : faces_added P Snub24Cell_rotations S).
  { split; [apply same_symmetry_refl |]. split; [reflexivity | exact Hrots]. }
  unfold Snub24Cell_get_faces. cbn [sfor_each].
  destruct (rotation_turn P ws _ S [0] 3 Hready Hinv0 W0 eq_refl) as [fr [Er [Lr Fr]]].
  rewrite Er. cbn [sbind].
  pose proof (faces_added_emit P _ S (Some fr) Hinv0) as Hinv1.
  destruct (rotation_turn P ws _ _ [2] 3 Hready Hinv1 W2 eq_refl) as [fs [Es [Ls Fs]]].
  rewrite Es. cbn [sbind].
  pose proof (faces_added_emit P _ _ (Some fs) Hinv1) as Hinv2.
  destruct (rotation_turn P ws _ _ [4] 3 Hready Hinv2 W4 eq_refl) as [ft [Et [Lt Ft]]].
  rewrite Et. cbn [sbind].
  pose proof (faces_added_emit P _ _ (Some ft) Hinv2) as Hinv3.
  set (S3 := emit_faces (emit_faces (emit_faces S (Some fr)) (Some fs)) (Some ft)) in *.
  pose proof Hinv3 as [Hsym3 _].
  destruct (move_closed P [2] Hclosed W2 0 H0) as [a2 [Ha2 _]].
  destruct (move_closed P [0; 2] Hclosed W02 0 H0) as [a02 [Ha02 _]].
  destruct (move_closed P [4] Hclosed W4 0 H0) as [a4 [Ha4 _]].
  destruct (move_closed P [0; 4] Hclosed W04 0 H0) as [a04 [Ha04 _]].
  destruct (move_closed P [5; 2] Hclosed W52 0 H0) as [a52 [Ha52 _]].
  cbn [mapM fst snd].
  rewrite !(move_same (snub_base S3) P Hsym3), Ha2, Ha02, Ha4, Ha04, Ha52.
  cbn [bind lift sbind sfor_each].
  destruct (triangle_turn P ws _ S3 [2] [0; 2] a2 a02 Hready Hinv3 W2 W02 Ha2 Ha02)
    as [t1 [E1 F1]].
  rewrite E1. cbn [sbind].
  pose proof (faces_added_emit P _ S3 (Some t1) Hinv3) as Hinv4.
  destruct (triangle_turn P ws _ _ [4] [0; 4] a4 a04 Hready Hinv4 W4 W04 Ha4 Ha04)
    as [t2 [E2 F2]].
  rewrite E2. cbn [sbind].
  pose proof (faces_added_emit P _ _ (Some t2) Hinv4) as Hinv5.
  destruct (triangle_turn P ws _ _ [2] [5; 2] a2 a52 Hready Hinv5 W2 W52 Ha2 Ha52)
    as [t3 [E3 F3]].
  rewrite E3. cbn [sbind].
  pose proof (faces_added_emit P _ _ (Some t3) Hinv5) as Hinv6.
  destruct (triangle_turn P ws _ _ [0; 2] [5; 2] a02 a52 Hready Hinv6 W02 W52 Ha02 Ha52)
    as [t4 [E4 F4]].
  rewrite E4.
  destruct (triangles_are_triangles P ws _ _ t1 F1) as [L1 T1].
  destruct (triangles_are_triangles P ws _ _ t2 F2) as [L2 T2].
  destruct (triangles_are_triangles P ws _ _ t3 F3) as [L3 T3].
  destruct (triangles_are_triangles P ws _ _ t4 F4) as [L4 T4].
  assert (Hfaces : forall fl, Forall (fun f => py_len f = Z.max 0 3 /\ Forall (is_vertex P) f) fl ->
                              Forall (is_triangle P) fl).
  { intros fl Hfl. eapply Forall_impl; [| exact Hfl]. intros f Hf. exact Hf. }
  eexists. exists fr, fs, ft, t1, t2, t3, t4.
  split; [reflexivity |].
  split.
  { unfold S3. cbn. rewrite <- !app_assoc. reflexivity. }
  split; [split; [exact Lr | split; [exact Ls | exact Lt]] |].
  split; [repeat (constructor; [assumption |]); constructor |].
  split.
  { constructor; [apply Hfaces; exact Fr |]. constructor; [apply Hfaces; exact Fs |].
    constructor; [apply Hfaces; exact Ft |].
    repeat (constructor; [assumption |]). constructor. }
  constructor; [exact F1 |]. constructor; [exact F2 |].
  constructor; [exact F3 |]. constructor; [exact F4 | constructor].
Qed.

(** *** Before [get_vertices] *)

Lemma move_without_table (P : Polytope) (w : word) (v : Z) :
  vtable P = None ->
  move P v w = match w with [] => Ok v | _ :: _ => Raise TypeError end.
Proof.
  intros H. destruct w as [| g rest]; [reflexivity |].
  cbn [move]. unfold vtable_at. rewrite H. reflexivity.
Qed.

Lemma move_raises_TypeError (P : Polytope) (w : word) (v : Z) (e : exn) :
  vtable P = None -> move P v w = Raise e -> e = TypeError.
Proof.
  intros H. rewrite (move_without_table P w v H).
  destruct w; [discriminate |]. intros He. injection He as <-. reflexivity.
Qed.

Lemma orbit_of_raises_TypeError (P : Polytope) (base : list Z) (words : list word)
    (e : exn) :
  vtable P = None -> orbit_of P base words = Raise e -> e = TypeError.
Proof.
  intros H Hr. unfold orbit_of in Hr.
  apply for_each_raises in Hr. destruct Hr as [acc [w [_ Hr]]].
  apply bind_Raise_inv in Hr. destruct Hr as [Hr | [f [_ Hr]]]; [| discriminate].
  apply mapM_raises in Hr. destruct Hr as [v [_ Hr]].
  apply (move_raises_TypeError P w v e H Hr).
Qed.

Lemma rotation_faces_raises_TypeError (P : Polytope) (rot : word) (order : Z) (e : exn) :
  vtable P = None -> rotation_faces P rot order = Raise e -> e = TypeError.
Proof.
  intros H Hr. unfold rotation_faces in Hr.
  apply bind_Raise_inv in Hr. destruct Hr as [Hr | [f0 [_ Hr]]].
  - apply mapM_raises in Hr. destruct Hr as [k [_ Hr]].
    apply (move_raises_TypeError P _ 0 e H Hr).
  - apply (orbit_of_raises_TypeError P f0 _ e H Hr).
Qed.

Lemma range_two (n : Z) : 2 <= n -> exists rest, range n = 0 :: 1 :: rest.
Proof.
  intros Hn. unfold range.
  destruct (Z.to_nat n) as [| [| k]] eqn:Hk; [lia | lia |].
  eexists. reflexivity.
Qed.

Lemma rotation_faces_without_table (P : Polytope) (rot : word) (order : Z) :
  vtable P = None -> rot <> [] -> 2 <= order ->
  rotation_faces P rot order = Raise TypeError.
Proof.
  intros H Hrot Horder. unfold rotation_faces.
  destruct (range_two order Horder) as [rest ->].
  cbn [mapM]. rewrite (move_without_table P (tuple_mul rot 0) 0 H).
  change (tuple_mul rot 0) with (@nil Z). cbn [bind].
  rewrite (move_without_table P (tuple_mul rot 1) 0 H).
  destruct rot as [| g rot']; [contradiction |]. reflexivity.
Qed.

(** The first loop of [Snub.get_faces] on an object without a vertex
    table: it raises [TypeError] or leaves the object without a table. *)
Lemma snub_face_loop_without_table (items : list (word * Z)) (S : SnubPolytope) :
  vtable (snub_base S) = None ->
  let r := sfor_each items
             (fun self item =>
                let (rot, order) := item : word * Z in
                if order >? 2 then
                  flist <~ lift (rotation_faces (snub_base self) rot order) ;;
                  SOk (mkSnub (add_faces (snub_base self) flist) (rotations self))
                else SOk self)
             S in
  r = SRaise (Inherited TypeError) \/
  exists S1, r = SOk S1 /\ vtable (snub_base S1) = None.
Proof.
  revert S. induction items as [| [rot order] rest IH]; intros S H; cbn zeta.
  - right. exists S. split; [reflexivity | exact H].
  - cbn [sfor_each]. destruct (order >? 2).
    + destruct (rotation_faces (snub_base S) rot order) as [flist | e] eqn:Hrf.
      * cbn [lift sbind]. apply IH. exact H.
      * left. apply (rotation_faces_raises_TypeError _ _ _ _ H) in Hrf. subst e. reflexivity.
    + cbn [sbind]. apply IH. exact H.
Qed.

(** X17.  The snub methods need [get_vertices] first.  On an object
    that has no vertex table and no [vwords] yet, and whose first rotation
    is a non-empty word: [get_edges] (of either class) raises [TypeError]
    when that rotation has order 2 and [AttributeError] (reading
    [self.vwords]) otherwise; [Snub.get_faces] raises [TypeError] whatever
    the rotations are; [Snub24Cell.get_faces] raises [TypeError] when the
    first rotation is [(0,)] with an order of at least 2. *)
Theorem snub_methods_before_get_vertices (S : SnubPolytope) (rot : word)
    (order : Z) (rest : list (word * Z)) :
  vtable (snub_base S) = None -> vwords (snub_base S) = None ->
  rotations S = (rot, order) :: rest -> rot <> [] ->
  Snub_get_edges S =
    SRaise (if order =? 2 then Inherited TypeError else AttributeError) /\
  Snub24Cell_get_edges S =
    SRaise (if order =? 2 then Inherited TypeError else AttributeError) /\
  Snub_get_faces S = SRaise (Inherited TypeError) /\
  (rot = [0] -> 2 <= order -> Snub24Cell_get_faces S = SRaise (Inherited TypeError)).
Proof.
  intros Hvt Hvw Hrots Hrot.
  assert (Hedges : rotation_edges (snub_base S) rot order =
                   SRaise (if order =? 2 then Inherited TypeError else AttributeError)).
  { unfold rotation_edges, read_vwords. rewrite Hvw.
    destruct (order =? 2); [| reflexivity]. cbn [sbind].
    rewrite (move_without_table _ rot 0 Hvt).
    destruct rot; [contradiction | reflexivity]. }
  split; [| split; [| split]].
  - unfold Snub_get_edges. rewrite Hrots. cbn [map fst sfor_each]. rewrite Hrots.
    cbn [dict_get]. destruct (list_eq_dec Z.eq_dec rot rot); [| contradiction].
    cbn [sbind]. rewrite Hedges. reflexivity.
  - unfold Snub24Cell_get_edges. rewrite Hrots. cbn [sfor_each]. rewrite Hedges. reflexivity.
  - unfold Snub_get_faces.
    destruct (snub_face_loop_without_table (rotations S) S Hvt) as [Hr | [S1 [Hr H1]]];
      cbn zeta in Hr; rewrite Hr; [reflexivity |].
    cbn [sbind]. rewrite (move_without_table _ [2] 0 H1). reflexivity.
  - intros -> Horder. unfold Snub24Cell_get_faces. cbn [sfor_each]. rewrite Hrots.
    cbn [dict_get]. destruct (list_eq_dec Z.eq_dec [0] [0]); [| contradiction].
    cbn [sbind]. rewrite (rotation_faces_without_table _ [0] order Hvt Hrot Horder).
    reflexivity.
Qed.

End SnubMore.

(* ================================================================== *)
(** * Further properties of the projection *)

Lemma mapM_Ok_Forall2 {A B : Type} (f : A -> result B) (xs : list A) (ys : list B) :
  mapM f xs = Ok ys -> Forall2 (fun x y => f x = Ok y) xs ys.
Proof.
  revert ys. induction xs as [| x rest IH]; intros ys H; simpl in H.
  - injection H as <-. constructor.
  - apply bind_Ok_inv in H. destruct H as [y [Hy H]].
    apply bind_Ok_inv in H. destruct H as [ys' [Hrest H]].
    injection H as <-. constructor; [exact Hy | apply IH; exact Hrest].
Qed.

Section ProjectionMore.

Context {CE : CosetEnumerator}.

(** X18.  [proj4d] returns exactly when no stored coordinate is an empty
    array, and an empty one makes it raise [IndexError] (from [v[-1]]).
    When it returns, only [vertices_coords] has changed: there are as many
    coordinates as before, each cut to its first four entries (a shorter
    one keeps its length), and the counts, the edges and the faces are
    untouched. *)
Theorem proj4d_shape (P : Polytope) (pole : float) :
  (Forall (fun v : vec => v <> []) (vertices_coords P) ->
   exists P',
     proj4d P pole = Ok P' /\
     Forall2 (fun v v' : vec => py_len v' = Z.min 4 (py_len v))
             (vertices_coords P) (vertices_coords P') /\
     same_symmetry P' P /\
     (num_vertices P' = num_vertices P /\ num_edges P' = num_edges P /\
      num_faces P' = num_faces P) /\
     edge_indices P' = edge_indices P /\ face_indices P' = face_indices P) /\
  (In [] (vertices_coords P) -> proj4d P pole = Raise IndexError).
Proof.
  split.
  - intros Hne. unfold proj4d.
    match goal with |- context [mapM ?g _] => set (f := g) end.
    destruct (mapM_Forall2 f (fun v v' : vec => py_len v' = Z.min 4 (py_len v))
                (vertices_coords P)) as [cs [Hcs HF]].
    { intros v Hv. rewrite Forall_forall in Hne. specialize (Hne v Hv).
      assert (Hlen : 1 <= 1 <= py_len v).
      { unfold py_len. destruct v; [contradiction | simpl; lia]. }
      assert (Hr : 0 <= py_len v - 1 < py_len v) by lia.
      destruct (getitem_in_range v (py_len v - 1) Hr) as [x [Hx _]].
      pose proof (getitem_negative v 1 Hlen) as Hneg. change (- (1)) with (-1) in Hneg.
      eexists. unfold f. rewrite Hneg, Hx. cbn [bind].
      split; [reflexivity |].
      unfold py_len, slice_to. rewrite length_map, length_firstn. lia. }
    rewrite Hcs. cbn [bind]. eexists. split; [reflexivity |].
    cbn. split; [exact HF |]. repeat split.
  - intros Hin. unfold proj4d.
    match goal with |- context [mapM ?g _] => set (f := g) end.
    destruct (mapM f (vertices_coords P)) as [cs | e] eqn:Hm.
    + apply mapM_Ok_Forall2 in Hm. exfalso.
      clear - Hm Hin. induction Hm as [| v c vs cs' Hv _ IH]; [contradiction |].
      destruct Hin as [-> | Hin]; [discriminate | apply IH; exact Hin].
    + cbn [bind]. apply mapM_raises in Hm. destruct Hm as [v [_ Hv]].
      unfold f in Hv. apply bind_Raise_inv in Hv.
      destruct Hv as [Hv | [x [_ Hv]]]; [| discriminate].
      apply getitem_raises in Hv. subst e. reflexivity.
Qed.

End ProjectionMore.

(* ================================================================== *)
(** * The further properties on concrete polytopes *)

Section Checks.

Context {CE : CosetEnumerator}.

Lemma closed_check_sound (P : Polytope) :
  closed_check P = true -> vertex_table_closed P.
Proof.
  unfold closed_check, vertex_table_closed. destruct (vtable P) as [T |]; [| discriminate].
  intros H. apply andb_true_iff in H. destruct H as [Hpos Hall].
  exists T. split; [reflexivity |]. split; [apply Z.ltb_lt; exact Hpos |].
  intros v g Hv Hg. rewrite forallb_forall in Hall.
  specialize (Hall v (proj2 (In_range _ _) Hv)). rewrite forallb_forall in Hall.
  specialize (Hall g Hg). destruct (table_getitem T v g) as [v' |]; [| discriminate].
  exists v'. split; [reflexivity |]. apply andb_true_iff in Hall. lia.
Qed.

Lemma words_check_sound (gens : list Z) (ws : list word) :
  words_check gens ws = true -> Forall (Forall (fun g => In g gens)) ws.
Proof.
  unfold words_check. intros H. rewrite forallb_forall in H.
  apply Forall_forall. intros w Hw. specialize (H w Hw). rewrite forallb_forall in H.
  apply Forall_forall. intros g Hg. specialize (H g Hg).
  apply existsb_exists in H. destruct H as [g' [Hin Heq]].
  apply Z.eqb_eq in Heq. subst g'. exact Hin.
Qed.

End Checks.

(** The stand-in enumerator answers with one of its tables. *)
Lemma Standin_lookup (known : list (list word * Standin.Table)) (sub : list word) :
  In (Standin.lookup_table known sub) (Standin.mkTable [[]] [] :: map snd known).
Proof.
  induction known as [| [k T] rest IH]; cbn [Standin.lookup_table map snd].
  - left. reflexivity.
  - destruct (Standin.subgens_eqb k sub).
    + right. left. reflexivity.
    + destruct IH as [H | H]; [left; exact H | right; right; exact H].
Qed.

Lemma Standin_words_valid (known : list (list word * Standin.Table)) (gens : list Z) :
  forallb (fun T => words_check gens (Standin.table_words T))
          (Standin.mkTable [[]] [] :: map snd known) = true ->
  forall sub w, In w (Standin.table_words (Standin.lookup_table known sub)) ->
    Forall (fun g => In g gens) w.
Proof.
  intros H sub w Hw. rewrite forallb_forall in H.
  specialize (H _ (Standin_lookup known sub)).
  apply words_check_sound in H. rewrite Forall_forall in H. apply H. exact Hw.
Qed.

Lemma Standin_words_nonempty (known : list (list word * Standin.Table)) :
  forallb (fun T => negb (Nat.eqb (length (Standin.table_words T)) 0))
          (Standin.mkTable [[]] [] :: map snd known) = true ->
  forall sub, Standin.table_words (Standin.lookup_table known sub) <> [].
Proof.
  intros H sub Hnil. rewrite forallb_forall in H.
  specialize (H _ (Standin_lookup known sub)). rewrite Hnil in H. discriminate.
Qed.

Section TetrahedronMore.

#[local] Existing Instance Tetrahedron.NP.
#[local] Existing Instance Tetrahedron.CE.
#[local] Existing Instance Tetrahedron.HP.

Lemma BasePolytope_init_square_witness :
  exists P rels,
    BasePolytope_init Tetrahedron.diagram Tetrahedron.init_dist [] = Ok P /\
    symmetry_rels P = rels ++ [] /\
    2 * py_len rels = 3 * (3 - 1).
Proof.
  destruct (BasePolytope_init_square Tetrahedron.diagram Tetrahedron.init_dist [])
    as [P [rels [Hrun [_ [_ [_ [_ [Hrels [_ [Hcount _]]]]]]]]]].
  - vm_compute. repeat constructor.
  - exists P, rels. split; [exact Hrun |]. split; [exact Hrels | exact Hcount].
Defined.

Lemma Resting_polytope :
  Polyhedra_init Tetrahedron.diagram [PyInt 0; PyInt 0; PyInt 0] [] = Ok Resting.polytope.
Proof. vm_compute. reflexivity. Qed.

Lemma no_active_mirror_nothing_added_witness :
  get_edges Resting.polytope = Ok Resting.polytope /\
  (well_formed Resting.polytope -> get_faces Resting.polytope = Ok Resting.polytope).
Proof.
  apply (no_active_mirror_nothing_added Resting.polytope).
  vm_compute. repeat constructor.
Defined.

Lemma Tetrahedron_well_formed0 : well_formed Tetrahedron.polytope0.
Proof. unfold well_formed. vm_compute. repeat split; repeat constructor. Qed.

Lemma get_edges_before_get_vertices_witness :
  get_edges Tetrahedron.polytope0 = Raise TypeError.
Proof.
  apply (get_edges_before_get_vertices Tetrahedron.polytope0).
  - exact Tetrahedron_well_formed0.
  - reflexivity.
  - intros sub. apply (Standin_words_nonempty Tetrahedron.known). vm_compute. reflexivity.
  - vm_compute. left. reflexivity.
Defined.

Lemma get_edges_in_range_witness :
  exists P' added,
    get_edges Tetrahedron.polytope1 = Ok P' /\
    edge_indices P' = edge_indices Tetrahedron.polytope1 ++ added /\
    Forall (Forall (fun e : Z * Z => is_vertex Tetrahedron.polytope1 (fst e) /\
                                     is_vertex Tetrahedron.polytope1 (snd e))) added.
Proof.
  destruct (get_edges_in_range Tetrahedron.polytope1
              Tetrahedron_well_formed Tetrahedron_table_closed Tetrahedron_words_valid)
    as [P' [added [Hrun [He [_ Hin]]]]].
  exists P', added. split; [exact Hrun |]. split; [exact He | exact Hin].
Defined.

Lemma Tetrahedron_orders (i j m : Z) :
  In (i, j) (combinations2 (symmetry_gens Tetrahedron.polytope1)) ->
  matrix_at Tetrahedron.polytope1 i j = Ok m -> 2 <= m.
Proof.
  intros Hin Hm. cbn in Hin.
  destruct Hin as [H | [H | [H | []]]]; injection H as <- <-;
    vm_compute in Hm; injection Hm as <-; lia.
Qed.

Lemma get_faces_in_range_witness :
  exists P' added,
    get_faces Tetrahedron.polytope1 = Ok P' /\
    face_indices P' = face_indices Tetrahedron.polytope1 ++ added /\
    Forall (Forall (Forall (is_vertex Tetrahedron.polytope1))) added /\
    Forall (Forall (fun f : list Z => 3 <= py_len f)) added.
Proof.
  destruct (get_faces_in_range Tetrahedron.polytope1
              Tetrahedron_well_formed Tetrahedron_table_closed Tetrahedron_words_valid)
    as [P' [added [Hrun [Hf [Hin Hlen]]]]].
  exists P', added. split; [exact Hrun |]. split; [exact Hf |].
  split; [exact Hin | exact (Hlen Tetrahedron_orders)].
Defined.

Lemma build_geometry_counts_witness :
  exists P', build_geometry Tetrahedron.polytope0 = Ok P' /\ counts_agree P'.
Proof.
  destruct Tetrahedron_counts as [P' [Hrun _]].
  exists P'. split; [exact Hrun |].
  apply (build_geometry_counts Tetrahedron.polytope0 P' Hrun); reflexivity.
Defined.

Lemma orthogonal_mirrors_of_nothing_witness :
  get_orthogonal_stabilizing_mirrors Tetrahedron.polytope1 [] = Ok [[1]; [2]].
Proof.
  apply (orthogonal_mirrors_of_nothing Tetrahedron.polytope1).
  exact Tetrahedron_well_formed.
Defined.

Lemma orthogonal_mirrors_antitone_witness :
  exists r r',
    get_orthogonal_stabilizing_mirrors Tetrahedron.polytope1 [0] = Ok r /\
    get_orthogonal_stabilizing_mirrors Tetrahedron.polytope1 [0; 1] = Ok r' /\
    incl r' r.
Proof.
  apply (orthogonal_mirrors_antitone Tetrahedron.polytope1 [0] [0; 1]).
  - exact Tetrahedron_well_formed.
  - constructor; [apply Tetrahedron_generators; auto |].
    constructor; [apply Tetrahedron_generators; auto | constructor].
  - intros x [<- | []]. left. reflexivity.
Defined.

End TetrahedronMore.

Section IcosahedronRun.

#[local] Existing Instance Icosahedron.NP.
#[local] Existing Instance Icosahedron.CE.
#[local] Existing Instance Icosahedron.HP.

Lemma Icosahedron_snub0 : Snub_init [3; 2; 3] Snub_default_init_dist = Ok Icosahedron.snub0.
Proof. vm_compute. reflexivity. Qed.

Lemma Icosahedron_snub1 : Snub_get_vertices Icosahedron.snub0 = Ok Icosahedron.snub1.
Proof. vm_compute. reflexivity. Qed.

(** The snub tetrahedron has 12 vertices, 30 edges and 20 faces. *)
Example Icosahedron_counts :
  exists X,
    Snub_build_geometry Icosahedron.snub0 = SOk X /\
    num_vertices (snub_base X) = 12 /\ num_edges (snub_base X) = 30 /\
    num_faces (snub_base X) = 20.
Proof. eexists. split; [vm_compute; reflexivity |]. repeat split. Qed.

Lemma Icosahedron_generators (g : Z) :
  In g [0; 1; 2; 3] -> is_generator (snub_base Icosahedron.snub1) g.
Proof. intros H. exact H. Qed.

Lemma Icosahedron_ready :
  snub_ready (snub_base Icosahedron.snub1) Icosahedron.vertex_words.
Proof.
  split; [apply closed_check_sound; vm_compute; reflexivity |].
  split; [reflexivity |].
  split.
  - apply (words_check_sound [0; 1; 2; 3]). vm_compute. reflexivity.
  - intros rot w Hw.
    apply (Standin_words_valid Icosahedron.known [0; 1; 2; 3]) with (sub := [rot]);
      [vm_compute; reflexivity | exact Hw].
Qed.

Lemma Icosahedron_rotations :
  Forall (fun item : word * Z =>
            Forall (is_generator (snub_base Icosahedron.snub1)) (fst item))
         (rotations Icosahedron.snub1).
Proof.
  apply Forall_forall. intros [rot order] Hin. cbn in Hin.
  destruct Hin as [H | [H | [H | []]]]; injection H as <- _; cbn [fst];
    repeat (constructor; [apply Icosahedron_generators; cbn; auto 10 |]); constructor.
Qed.

Lemma Snub_get_vertices_coords_witness :
  exists S' ws,
    Snub_get_vertices Icosahedron.snub0 = Ok S' /\
    vwords (snub_base S') = Some ws /\
    num_vertices (snub_base S') = py_len ws.
Proof.
  destruct (Snub_get_vertices_coords Icosahedron.snub0)
    as [S' [ws [Hrun [_ [Hvw [Hn _]]]]]].
  - vm_compute. intros H. discriminate H.
  - exists S', ws. split; [exact Hrun |]. split; [exact Hvw | exact Hn].
Defined.

Lemma snub_get_edges_orbits_witness :
  exists S' lists,
    Snub_get_edges Icosahedron.snub1 = SOk S' /\
    Snub24Cell_get_edges Icosahedron.snub1 = SOk S' /\
    edge_indices (snub_base S') = edge_indices (snub_base Icosahedron.snub1) ++ lists.
Proof.
  destruct (snub_get_edges_orbits Icosahedron.snub1 Icosahedron.vertex_words
              Icosahedron_ready Icosahedron_rotations)
    as [S' [lists [H1 [H2 [_ [He _]]]]]].
  - vm_compute. repeat constructor; cbn; intuition discriminate.
  - exists S', lists. split; [exact H1 |]. split; [exact H2 | exact He].
Defined.

Lemma Snub_get_faces_orbits_witness :
  exists S' os triangles,
    Snub_get_faces Icosahedron.snub1 = SOk S' /\
    face_indices (snub_base S') =
      face_indices (snub_base Icosahedron.snub1) ++ somes os ++ [triangles] /\
    py_len triangles = 12.
Proof.
  destruct (Snub_get_faces_orbits Icosahedron.snub1 Icosahedron.vertex_words
              Icosahedron_ready Icosahedron_rotations)
    as [S' [os [tri [Hrun [Hf [_ [_ Htri]]]]]]].
  - apply Icosahedron_generators. cbn. auto.
  - apply Icosahedron_generators. cbn. auto.
  - exists S', os, tri. split; [exact Hrun |]. split; [exact Hf |].
    apply Forall2_length in Htri. unfold py_len. rewrite <- Htri. reflexivity.
Defined.

Lemma snub_methods_before_get_vertices_witness :
  Snub_get_edges Icosahedron.snub0 = SRaise AttributeError /\
  Snub_get_faces Icosahedron.snub0 = SRaise (Inherited TypeError).
Proof.
  destruct (snub_methods_before_get_vertices Icosahedron.snub0 [0] 3
              [([2], 3); ([0; 2], 2)])
    as [He [_ [Hf _]]].
  - reflexivity.
  - reflexivity.
  - reflexivity.
  - discriminate.
  - split; [exact He | exact Hf].
Defined.

End IcosahedronRun.

Section Snub24Run.

#[local] Existing Instance Snub24.NP.
#[local] Existing Instance Snub24.CE.
#[local] Existing Instance Snub24.HP.

Lemma Snub24_snub0 : Snub24Cell_init = Ok Snub24.snub0.
Proof. vm_compute. reflexivity. Qed.

Lemma Snub24_snub1 : Snub24Cell_get_vertices Snub24.snub0 = Ok Snub24.snub1.
Proof. vm_compute. reflexivity. Qed.

(** The snub 24-cell has 96 vertices, 432 edges and 480 faces. *)
Example Snub24_counts :
  exists X,
    Snub24Cell_build_geometry Snub24.snub0 = SOk X /\
    num_vertices (snub_base X) = 96 /\ num_edges (snub_base X) = 432 /\
    num_faces (snub_base X) = 480.
Proof. eexists. split; [vm_compute; reflexivity |]. repeat split. Qed.

Lemma Snub24_generators (g : Z) :
  In g [0; 1; 2; 3; 4; 5] -> is_generator (snub_base Snub24.snub1) g.
Proof. intros H. exact H. Qed.

Lemma Snub24_ready : snub_ready (snub_base Snub24.snub1) Snub24.vertex_words.
Proof.
  split; [apply closed_check_sound; vm_compute; reflexivity |].
  split; [reflexivity |].
  split.
  - apply (words_check_sound [0; 1; 2; 3; 4; 5]). vm_compute. reflexivity.
  - intros rot w Hw.
    apply (Standin_words_valid Snub24.known [0; 1; 2; 3; 4; 5]) with (sub := [rot]);
      [vm_compute; reflexivity | exact Hw].
Qed.

Lemma Snub24Cell_get_vertices_coords_witness :
  exists S' ws,
    Snub24Cell_get_vertices Snub24.snub0 = Ok S' /\
    vwords (snub_base S') = Some ws /\
    num_vertices (snub_base S') = py_len ws.
Proof.
  destruct (Snub24Cell_get_vertices_coords Snub24.snub0)
    as [S' [ws [Hrun [_ [Hvw [Hn _]]]]]].
  - vm_compute. intros H. discriminate H.
  - exists S', ws. split; [exact Hrun |]. split; [exact Hvw | exact Hn].
Defined.

Lemma Snub24Cell_get_faces_orbits_witness :
  exists S' fr fs ft t1 t2 t3 t4,
    Snub24Cell_get_faces Snub24.snub1 = SOk S' /\
    face_indices (snub_base S') =
      face_indices (snub_base Snub24.snub1) ++ [fr; fs; ft; t1; t2; t3; t4] /\
    Forall (Forall (is_triangle (snub_base Snub24.snub1))) [fr; fs; ft; t1; t2; t3; t4].
Proof.
  destruct (Snub24Cell_get_faces_orbits Snub24.snub1 Snub24.vertex_words Snub24_ready)
    as [S' [fr [fs [ft [t1 [t2 [t3 [t4 [Hrun [Hf [_ [_ [Htri _]]]]]]]]]]]]].
  - reflexivity.
  - apply Forall_forall. intros g Hg. apply Snub24_generators.
    cbn in Hg. cbn. intuition.
  - exists S', fr, fs, ft, t1, t2, t3, t4.
    split; [exact Hrun |]. split; [exact Hf | exact Htri].
Defined.

End Snub24Run.
